(** * OKX trading front end: order forms, account views, API client, WebSocket

    A shallow embedding of the TypeScript sources of the trading front end
    (lib/api.ts, ManualTradingView, OKXAccountView, OKXTradingPanel and the
    WebSocket set-up of main.tsx), with the properties its specification
    states about them. *)

From Stdlib Require Import ZArith QArith Qabs List String Ascii Bool Lia.
From Stdlib Require Import DecimalString.
From stdpp Require Import base list strings.
Import ListNotations.

Open Scope string_scope.
Open Scope list_scope.

(* ===================================================================== *)
(** * JavaScript numbers and [parseFloat] *)
(* ===================================================================== *)

Module JS.

(** A string is the UTF-8 text of the JavaScript string it stands for: a
    character beyond the ASCII range is the two, three or four bytes of its
    encoding.  A JavaScript string with an unpaired surrogate has no such
    text and is not in the model. *)

(** The characters of a string are all of the ASCII range. *)
Fixpoint is_ascii (s : string) : bool :=
  match s with
  | EmptyString => true
  | String c r => (nat_of_ascii c <? 128)%nat && is_ascii r
  end.

(** A JavaScript number.  A finite value is kept as the exact rational the
    program text denotes instead of the nearest double: rounding to nearest
    preserves the sign and never turns a value of the double range into zero,
    so every comparison with [0] made by the sources is unchanged.  Values
    beyond the range become an infinity or zero as in IEEE 754. *)
Inductive number : Type :=
| NaN
| PInf
| NInf
| Fin (q : Q).

(** [x <= 0]: false on [NaN]. *)
Definition le0 (x : number) : bool :=
  match x with
  | NaN => false
  | PInf => false
  | NInf => true
  | Fin q => Qle_bool q 0
  end.

(** [x > 0]: false on [NaN]. *)
Definition gt0 (x : number) : bool :=
  match x with
  | NaN => false
  | PInf => true
  | NInf => false
  | Fin q => negb (Qle_bool q 0)
  end.

Definition isNaN (x : number) : bool :=
  match x with NaN => true | _ => false end.

(** Truthiness of a string: only the empty string is falsy. *)
Definition truthy (s : string) : bool :=
  match s with EmptyString => false | String _ _ => true end.

(** [a || b] on strings. *)
Definition or_else (a b : string) : string := if truthy a then a else b.

(** [s.toUpperCase()] on the ASCII letters. *)
Definition upper (c : ascii) : ascii :=
  let n := nat_of_ascii c in
  if (97 <=? n)%nat && (n <=? 122)%nat then ascii_of_nat (n - 32) else c.

Fixpoint toUpperCase (s : string) : string :=
  match s with
  | EmptyString => EmptyString
  | String c r => String (upper c) (toUpperCase r)
  end.

(** ** Lexing a decimal literal *)

Definition is_digit (c : ascii) : bool :=
  let n := nat_of_ascii c in (48 <=? n)%nat && (n <=? 57)%nat.

Definition digit_val (c : ascii) : Z := Z.of_nat (nat_of_ascii c) - 48.

(** White space and line terminators of the ASCII range. *)
Definition is_space (c : ascii) : bool :=
  let n := nat_of_ascii c in
  ((9 <=? n)%nat && (n <=? 13)%nat) || (n =? 32)%nat.

(** The white space of two bytes: U+00A0. *)
Definition is_space2 (c c1 : ascii) : bool :=
  (nat_of_ascii c =? 194)%nat && (nat_of_ascii c1 =? 160)%nat.

(** The white space and line terminators of three bytes: U+1680, U+2000 to
    U+200A, U+2028, U+2029, U+202F, U+205F, U+3000 and U+FEFF. *)
Definition is_space3 (c c1 c2 : ascii) : bool :=
  let n := nat_of_ascii c in
  let n1 := nat_of_ascii c1 in
  let n2 := nat_of_ascii c2 in
  ((n =? 225)%nat && (n1 =? 154)%nat && (n2 =? 128)%nat)
  || ((n =? 226)%nat && (n1 =? 128)%nat
      && (((128 <=? n2)%nat && (n2 <=? 138)%nat)
          || (n2 =? 168)%nat || (n2 =? 169)%nat || (n2 =? 175)%nat))
  || ((n =? 226)%nat && (n1 =? 129)%nat && (n2 =? 159)%nat)
  || ((n =? 227)%nat && (n1 =? 128)%nat && (n2 =? 128)%nat)
  || ((n =? 239)%nat && (n1 =? 187)%nat && (n2 =? 191)%nat).

(** Leading white space and line terminators are skipped. *)
Fixpoint trim_start (s : string) : string :=
  match s with
  | String c r =>
      if is_space c then trim_start r
      else
        match r with
        | String c1 r1 =>
            if is_space2 c c1 then trim_start r1
            else
              match r1 with
              | String c2 r2 => if is_space3 c c1 c2 then trim_start r2 else s
              | EmptyString => s
              end
        | EmptyString => s
        end
  | EmptyString => s
  end.

(** The longest run of digits at the head of [s], as its value so far, the
    number of digits read and the rest of the string. *)
Fixpoint digits (acc : Z) (n : Z) (s : string) : Z * Z * string :=
  match s with
  | String c r => if is_digit c then digits (10 * acc + digit_val c) (n + 1) r
                  else (acc, n, s)
  | EmptyString => (acc, n, s)
  end.

(** An exponent part [e], [e+] or [e-] followed by at least one digit;
    otherwise no exponent is read. *)
Definition exponent (s : string) : Z :=
  match s with
  | String c r =>
      if (c =? "e")%char || (c =? "E")%char then
        match r with
        | String sg r' =>
            if (sg =? "-")%char then
              let '(v, n, _) := digits 0 0 r' in if (0 <? n)%Z then (- v)%Z else 0%Z
            else if (sg =? "+")%char then
              let '(v, n, _) := digits 0 0 r' in if (0 <? n)%Z then v else 0%Z
            else
              let '(v, n, _) := digits 0 0 r in if (0 <? n)%Z then v else 0%Z
        | EmptyString => 0%Z
        end
      else 0%Z
  | EmptyString => 0%Z
  end.

(** Largest magnitude that still rounds to a finite double is just below
    [2^1024 - 2^970]; the smallest that does not round to zero is just above
    [2^-1075]. *)
Definition overflow_bound : Q := inject_Z (2 ^ 1024 - 2 ^ 970).
Definition underflow_bound : Q := 1 # (2 ^ 1075).

(** The number denoted by mantissa [m >= 0], decimal exponent [e] and sign. *)
Definition of_decimal (neg : bool) (m e : Z) : number :=
  let v := (inject_Z m * Qpower (10 # 1) e)%Q in
  if Qle_bool overflow_bound v then (if neg then NInf else PInf)
  else if Qle_bool v underflow_bound then Fin 0
  else Fin (if neg then (- v)%Q else v).

(** [s.startsWith(p)] *)
Fixpoint starts_with (p s : string) : bool :=
  match p with
  | EmptyString => true
  | String a p' =>
      match s with
      | String b s' => (a =? b)%char && starts_with p' s'
      | EmptyString => false
      end
  end.

(** The unsigned part of a [StrDecimalLiteral] prefix. *)
Definition unsigned_literal (neg : bool) (s : string) : number :=
  if starts_with "Infinity" s then (if neg then NInf else PInf)
  else
    let '(i, ni, r) := digits 0 0 s in
    match r with
    | String c r1 =>
        if (c =? ".")%char then
          let '(m, nf, r2) := digits i 0 r1 in
          if (0 <? ni + nf)%Z then of_decimal neg m (exponent r2 - nf) else NaN
        else if (0 <? ni)%Z then of_decimal neg i (exponent r) else NaN
    | EmptyString => if (0 <? ni)%Z then of_decimal neg i (exponent r) else NaN
    end.

(** [parseFloat(s)]: leading white space is skipped, the longest prefix that
    is a decimal literal is read, anything after it is ignored; [NaN] when
    there is no such prefix. *)
Definition parseFloat (s : string) : number :=
  match trim_start s with
  | String c r =>
      if (c =? "-")%char then unsigned_literal true r
      else if (c =? "+")%char then unsigned_literal false r
      else unsigned_literal false (String c r)
  | EmptyString => unsigned_literal false EmptyString
  end.

(** ** The value of a number input

    The forms read amount and price from [<input type="number">], whose
    value is the empty string or a valid floating-point number of HTML: an
    optional minus sign, then digits with an optional fraction or a fraction
    alone, then an optional exponent. *)

(** The text after the sign of an exponent, if there is a sign. *)
Definition after_sign (s : string) : string :=
  match s with
  | String c r => if (c =? "-")%char || (c =? "+")%char then r else s
  | EmptyString => s
  end.

Definition is_empty (s : string) : bool :=
  match s with EmptyString => true | String _ _ => false end.

Definition exponent_ok (s : string) : bool :=
  match s with
  | EmptyString => true
  | String c r =>
      ((c =? "e")%char || (c =? "E")%char)
      && let '(_, n, rest) := digits 0 0 (after_sign r) in
         (0 <? n)%Z && is_empty rest
  end.

Definition valid_unsigned (s : string) : bool :=
  let '(_, ni, r) := digits 0 0 s in
  match r with
  | String c r1 =>
      if (c =? ".")%char then
        let '(_, nf, r2) := digits 0 0 r1 in (0 <? nf)%Z && exponent_ok r2
      else (0 <? ni)%Z && exponent_ok r
  | EmptyString => (0 <? ni)%Z
  end.

Definition valid_float (s : string) : bool :=
  match s with
  | String c r => if (c =? "-")%char then valid_unsigned r else valid_unsigned s
  | EmptyString => false
  end.

Definition number_input_value (s : string) : bool := is_empty s || valid_float s.

End JS.

(* ===================================================================== *)
(** * Data of lib/api.ts *)
(* ===================================================================== *)

Inductive Side : Type := buy | sell.
Inductive PosSide : Type := long | short.
Inductive OrderType : Type := market | limit.

Definition Side_str (s : Side) : string :=
  match s with buy => "buy" | sell => "sell" end.
Definition PosSide_str (p : PosSide) : string :=
  match p with long => "long" | short => "short" end.
Definition OrderType_str (t : OrderType) : string :=
  match t with market => "market" | limit => "limit" end.

Definition is_limit (t : OrderType) : bool :=
  match t with limit => true | market => false end.

Record OKXBalance : Type := {
  b_currency : string;
  b_total : JS.number;
  b_free : JS.number;
  b_used : JS.number
}.

Record OKXPosition : Type := {
  p_symbol : string;
  p_side : string;
  p_contracts : JS.number;
  p_contractSize : JS.number;
  p_notional : JS.number;
  p_leverage : JS.number;
  p_unrealizedPnl : JS.number;
  p_percentage : JS.number;
  p_entryPrice : JS.number;
  p_markPrice : JS.number;
  p_liquidationPrice : JS.number;
  p_marginMode : string;
  p_timestamp : JS.number;
  p_datetime : string
}.

Record OKXOrder : Type := {
  o_id : string;
  o_clientOrderId : option string;
  o_symbol : string;
  o_type : string;
  o_side : string;
  o_price : JS.number;
  o_amount : JS.number;
  o_filled : JS.number;
  o_remaining : JS.number;
  o_status : string;
  o_timestamp : JS.number;
  o_datetime : string
}.

Record OKXTrade : Type := {
  t_id : string;
  t_order : string;
  t_symbol : string;
  t_type : string;
  t_side : string;
  t_price : JS.number;
  t_amount : JS.number;
  t_cost : JS.number;
  t_fee : option (JS.number * string);
  t_timestamp : JS.number;
  t_datetime : string
}.

Record OKXAccountSummary : Type := {
  total_balance_usdt : JS.number;
  positions_value : JS.number;
  unrealized_pnl : JS.number;
  positions_count : JS.number;
  open_orders_count : JS.number;
  free_usdt : JS.number;
  used_usdt : JS.number
}.

(** [PlaceOKXOrderRequest]: [price] is optional. *)
Record PlaceOKXOrderRequest : Type := {
  r_symbol : string;
  r_side : Side;
  r_quantity : JS.number;
  r_orderType : OrderType;
  r_price : option JS.number
}.

(** The body of a response, with the fields the front end reads; each API
    function promises the ones of its result type.  [order_id] is the text
    that a template writes for the property, and [None] where the body has
    none, for which a template writes [undefined]. *)
Module Res.
Record Payload : Type := {
  success : bool;
  assets : list OKXBalance;
  positions : list OKXPosition;
  orders : list OKXOrder;
  trades : list OKXTrade;
  summary : option OKXAccountSummary;
  order_id : option string;        (* [order_id?: string] *)
  error : string;
  detail : string;
  message : string
}.

(** A body with [success] and nothing else. *)
Definition plain (ok : bool) : Payload :=
  {| success := ok; assets := []; positions := []; orders := []; trades := [];
     summary := None; order_id := None; error := ""; detail := "";
     message := "" |}.
End Res.
Abbreviation Payload := Res.Payload.

(* ===================================================================== *)
(** * Effects: what a handler does besides updating its component's state *)
(* ===================================================================== *)

(** A thrown [Error]. *)
Record Error : Type := { message : string }.

(** How an evaluation ends: with a value, or by throwing. *)
Inductive Outcome (A : Type) : Type :=
| Val (a : A)
| Exn (e : Error).
Arguments Val {A} a.
Arguments Exn {A} e.

(** A JSON value of a request body. *)
Inductive json : Type :=
| JNull
| JNum (n : JS.number)
| JStr (s : string).

(** [JSON.stringify] of one property: an [undefined] value drops the
    property, a number that is not finite is written [null]. *)
Definition json_of_number (n : JS.number) : json :=
  match n with JS.Fin _ => JNum n | _ => JNull end.

Definition property (k : string) (v : option json) : list (string * json) :=
  match v with Some j => [(k, j)] | None => [] end.

Inductive HttpMethod : Type := GET | POST.

Record HttpRequest : Type := {
  h_method : HttpMethod;
  h_url : string;
  h_body : list (string * json)
}.

Record HttpResponse : Type := {
  h_ok : bool;
  h_status : Z;
  h_content_type : option string;
  h_json : Outcome Payload
}.

(** The API functions the newer views call with an account id; the version
    of lib/api.ts that defines them with that parameter is not part of the
    sources, so a call is recorded by its name and arguments. *)
Inductive ApiCall : Type :=
| getOKXAccountSummary (accountId : Z)
| getOKXBalance (accountId : Z)
| getOKXPositions (accountId : Z)
| getOKXOpenOrders (accountId : Z)
| getOKXOrderHistory (accountId : Z)
| getOKXTrades (accountId : Z)
| placeOKXOrder (accountId : Z) (req : PlaceOKXOrderRequest) (posSide : PosSide).

Inductive ToastKind : Type := toast_error | toast_success | toast_plain.

Inductive Event : Type :=
| Toast (k : ToastKind) (msg : string)
| ConsoleError (msg : string)
| Fetch (r : HttpRequest)
| Call (c : ApiCall)
| SetTimeout (ms : Z).

Definition is_network (e : Event) : bool :=
  match e with Fetch _ | Call _ => true | _ => false end.

(** The requests a run issued, in order. *)
Definition network (log : list Event) : list Event := List.filter is_network log.

(** The remote side: what each request is answered with. *)
Record Remote : Type := {
  http : HttpRequest -> Outcome HttpResponse;
  api : ApiCall -> Outcome Payload
}.

(** ** The monad of a handler

    A computation reads the remote side, updates the pending state of its
    component and logs its events; it ends with a value or an exception. *)

Definition M (S A : Type) : Type := Remote -> S -> Outcome A * S * list Event.

Section Monad.
Context {S : Type}.

Definition ret {A} (a : A) : M S A := fun _ s => (Val a, s, []).

Definition bind {A B} (m : M S A) (k : A -> M S B) : M S B :=
  fun w s =>
    match m w s with
    | (Val a, s1, l1) => let '(o, s2, l2) := k a w s1 in (o, s2, l1 ++ l2)
    | (Exn e, s1, l1) => (Exn e, s1, l1)
    end.

Definition throw {A} (e : Error) : M S A := fun _ s => (Exn e, s, []).

Definition emit (e : Event) : M S unit := fun _ s => (Val tt, s, [e]).

(** A state setter of React: the update is pending in [s]. *)
Definition set (f : S -> S) : M S unit := fun _ s => (Val tt, f s, []).

Definition remote : M S Remote := fun w s => (Val w, s, []).

(** [try { body } catch (e) { handler }] *)
Definition try_catch {A} (body : M S A) (handler : Error -> M S A) : M S A :=
  fun w s =>
    match body w s with
    | (Val a, s1, l1) => (Val a, s1, l1)
    | (Exn e, s1, l1) => let '(o, s2, l2) := handler e w s1 in (o, s2, l1 ++ l2)
    end.

(** [try { body } finally { final }]: [final] always runs; unless it throws
    itself, the outcome is that of [body]. *)
Definition try_finally {A} (body : M S A) (final : M S unit) : M S A :=
  fun w s =>
    let '(o, s1, l1) := body w s in
    match final w s1 with
    | (Val _, s2, l2) => (o, s2, l1 ++ l2)
    | (Exn e, s2, l2) => (Exn e, s2, l1 ++ l2)
    end.

Definition when (b : bool) (m : M S unit) : M S unit :=
  if b then m else ret tt.

(** [await fetch(...)]: the request goes out, the remote side answers. *)
Definition fetch (r : HttpRequest) : M S HttpResponse :=
  fun w s => (http w r, s, [Fetch r]).

Definition call (c : ApiCall) : M S Payload :=
  fun w s => (api w c, s, [Call c]).

(** Outcome of an evaluation that is already under way. *)
Definition settle {A} (o : Outcome A) : M S A := fun _ s => (o, s, []).

(** Running [m] and keeping how it ended as a value. *)
Definition attempt {A} (m : M S A) : M S (Outcome A) :=
  fun w s => let '(o, s1, l1) := m w s in (Val o, s1, l1).

(** A call of an async function whose promise is dropped: what it throws
    does not reach the caller.  The call is run where it is made, to its end;
    in the browser the part after its first [await] runs once the caller has
    returned, so its later notices come after those of the caller.  The
    requests go out in the same order either way, and the handlers make such
    calls on state variables that the caller does not write afterwards and
    that the other calls do not write, so the requests made and the state
    that is left, of which the properties below speak, are the same. *)
Definition unawaited {A} (m : M S A) : M S unit :=
  fun w s => let '(_, s1, l1) := m w s in (Val tt, s1, l1).

(** [await Promise.all([a, b, c])]: the three calls are made, then all are
    awaited; one rejection rejects the whole.  When several reject, the
    error is that of the first in the array: the handlers only log it. *)
Definition promise_all3 {A B C} (a : M S A) (b : M S B) (c : M S C)
    : M S (A * B * C) :=
  fun w s =>
    let '(oa, s1, l1) := a w s in
    let '(ob, s2, l2) := b w s1 in
    let '(oc, s3, l3) := c w s2 in
    (match oa, ob, oc with
     | Val x, Val y, Val z => Val (x, y, z)
     | Exn e, _, _ => Exn e
     | _, Exn e, _ => Exn e
     | _, _, Exn e => Exn e
     end, s3, l1 ++ l2 ++ l3).
End Monad.

Declare Scope handler_scope.
Delimit Scope handler_scope with handler.
Notation "x <- c1 ;;; c2" := (bind c1 (fun x => c2))
  (at level 100, c1 at next level, right associativity) : handler_scope.
Notation "c1 ;;; c2" := (bind c1 (fun _ => c2))
  (at level 100, right associativity) : handler_scope.
Open Scope handler_scope.

(** Running a handler of a component rendered with state [s]. *)
Definition run {S A} (m : M S A) (w : Remote) (s : S) : Outcome A * S * list Event :=
  m w s.
Definition state_of {S A} (r : Outcome A * S * list Event) : S := snd (fst r).
Definition log_of {S A} (r : Outcome A * S * list Event) : list Event := snd r.
Definition outcome_of {S A} (r : Outcome A * S * list Event) : Outcome A := fst (fst r).

(* ===================================================================== *)
(** * lib/api.ts *)
(* ===================================================================== *)

Module Api.

Definition API_BASE_URL : string := "/api".

(** Decimal text of an integer, as [Number.prototype.toString] writes it
    for the integers below 10^21 in magnitude; from there on JavaScript
    writes an exponent. *)
Definition Z_str (z : Z) : string := NilZero.string_of_int (Z.to_int z).

(** [s.includes(sub)] *)
Definition includes (sub s : string) : bool :=
  match String.index 0 sub s with Some _ => true | None => false end.

(** ** [URLSearchParams] *)

Definition hex_digit (n : nat) : ascii :=
  ascii_of_nat (if (n <? 10)%nat then 48 + n else 55 + n).

(** The bytes the form-urlencoded serializer leaves as they are; the other
    bytes of the UTF-8 text are percent-encoded one by one. *)
Definition unreserved (c : ascii) : bool :=
  let n := nat_of_ascii c in
  ((48 <=? n)%nat && (n <=? 57)%nat) || ((65 <=? n)%nat && (n <=? 90)%nat)
  || ((97 <=? n)%nat && (n <=? 122)%nat)
  || (n =? 42)%nat || (n =? 45)%nat || (n =? 46)%nat || (n =? 95)%nat.

Fixpoint urlencode (s : string) : string :=
  match s with
  | EmptyString => EmptyString
  | String c r =>
      if unreserved c then String c (urlencode r)
      else if (c =? " ")%char then String "+" (urlencode r)
      else let n := nat_of_ascii c in
           String "%" (String (hex_digit (n / 16)) (String (hex_digit (n mod 16))
             (urlencode r)))
  end.

Definition URLSearchParams : Type := list (string * string).

Definition append (k v : string) (params : URLSearchParams) : URLSearchParams :=
  params ++ [(k, v)].

Fixpoint toString (params : URLSearchParams) : string :=
  match params with
  | [] => ""
  | [(k, v)] => urlencode k +:+ "=" +:+ urlencode v
  | (k, v) :: rest => urlencode k +:+ "=" +:+ urlencode v +:+ "&" +:+ toString rest
  end.

(** The truthiness test [if (symbol)] of an optional string argument. *)
Definition given (symbol : option string) : bool :=
  match symbol with Some s => JS.truthy s | None => false end.

Definition text (symbol : option string) : string := default "" symbol.

(** ** Requests *)

Section Requests.
Context {S : Type}.

(** [apiRequest(endpoint, options)].  The message read from the body of a
    response that is not ok is thrown inside the [try] whose [catch] throws
    the status message in its place. *)
Definition apiRequest (endpoint : string) (method : HttpMethod)
    (body : list (string * json)) : M S HttpResponse :=
  let url := API_BASE_URL +:+ endpoint in
  response <- fetch {| h_method := method; h_url := url; h_body := body |} ;;;
  let status_message :=
    "HTTP error! status: " +:+ Z_str (h_status response) in
  if negb (h_ok response) then
    try_catch
      (errorData <- settle (h_json response) ;;;
       throw {| message := JS.or_else (Res.detail errorData)
                             (JS.or_else (Res.message errorData) status_message) |})
      (fun _ => throw {| message := status_message |})
  else
    match h_content_type response with
    | Some contentType =>
        if includes "application/json" contentType then ret response
        else throw {| message := "Response is not JSON" |}
    | None => throw {| message := "Response is not JSON" |}
    end.

(** [return response.json()] *)
Definition json_of (endpoint : string) (method : HttpMethod)
    (body : list (string * json)) : M S Payload :=
  response <- apiRequest endpoint method body ;;;
  settle (h_json response).

Definition getOKXStatus : M S Payload := json_of "/okx-account/status" GET [].

Definition getOKXBalance : M S Payload := json_of "/okx-account/balance" GET [].

Definition getOKXPositions (symbol : option string) : M S Payload :=
  let endpoint :=
    if given symbol then "/okx-account/positions?symbol=" +:+ text symbol
    else "/okx-account/positions" in
  json_of endpoint GET [].

Definition getOKXOpenOrders (symbol : option string) : M S Payload :=
  let endpoint :=
    if given symbol then "/okx-account/orders/open?symbol=" +:+ text symbol
    else "/okx-account/orders/open" in
  json_of endpoint GET [].

(** The query of the two history functions; [limit] and [days] default to
    100 and 7 when the caller leaves them out. *)
Definition history_params (symbol : option string) (limit days : option Z)
    : URLSearchParams :=
  let limit := default 100%Z limit in
  let days := default 7%Z days in
  let params := [] in
  let params := if given symbol then append "symbol" (text symbol) params
                else params in
  let params := append "limit" (Z_str limit) params in
  let params := append "days" (Z_str days) params in
  params.

Definition getOKXOrderHistory_endpoint (symbol : option string)
    (limit days : option Z) : string :=
  "/okx-account/orders/history?" +:+ toString (history_params symbol limit days).

Definition getOKXTrades_endpoint (symbol : option string)
    (limit days : option Z) : string :=
  "/okx-account/trades?" +:+ toString (history_params symbol limit days).

Definition getOKXOrderHistory (symbol : option string) (limit days : option Z)
    : M S Payload :=
  json_of (getOKXOrderHistory_endpoint symbol limit days) GET [].

Definition getOKXTrades (symbol : option string) (limit days : option Z)
    : M S Payload :=
  json_of (getOKXTrades_endpoint symbol limit days) GET [].

Definition getOKXAccountSummary : M S Payload :=
  json_of "/okx-account/summary" GET [].

(** The object [placeOKXOrder] posts, as [JSON.stringify] writes it. *)
Definition backendRequest (orderRequest : PlaceOKXOrderRequest)
    : list (string * json) :=
  property "symbol" (Some (JStr (r_symbol orderRequest)))
  ++ property "side" (Some (JStr (Side_str (r_side orderRequest))))
  ++ property "quantity" (Some (json_of_number (r_quantity orderRequest)))
  ++ property "order_type" (Some (JStr (OrderType_str (r_orderType orderRequest))))
  ++ property "price" (json_of_number <$> r_price orderRequest).

Definition placeOKXOrder (orderRequest : PlaceOKXOrderRequest) : M S Payload :=
  json_of "/okx-account/order" POST (backendRequest orderRequest).
End Requests.

End Api.

(* ===================================================================== *)
(** * lib/api.ts: the AI decision log *)
(* ===================================================================== *)

Module Decisions.

Record AIDecisionFilters : Type := {
  operation : option string;
  symbol : option string;
  executed : option bool;
  start_date : option string;
  end_date : option string;
  limit : option Z
}.

(** [b.toString()] *)
Definition Boolean_str (b : bool) : string := if b then "true" else "false".

(** The truthiness test [if (n)] of an optional number that is an integer:
    [undefined] and [0] are falsy. *)
Definition nonzero (n : option Z) : bool :=
  match n with Some z => negb (z =? 0)%Z | None => false end.

(** The query of [getAIDecisions]; [filters?.f] is [undefined] when there
    are no filters. *)
Definition getAIDecisions_params (filters : option AIDecisionFilters)
    : Api.URLSearchParams :=
  let params := [] in
  let params := if Api.given (filters ≫= operation)
                then Api.append "operation" (Api.text (filters ≫= operation)) params
                else params in
  let params := if Api.given (filters ≫= symbol)
                then Api.append "symbol" (Api.text (filters ≫= symbol)) params
                else params in
  let params := match filters ≫= executed with
                | Some b => Api.append "executed" (Boolean_str b) params
                | None => params
                end in
  let params := if Api.given (filters ≫= start_date)
                then Api.append "start_date" (Api.text (filters ≫= start_date)) params
                else params in
  let params := if Api.given (filters ≫= end_date)
                then Api.append "end_date" (Api.text (filters ≫= end_date)) params
                else params in
  let params := if nonzero (filters ≫= limit)
                then Api.append "limit" (Api.Z_str (default 0%Z (filters ≫= limit)))
                       params
                else params in
  params.

Definition getAIDecisions_endpoint (accountId : Z)
    (filters : option AIDecisionFilters) : string :=
  let queryString := Api.toString (getAIDecisions_params filters) in
  "/accounts/" +:+ Api.Z_str accountId +:+ "/ai-decisions"
  +:+ (if JS.truthy queryString then "?" +:+ queryString else "").

Definition getAIDecisionStats_endpoint (accountId : Z) (days : option Z) : string :=
  let params := if nonzero days then "?days=" +:+ Api.Z_str (default 0%Z days)
                else "" in
  "/accounts/" +:+ Api.Z_str accountId +:+ "/ai-decisions/stats" +:+ params.

End Decisions.

(* ===================================================================== *)
(** * components/trading/ManualTradingView: the view with history tabs *)
(* ===================================================================== *)

(** The revision of the component that takes the account id, sends the
    position side and has the History and Trades tabs (unnamed/part_001). *)
Module ManualTradingView2.

Definition TRADING_PAIRS : list string :=
  [ "BTC-USDT-SWAP"; "ETH-USDT-SWAP"; "SOL-USDT-SWAP"; "BNB-USDT-SWAP";
    "XRP-USDT-SWAP"; "DOGE-USDT-SWAP"; "ADA-USDT-SWAP"; "AVAX-USDT-SWAP";
    "MATIC-USDT-SWAP"; "LINK-USDT-SWAP" ].

(** Trading form state. *)
Record Form : Type := {
  symbol : string;
  side : Side;
  posSide : PosSide;
  orderType : OrderType;
  amount : string;
  price : string;
  isSubmitting : bool
}.

(** Data state. *)
Record Data : Type := {
  balance : list OKXBalance;
  positions : list OKXPosition;
  openOrders : list OKXOrder;
  orderHistory : list OKXOrder;
  trades : list OKXTrade;
  loading : bool;
  refreshing : bool
}.

Record State : Type := { form : Form; data : Data }.

Definition initial : State :=
  {| form := {| symbol := "BTC-USDT-SWAP"; side := buy; posSide := long;
                orderType := market; amount := ""; price := "";
                isSubmitting := false |};
     data := {| balance := []; positions := []; openOrders := [];
                orderHistory := []; trades := []; loading := true;
                refreshing := false |} |}.

Definition on_form (f : Form -> Form) (s : State) : State :=
  {| form := f (form s); data := data s |}.
Definition on_data (f : Data -> Data) (s : State) : State :=
  {| form := form s; data := f (data s) |}.

Definition setAmount (v : string) : State -> State :=
  on_form (fun f => {| symbol := symbol f; side := side f; posSide := posSide f;
                       orderType := orderType f; amount := v; price := price f;
                       isSubmitting := isSubmitting f |}).
Definition setPrice (v : string) : State -> State :=
  on_form (fun f => {| symbol := symbol f; side := side f; posSide := posSide f;
                       orderType := orderType f; amount := amount f; price := v;
                       isSubmitting := isSubmitting f |}).
Definition setIsSubmitting (v : bool) : State -> State :=
  on_form (fun f => {| symbol := symbol f; side := side f; posSide := posSide f;
                       orderType := orderType f; amount := amount f;
                       price := price f; isSubmitting := v |}).
Definition setBalance (v : list OKXBalance) : State -> State :=
  on_data (fun d => {| balance := v; positions := positions d;
                       openOrders := openOrders d; orderHistory := orderHistory d;
                       trades := trades d; loading := loading d;
                       refreshing := refreshing d |}).
Definition setPositions (v : list OKXPosition) : State -> State :=
  on_data (fun d => {| balance := balance d; positions := v;
                       openOrders := openOrders d; orderHistory := orderHistory d;
                       trades := trades d; loading := loading d;
                       refreshing := refreshing d |}).
Definition setOpenOrders (v : list OKXOrder) : State -> State :=
  on_data (fun d => {| balance := balance d; positions := positions d;
                       openOrders := v; orderHistory := orderHistory d;
                       trades := trades d; loading := loading d;
                       refreshing := refreshing d |}).
Definition setOrderHistory (v : list OKXOrder) : State -> State :=
  on_data (fun d => {| balance := balance d; positions := positions d;
                       openOrders := openOrders d; orderHistory := v;
                       trades := trades d; loading := loading d;
                       refreshing := refreshing d |}).
Definition setTrades (v : list OKXTrade) : State -> State :=
  on_data (fun d => {| balance := balance d; positions := positions d;
                       openOrders := openOrders d; orderHistory := orderHistory d;
                       trades := v; loading := loading d;
                       refreshing := refreshing d |}).
Definition setLoading (v : bool) : State -> State :=
  on_data (fun d => {| balance := balance d; positions := positions d;
                       openOrders := openOrders d; orderHistory := orderHistory d;
                       trades := trades d; loading := v;
                       refreshing := refreshing d |}).
Definition setRefreshing (v : bool) : State -> State :=
  on_data (fun d => {| balance := balance d; positions := positions d;
                       openOrders := openOrders d; orderHistory := orderHistory d;
                       trades := trades d; loading := loading d;
                       refreshing := v |}).

(** The handlers close over the props and the state [c] of the render in
    which they were created: reads come from [c], setters update the pending
    state. *)
Section Handlers.
Variable accountId : Z.
Variable c : State.

Definition fetchAllData : M State unit :=
  try_finally
    (try_catch
       (set (setRefreshing true) ;;;
        res <- promise_all3 (call (getOKXBalance accountId))
                            (call (getOKXPositions accountId))
                            (call (getOKXOpenOrders accountId)) ;;;
        let '(balanceRes, positionsRes, ordersRes) := res in
        when (Res.success balanceRes) (set (setBalance (Res.assets balanceRes))) ;;;
        when (Res.success positionsRes)
             (set (setPositions (Res.positions positionsRes))) ;;;
        when (Res.success ordersRes) (set (setOpenOrders (Res.orders ordersRes))))
       (fun error =>
          emit (ConsoleError "Failed to fetch data:") ;;;
          emit (Toast toast_error "Failed to load account data")))
    (set (setLoading false) ;;; set (setRefreshing false)).

(** Lazy load order history. *)
Definition fetchOrderHistory (forceRefresh : bool) : M State unit :=
  if (0 <? length (orderHistory (data c)))%nat && negb forceRefresh then ret tt
  else
    try_catch
      (res <- call (getOKXOrderHistory accountId) ;;;
       when (Res.success res) (set (setOrderHistory (Res.orders res))))
      (fun error =>
         emit (ConsoleError "Failed to fetch order history:") ;;;
         emit (Toast toast_error "Failed to load order history")).

(** Lazy load trades. *)
Definition fetchTrades (forceRefresh : bool) : M State unit :=
  if (0 <? length (trades (data c)))%nat && negb forceRefresh then ret tt
  else
    try_catch
      (res <- call (getOKXTrades accountId) ;;;
       when (Res.success res) (set (setTrades (Res.trades res))))
      (fun error =>
         emit (ConsoleError "Failed to fetch trades:") ;;;
         emit (Toast toast_error "Failed to load trade history")).

Definition orderRequest : PlaceOKXOrderRequest :=
  {| r_symbol := symbol (form c);
     r_side := side (form c);
     r_quantity := JS.parseFloat (amount (form c));
     r_orderType := orderType (form c);
     r_price := if is_limit (orderType (form c))
                then Some (JS.parseFloat (price (form c))) else None |}.

Definition handleSubmitOrder : M State unit :=
  if negb (JS.truthy (amount (form c))) || JS.le0 (JS.parseFloat (amount (form c)))
  then emit (Toast toast_error "Please enter a valid amount")
  else if is_limit (orderType (form c))
          && (negb (JS.truthy (price (form c)))
              || JS.le0 (JS.parseFloat (price (form c))))
  then emit (Toast toast_error "Please enter a valid price for limit order")
  else
    set (setIsSubmitting true) ;;;
    try_finally
      (try_catch
         (result <- call (placeOKXOrder accountId orderRequest (posSide (form c))) ;;;
          if Res.success result then
            emit (Toast toast_success
                    (JS.toUpperCase (Side_str (side (form c)))
                     +:+ " order placed successfully!")) ;;;
            set (setAmount "") ;;;
            set (setPrice "") ;;;
            unawaited fetchAllData
          else
            emit (Toast toast_error
                    (JS.or_else (Res.error result) "Failed to place order")))
         (fun error =>
            emit (ConsoleError "Order error:") ;;;
            emit (Toast toast_error
                    (JS.or_else (message error) "Failed to place order"))))
      (set (setIsSubmitting false)).

Definition handleRefresh : M State unit :=
  set (setOrderHistory []) ;;;
  set (setTrades []) ;;;
  unawaited fetchAllData ;;;
  unawaited (fetchOrderHistory true) ;;;
  unawaited (fetchTrades true) ;;;
  emit (Toast toast_success "Refreshing data...").

(** [onValueChange] of the tabs. *)
Definition onValueChange (value : string) : M State unit :=
  when (String.eqb value "history") (unawaited (fetchOrderHistory false)) ;;;
  when (String.eqb value "trades") (unawaited (fetchTrades false)).
End Handlers.

End ManualTradingView2.

(* ===================================================================== *)
(** * components/trading/ManualTradingView.tsx *)
(* ===================================================================== *)

(** The component as frontend/app/components/trading/ManualTradingView.tsx
    has it, on the functions of lib/api.ts. *)

Module ManualTradingView.

Definition TRADING_PAIRS : list string := ManualTradingView2.TRADING_PAIRS.

(** Trading form state. *)
Record Form : Type := {
  symbol : string;
  side : Side;
  orderType : OrderType;
  amount : string;
  price : string;
  isSubmitting : bool
}.

(** Data state. *)
Record Data : Type := {
  balance : list OKXBalance;
  positions : list OKXPosition;
  openOrders : list OKXOrder;
  loading : bool;
  refreshing : bool
}.

Record State : Type := { form : Form; data : Data }.

Definition initial : State :=
  {| form := {| symbol := "BTC-USDT-SWAP"; side := buy; orderType := market;
                amount := ""; price := ""; isSubmitting := false |};
     data := {| balance := []; positions := []; openOrders := [];
                loading := true; refreshing := false |} |}.

Definition on_form (f : Form -> Form) (s : State) : State :=
  {| form := f (form s); data := data s |}.
Definition on_data (f : Data -> Data) (s : State) : State :=
  {| form := form s; data := f (data s) |}.

Definition setAmount (v : string) : State -> State :=
  on_form (fun f => {| symbol := symbol f; side := side f;
                       orderType := orderType f; amount := v; price := price f;
                       isSubmitting := isSubmitting f |}).
Definition setPrice (v : string) : State -> State :=
  on_form (fun f => {| symbol := symbol f; side := side f;
                       orderType := orderType f; amount := amount f; price := v;
                       isSubmitting := isSubmitting f |}).
Definition setIsSubmitting (v : bool) : State -> State :=
  on_form (fun f => {| symbol := symbol f; side := side f;
                       orderType := orderType f; amount := amount f;
                       price := price f; isSubmitting := v |}).
Definition setBalance (v : list OKXBalance) : State -> State :=
  on_data (fun d => {| balance := v; positions := positions d;
                       openOrders := openOrders d; loading := loading d;
                       refreshing := refreshing d |}).
Definition setPositions (v : list OKXPosition) : State -> State :=
  on_data (fun d => {| balance := balance d; positions := v;
                       openOrders := openOrders d; loading := loading d;
                       refreshing := refreshing d |}).
Definition setOpenOrders (v : list OKXOrder) : State -> State :=
  on_data (fun d => {| balance := balance d; positions := positions d;
                       openOrders := v; loading := loading d;
                       refreshing := refreshing d |}).
Definition setLoading (v : bool) : State -> State :=
  on_data (fun d => {| balance := balance d; positions := positions d;
                       openOrders := openOrders d; loading := v;
                       refreshing := refreshing d |}).
Definition setRefreshing (v : bool) : State -> State :=
  on_data (fun d => {| balance := balance d; positions := positions d;
                       openOrders := openOrders d; loading := loading d;
                       refreshing := v |}).

Section Handlers.
Variable c : State.

Definition fetchAllData : M State unit :=
  try_finally
    (try_catch
       (set (setRefreshing true) ;;;
        res <- promise_all3 Api.getOKXBalance (Api.getOKXPositions None)
                            (Api.getOKXOpenOrders None) ;;;
        let '(balanceRes, positionsRes, ordersRes) := res in
        when (Res.success balanceRes) (set (setBalance (Res.assets balanceRes))) ;;;
        when (Res.success positionsRes)
             (set (setPositions (Res.positions positionsRes))) ;;;
        when (Res.success ordersRes) (set (setOpenOrders (Res.orders ordersRes))))
       (fun error =>
          emit (ConsoleError "Failed to fetch data:") ;;;
          emit (Toast toast_error "Failed to load account data")))
    (set (setLoading false) ;;; set (setRefreshing false)).

Definition orderRequest : PlaceOKXOrderRequest :=
  {| r_symbol := symbol (form c);
     r_side := side (form c);
     r_quantity := JS.parseFloat (amount (form c));
     r_orderType := orderType (form c);
     r_price := if is_limit (orderType (form c))
                then Some (JS.parseFloat (price (form c))) else None |}.

Definition handleSubmitOrder : M State unit :=
  if negb (JS.truthy (amount (form c))) || JS.le0 (JS.parseFloat (amount (form c)))
  then emit (Toast toast_error "Please enter a valid amount")
  else if is_limit (orderType (form c))
          && (negb (JS.truthy (price (form c)))
              || JS.le0 (JS.parseFloat (price (form c))))
  then emit (Toast toast_error "Please enter a valid price for limit order")
  else
    set (setIsSubmitting true) ;;;
    try_finally
      (try_catch
         (result <- Api.placeOKXOrder orderRequest ;;;
          if Res.success result then
            emit (Toast toast_success
                    (JS.toUpperCase (Side_str (side (form c)))
                     +:+ " order placed successfully!")) ;;;
            set (setAmount "") ;;;
            set (setPrice "") ;;;
            unawaited fetchAllData
          else
            emit (Toast toast_error
                    (JS.or_else (Res.error result) "Failed to place order")))
         (fun error =>
            emit (ConsoleError "Order error:") ;;;
            emit (Toast toast_error
                    (JS.or_else (message error) "Failed to place order"))))
      (set (setIsSubmitting false)).

Definition handleRefresh : M State unit :=
  unawaited fetchAllData ;;;
  emit (Toast toast_success "Refreshing data...").
End Handlers.

End ManualTradingView.

(* ===================================================================== *)
(** * components/portfolio/OKXAccountView *)
(* ===================================================================== *)

(** The account view (first component of unnamed/part_000). *)

Module OKXAccountView.

Record State : Type := {
  loading : bool;
  refreshing : bool;
  balance : list OKXBalance;
  positions : list OKXPosition;
  openOrders : list OKXOrder;
  orderHistory : list OKXOrder;
  trades : list OKXTrade;
  summary : option OKXAccountSummary
}.

Definition initial : State :=
  {| loading := true; refreshing := false; balance := []; positions := [];
     openOrders := []; orderHistory := []; trades := []; summary := None |}.

Definition setLoading (v : bool) (s : State) : State :=
  {| loading := v; refreshing := refreshing s; balance := balance s;
     positions := positions s; openOrders := openOrders s;
     orderHistory := orderHistory s; trades := trades s; summary := summary s |}.
Definition setRefreshing (v : bool) (s : State) : State :=
  {| loading := loading s; refreshing := v; balance := balance s;
     positions := positions s; openOrders := openOrders s;
     orderHistory := orderHistory s; trades := trades s; summary := summary s |}.
Definition setBalance (v : list OKXBalance) (s : State) : State :=
  {| loading := loading s; refreshing := refreshing s; balance := v;
     positions := positions s; openOrders := openOrders s;
     orderHistory := orderHistory s; trades := trades s; summary := summary s |}.
Definition setPositions (v : list OKXPosition) (s : State) : State :=
  {| loading := loading s; refreshing := refreshing s; balance := balance s;
     positions := v; openOrders := openOrders s;
     orderHistory := orderHistory s; trades := trades s; summary := summary s |}.
Definition setOpenOrders (v : list OKXOrder) (s : State) : State :=
  {| loading := loading s; refreshing := refreshing s; balance := balance s;
     positions := positions s; openOrders := v;
     orderHistory := orderHistory s; trades := trades s; summary := summary s |}.
Definition setOrderHistory (v : list OKXOrder) (s : State) : State :=
  {| loading := loading s; refreshing := refreshing s; balance := balance s;
     positions := positions s; openOrders := openOrders s;
     orderHistory := v; trades := trades s; summary := summary s |}.
Definition setTrades (v : list OKXTrade) (s : State) : State :=
  {| loading := loading s; refreshing := refreshing s; balance := balance s;
     positions := positions s; openOrders := openOrders s;
     orderHistory := orderHistory s; trades := v; summary := summary s |}.
Definition setSummary (v : option OKXAccountSummary) (s : State) : State :=
  {| loading := loading s; refreshing := refreshing s; balance := balance s;
     positions := positions s; openOrders := openOrders s;
     orderHistory := orderHistory s; trades := trades s; summary := v |}.

Section Handlers.
Variable accountId : Z.
Variable c : State.

Definition fetchAllData : M State unit :=
  try_finally
    (try_catch
       (set (setRefreshing true) ;;;
        (* Fetch critical data first (fast) *)
        summaryRes <- call (getOKXAccountSummary accountId) ;;;
        when (Res.success summaryRes) (set (setSummary (Res.summary summaryRes))) ;;;
        (* Then fetch detailed data in parallel *)
        res <- promise_all3 (call (getOKXBalance accountId))
                            (call (getOKXPositions accountId))
                            (call (getOKXOpenOrders accountId)) ;;;
        let '(balanceRes, positionsRes, openOrdersRes) := res in
        when (Res.success balanceRes) (set (setBalance (Res.assets balanceRes))) ;;;
        when (Res.success positionsRes)
             (set (setPositions (Res.positions positionsRes))) ;;;
        when (Res.success openOrdersRes)
             (set (setOpenOrders (Res.orders openOrdersRes))))
       (fun error =>
          emit (ConsoleError "Failed to fetch OKX data:") ;;;
          emit (Toast toast_error "Failed to load OKX account data")))
    (set (setLoading false) ;;; set (setRefreshing false)).

(** Lazy load order history. *)
Definition fetchOrderHistory : M State unit :=
  if (0 <? length (orderHistory c))%nat then ret tt
  else
    try_catch
      (res <- call (getOKXOrderHistory accountId) ;;;
       when (Res.success res) (set (setOrderHistory (Res.orders res))))
      (fun error => emit (ConsoleError "Failed to fetch order history:")).

(** Lazy load trades. *)
Definition fetchTrades : M State unit :=
  if (0 <? length (trades c))%nat then ret tt
  else
    try_catch
      (res <- call (getOKXTrades accountId) ;;;
       when (Res.success res) (set (setTrades (Res.trades res))))
      (fun error => emit (ConsoleError "Failed to fetch trades:")).

Definition handleRefresh : M State unit :=
  unawaited fetchAllData ;;;
  emit (Toast toast_success "Refreshing OKX data...").

(** [onValueChange] of the tabs. *)
Definition onValueChange (value : string) : M State unit :=
  when (String.eqb value "history") (unawaited fetchOrderHistory) ;;;
  when (String.eqb value "trades") (unawaited fetchTrades).

(** What the Positions tab shows: the table of its rows, or the text
    "No open positions" when [positions.length > 0] fails. *)
Inductive PositionsTab : Type :=
| NoOpenPositions
| PositionsTable (rows : list OKXPosition).

Definition renderPositions : PositionsTab :=
  if (0 <? length (positions c))%nat then PositionsTable (positions c)
  else NoOpenPositions.
End Handlers.

End OKXAccountView.

(* ===================================================================== *)
(** * OKXTradingPanel *)
(* ===================================================================== *)

(** The trading panel (second component of unnamed/part_000); it posts to the
    order endpoint with [fetch], not through lib/api.ts. *)

Module OKXTradingPanel.

Definition CRYPTO_SYMBOLS : list string :=
  ["BTC"; "ETH"; "SOL"; "BNB"; "XRP"; "DOGE"; "ADA"; "MATIC"; "DOT"; "AVAX"].

Record State : Type := {
  symbol : string;
  side : Side;
  quantity : string;
  orderType : OrderType;
  price : string;
  loading : bool
}.

Definition initial : State :=
  {| symbol := "BTC"; side := buy; quantity := "0.001"; orderType := market;
     price := ""; loading := false |}.

Definition setQuantity (v : string) (s : State) : State :=
  {| symbol := symbol s; side := side s; quantity := v;
     orderType := orderType s; price := price s; loading := loading s |}.
Definition setPrice (v : string) (s : State) : State :=
  {| symbol := symbol s; side := side s; quantity := quantity s;
     orderType := orderType s; price := v; loading := loading s |}.
Definition setLoading (v : bool) (s : State) : State :=
  {| symbol := symbol s; side := side s; quantity := quantity s;
     orderType := orderType s; price := price s; loading := v |}.

(** The instrument the panel orders on: [`${symbol}-USDT-SWAP`]. *)
Definition instrument (symbol : string) : string := symbol +:+ "-USDT-SWAP".

Section Handlers.
(** Whether the [onRefresh] prop is given. *)
Variable onRefresh : bool.
Variable c : State.

Definition order_body : list (string * json) :=
  property "symbol" (Some (JStr (instrument (symbol c))))
  ++ property "side" (Some (JStr (Side_str (side c))))
  ++ property "order_type" (Some (JStr (OrderType_str (orderType c))))
  ++ property "quantity" (Some (json_of_number (JS.parseFloat (quantity c))))
  ++ property "price"
       (if is_limit (orderType c)
        then Some (json_of_number (JS.parseFloat (price c))) else None).

Definition handlePlaceOrder : M State unit :=
  if negb (JS.truthy (quantity c)) || JS.le0 (JS.parseFloat (quantity c))
  then emit (Toast toast_error "Please enter a valid quantity")
  else if is_limit (orderType c)
          && (negb (JS.truthy (price c)) || JS.le0 (JS.parseFloat (price c)))
  then emit (Toast toast_error "Please enter a valid price for limit order")
  else
    set (setLoading true) ;;;
    try_finally
      (try_catch
         (response <- fetch {| h_method := POST; h_url := "/api/okx-account/order";
                               h_body := order_body |} ;;;
          data <- settle (h_json response) ;;;
          if Res.success data then
            emit (Toast toast_success
                    ("Order placed successfully: "
                     +:+ default "undefined" (Res.order_id data))) ;;;
            set (setQuantity "0.001") ;;;
            set (setPrice "") ;;;
            when onRefresh (emit (SetTimeout 1000))
          else
            emit (Toast toast_error
                    ("Failed to place order: "
                     +:+ JS.or_else (Res.error data) "Unknown error")))
         (fun error =>
            emit (ConsoleError "Failed to place order:") ;;;
            emit (Toast toast_error "Failed to place order")))
      (set (setLoading false)).
End Handlers.

End OKXTradingPanel.

(* ===================================================================== *)
(** * Symbol formats *)
(* ===================================================================== *)

Module Symbols.

(** The pairs the README lists as supported. *)
Definition README_PAIRS : list string :=
  [ "BTC-USDT-SWAP"; "ETH-USDT-SWAP"; "SOL-USDT-SWAP"; "DOGE-USDT-SWAP";
    "XRP-USDT-SWAP"; "ADA-USDT-SWAP"; "AVAX-USDT-SWAP"; "DOT-USDT-SWAP";
    "MATIC-USDT-SWAP"; "LTC-USDT-SWAP" ].

(** Every instrument the front end can name: the README list, the pairs of
    the trading form and the instruments of the trading panel. *)
Definition supported : list string :=
  README_PAIRS ++ ManualTradingView2.TRADING_PAIRS
  ++ map OKXTradingPanel.instrument OKXTradingPanel.CRYPTO_SYMBOLS.

(** [s.split(sep)] *)
Fixpoint split (sep : ascii) (s : string) : list string :=
  match s with
  | EmptyString => [EmptyString]
  | String ch r =>
      if (ch =? sep)%char then EmptyString :: split sep r
      else match split sep r with
           | part :: parts => String ch part :: parts
           | [] => [String ch EmptyString]
           end
  end.

(** Modelled from the spec: the symbol translation of the Exchange Adapter,
    which is back-end code and not part of the sources; the README gives the
    direction [BTC-USDT-SWAP] to [BTC/USDT:USDT].  The canonical form
    [BASE-QUOTE-SWAP] becomes the wire form that pairs base and quote with
    the settlement currency, the quote. *)
Definition toWire (s : string) : option string :=
  match split "-" s with
  | [base; quote; "SWAP"] => Some (base +:+ "/" +:+ quote +:+ ":" +:+ quote)
  | _ => None
  end.

(** Modelled from the spec: the translation back, from the wire form
    [BASE/QUOTE:SETTLE] to [BASE-QUOTE-SWAP]; it is back-end code as well. *)
Definition toCanonical (w : string) : option string :=
  match split "/" w with
  | [base; rest] =>
      match split ":" rest with
      | [quote; settle] => Some (base +:+ "-" +:+ quote +:+ "-SWAP")
      | _ => None
      end
  | _ => None
  end.

(** A currency code: no separator of either form occurs in it. *)
Fixpoint plain (s : string) : bool :=
  match s with
  | EmptyString => true
  | String ch r =>
      negb ((ch =? "-")%char || (ch =? "/")%char || (ch =? ":")%char) && plain r
  end.

End Symbols.

(* ===================================================================== *)
(** * Snapshot summary *)
(* ===================================================================== *)

Module Snapshot.

Record Balance : Type := {
  currency : string;
  total : Q;
  free : Q;
  used : Q
}.

Record Position : Type := {
  notional : Q;
  unrealizedPnl : Q
}.

Record Summary : Type := {
  totalBalance : Q;
  freeBalance : Q;
  usedBalance : Q;
  positionsValue : Q;
  positionsCount : nat;
  unrealizedPnlSum : Q;
  openOrdersCount : nat
}.

(** One part of a snapshot: a failed query is not an empty result. *)
Inductive Part (A : Type) : Type :=
| available (items : list A)
| unavailable.
Arguments available {A} items.
Arguments unavailable {A}.

Record Snapshot : Type := {
  balances : Part Balance;
  positions : Part Position;
  openOrders : Part OKXOrder;
  summary : option Summary
}.

Definition Qsum (l : list Q) : Q := fold_right Qplus 0%Q l.

Section Assembly.
(** The value of an amount of a currency in the quote currency. *)
Variable value : string -> Q -> Q.

(** Modelled from the spec: the summary derivation of the Synchronization
    Engine, which is back-end code and not part of the sources (the front end
    declares [OKXAccountSummary] and shows its fields).  Total balance is the
    free and used balances valued in the quote currency plus the positions
    value, the sum of the absolute notionals; unrealized P&L is the sum over
    the positions; used margin is total minus free. *)
Definition summarize (bs : list Balance) (ps : list Position) (os : list OKXOrder)
    : Summary :=
  let freeBalance := Qsum (map (fun b => value (currency b) (free b)) bs) in
  let usedLocal := Qsum (map (fun b => value (currency b) (used b)) bs) in
  let positionsValue := Qsum (map (fun p => Qabs (notional p)) ps) in
  let totalBalance := (freeBalance + usedLocal + positionsValue)%Q in
  {| totalBalance := totalBalance;
     freeBalance := freeBalance;
     usedBalance := (totalBalance - freeBalance)%Q;
     positionsValue := positionsValue;
     positionsCount := length ps;
     unrealizedPnlSum := Qsum (map unrealizedPnl ps);
     openOrdersCount := length os |}.

Definition section_of {A} (o : Outcome (list A)) : Part A :=
  match o with Val l => available l | Exn _ => unavailable end.

(** Modelled from the spec: snapshot assembly of the Synchronization Engine
    (back-end code, not part of the sources).  A failed query degrades its
    section to unavailable; the summary needs all three results. *)
Definition assemble (b : Outcome (list Balance)) (p : Outcome (list Position))
    (o : Outcome (list OKXOrder)) : Snapshot :=
  {| balances := section_of b;
     positions := section_of p;
     openOrders := section_of o;
     summary := match b, p, o with
                | Val bs, Val ps, Val os => Some (summarize bs ps os)
                | _, _, _ => None
                end |}.
End Assembly.

End Snapshot.

(* ===================================================================== *)
(** * main.tsx: the WebSocket connection *)
(* ===================================================================== *)

(** The effect of [App] that sets the connection up (unnamed/part_002), as a
    step function on the sockets, the module-level singleton, the closures of
    the runs of the effect and the timers. *)

Module Main.

Inductive ReadyState : Type := CONNECTING | OPEN | CLOSING | CLOSED.

Definition is_closed (r : ReadyState) : bool :=
  match r with CLOSED => true | _ => false end.

(** A WebSocket that was constructed: its state and the run of the effect
    whose handlers listen on it.  A socket is named by its index in the list
    of all sockets constructed so far. *)
Record Socket : Type := {
  readyState : ReadyState;
  listener : nat
}.

(** The variables [ws] and [reconnectTimer] of one run of the effect; the
    handlers created in that run share them. *)
Record Closure : Type := {
  ws : option nat;
  reconnectTimer : option nat
}.

Inductive TimerState : Type := Pending | Fired | Cleared.

(** A timer set by [setTimeout(connectWebSocket, delay)]. *)
Record Timer : Type := {
  t_closure : nat;
  t_delay : Z;
  t_state : TimerState
}.

(** What the client sends. *)
Inductive Command : Type :=
| bootstrap (username : string) (initial_capital : Z)
| get_snapshot.

Definition bootstrapMsg : Command := bootstrap "default" 10000.

Definition is_bootstrap (c : Command) : bool :=
  match c with bootstrap _ _ => true | get_snapshot => false end.

(** The [type] of a message of the server. *)
Inductive ServerMsg : Type :=
| bootstrap_ok | snapshot | trades | order_filled | order_pending
| user_switched | account_switched | error | other.

Record World : Type := {
  sockets : list Socket;
  __WS_SINGLETON__ : option nat;
  wsRef : option nat;              (* wsRef.current *)
  closures : list Closure;
  timers : list Timer;
  sent : list (nat * Command)      (* every message sent, with its socket *)
}.

Definition start : World :=
  {| sockets := []; __WS_SINGLETON__ := None; wsRef := None; closures := [];
     timers := []; sent := [] |}.

Definition stateOf (w : World) (i : nat) : option ReadyState :=
  readyState <$> sockets w !! i.

Definition setState (i : nat) (r : ReadyState) (w : World) : World :=
  {| sockets := alter (fun s => {| readyState := r; listener := listener s |}) i
                  (sockets w);
     __WS_SINGLETON__ := __WS_SINGLETON__ w; wsRef := wsRef w;
     closures := closures w; timers := timers w; sent := sent w |}.

Definition wsOf (w : World) (k : nat) : option nat :=
  closures w !! k ≫= ws.

(** [reconnectTimer = setTimeout(connectWebSocket, ms)] in run [k]. *)
Definition setTimeout (k : nat) (ms : Z) (w : World) : World :=
  let t := length (timers w) in
  {| sockets := sockets w; __WS_SINGLETON__ := __WS_SINGLETON__ w;
     wsRef := wsRef w;
     closures := alter (fun c => {| ws := ws c; reconnectTimer := Some t |}) k
                   (closures w);
     timers := timers w ++ [{| t_closure := k; t_delay := ms; t_state := Pending |}];
     sent := sent w |}.

Definition setTimer (t : nat) (st : TimerState) (w : World) : World :=
  {| sockets := sockets w; __WS_SINGLETON__ := __WS_SINGLETON__ w;
     wsRef := wsRef w; closures := closures w;
     timers := alter (fun x => {| t_closure := t_closure x; t_delay := t_delay x;
                                  t_state := st |}) t (timers w);
     sent := sent w |}.

Definition is_pending (w : World) (t : nat) : bool :=
  match timers w !! t with
  | Some x => match t_state x with Pending => true | _ => false end
  | None => false
  end.

Definition clearTimeout (t : nat) (w : World) : World :=
  if is_pending w t then setTimer t Cleared w else w.

(** [ws!.send(...)] in run [k]: the message goes out on an open socket; on a
    socket that is closing or closed it is dropped, and with no socket or one
    that is still connecting the call throws. *)
Definition send (k : nat) (c : Command) (w : World) : World :=
  match wsOf w k with
  | Some j =>
      match stateOf w j with
      | Some OPEN =>
          {| sockets := sockets w; __WS_SINGLETON__ := __WS_SINGLETON__ w;
             wsRef := wsRef w; closures := closures w; timers := timers w;
             sent := sent w ++ [(j, c)] |}
      | _ => w
      end
  | None => w
  end.

(** [connectWebSocket] of run [k]; [ok] is false when [new WebSocket] throws,
    which the [catch] answers with a retry after five seconds. *)
Definition connectWebSocket (k : nat) (ok : bool) (w : World) : World :=
  if ok then
    let n := length (sockets w) in
    {| sockets := sockets w ++ [{| readyState := CONNECTING; listener := k |}];
       __WS_SINGLETON__ := Some n;
       wsRef := Some n;
       closures := alter (fun c => {| ws := Some n;
                                      reconnectTimer := reconnectTimer c |}) k
                     (closures w);
       timers := timers w; sent := sent w |}
  else setTimeout k 5000 w.

(** [!ws || ws.readyState === CLOSING || ws.readyState === CLOSED] *)
Definition created (w : World) : bool :=
  match __WS_SINGLETON__ w with
  | None => true
  | Some i =>
      match stateOf w i with
      | Some CLOSING | Some CLOSED => true
      | _ => false
      end
  end.

(** One run of the effect: a new closure, whose [ws] starts as the singleton. *)
Definition effect (ok : bool) (w : World) : World :=
  let k := length (closures w) in
  let w1 :=
    {| sockets := sockets w; __WS_SINGLETON__ := __WS_SINGLETON__ w;
       wsRef := wsRef w;
       closures := closures w
                   ++ [{| ws := __WS_SINGLETON__ w; reconnectTimer := None |}];
       timers := timers w; sent := sent w |} in
  if created w then connectWebSocket k ok w1
  else
    {| sockets := sockets w1; __WS_SINGLETON__ := __WS_SINGLETON__ w1;
       wsRef := __WS_SINGLETON__ w;
       closures := closures w1; timers := timers w1; sent := sent w1 |}.

(** The clean-up of run [k]. *)
Definition cleanup (k : nat) (w : World) : World :=
  match closures w !! k ≫= reconnectTimer with
  | Some t => clearTimeout t w
  | None => w
  end.

Definition handleOpen (k : nat) (w : World) : World := send k bootstrapMsg w.

(** The connection part of [handleMessage]: the messages it answers. *)
Definition handleMessage (k : nat) (m : ServerMsg) (w : World) : World :=
  match m with
  | bootstrap_ok => send k get_snapshot w
  | order_filled => send k get_snapshot w
  | order_pending => send k get_snapshot w
  | _ => w
  end.

Definition abnormal (code : Z) : bool :=
  negb (code =? 1000)%Z && negb (code =? 1001)%Z.

Definition handleClose (k : nat) (code : Z) (w : World) : World :=
  let w1 :=
    {| sockets := sockets w; __WS_SINGLETON__ := None;
       wsRef := if decide (wsRef w = wsOf w k) then None else wsRef w;
       closures := closures w; timers := timers w; sent := sent w |} in
  if abnormal code then setTimeout k 3000 w1 else w1.

(** What happens to the page after it is mounted. *)
Inductive Label : Type :=
| Opens (i : nat)
| Receives (i : nat) (m : ServerMsg)
| StartsClosing (i : nat)
| Closes (i : nat) (code : Z)
| TimerFires (t : nat) (ok : bool).

Definition step (l : Label) (w : World) : World :=
  match l with
  | Opens i =>
      match sockets w !! i with
      | Some s =>
          match readyState s with
          | CONNECTING => handleOpen (listener s) (setState i OPEN w)
          | _ => w
          end
      | None => w
      end
  | Receives i m =>
      match sockets w !! i with
      | Some s =>
          match readyState s with
          | OPEN => handleMessage (listener s) m w
          | _ => w
          end
      | None => w
      end
  | StartsClosing i =>
      match stateOf w i with
      | Some CONNECTING | Some OPEN => setState i CLOSING w
      | _ => w
      end
  | Closes i code =>
      match sockets w !! i with
      | Some s =>
          match readyState s with
          | CLOSED => w
          | _ => handleClose (listener s) code (setState i CLOSED w)
          end
      | None => w
      end
  | TimerFires t ok =>
      match timers w !! t with
      | Some x =>
          match t_state x with
          | Pending => connectWebSocket (t_closure x) ok (setTimer t Fired w)
          | _ => w
          end
      | None => w
      end
  end.

(** The root renders [App] once, so the effect runs when the page is
    mounted: once, or, when React initializes the component twice, run,
    clean-up and run again before anything else happens. *)
Definition mount (twice : bool) (ok ok' : bool) : World :=
  if twice then effect ok' (cleanup 0 (effect ok start))
  else effect ok start.

Fixpoint steps (ls : list Label) (w : World) : World :=
  match ls with
  | [] => w
  | l :: ls' => steps ls' (step l w)
  end.

Inductive reachable : World -> Prop :=
| reach_mount : forall twice ok ok', reachable (mount twice ok ok')
| reach_step : forall w l, reachable w -> reachable (step l w).

(** The sockets that are not closed. *)
Definition live (w : World) : list nat :=
  List.filter (fun i => match stateOf w i with
                   | Some r => negb (is_closed r)
                   | None => false
                   end) (seq 0 (length (sockets w))).

Definition pending (w : World) : list nat :=
  List.filter (fun t => is_pending w t) (seq 0 (length (timers w))).

Definition bootstraps (w : World) (i : nat) : nat :=
  length (List.filter (fun m => (fst m =? i)%nat && is_bootstrap (snd m)) (sent w)).

(** The connection invariant: a socket that is not closed is the singleton,
    the singleton is a socket that is not closed and the [ws] of the run that
    listens on it, no timer is pending while there is a singleton, at most
    one timer is pending, and sockets and timers belong to runs that exist. *)
Record Conn (w : World) : Prop := {
  conn_live : forall i s, sockets w !! i = Some s -> readyState s <> CLOSED ->
              __WS_SINGLETON__ w = Some i;
  conn_single : forall i, __WS_SINGLETON__ w = Some i ->
                exists s, sockets w !! i = Some s /\ readyState s <> CLOSED
                          /\ wsOf w (listener s) = Some i;
  conn_quiet : forall i t, __WS_SINGLETON__ w = Some i -> is_pending w t = false;
  conn_timer : forall t t', is_pending w t = true -> is_pending w t' = true -> t = t';
  conn_listener : forall i s, sockets w !! i = Some s ->
                  listener s < length (closures w);
  conn_owner : forall t x, timers w !! t = Some x ->
               t_closure x < length (closures w)
}.

(** A socket was sent at most one bootstrap, and none before it opened. *)
Definition Boot (w : World) : Prop :=
  forall i, bootstraps w i <= 1
            /\ (stateOf w i = Some CONNECTING \/ stateOf w i = None ->
                bootstraps w i = 0).

End Main.

(* ===================================================================== *)
(** * main.tsx: the handlers of [App] that send on [wsRef] *)
(* ===================================================================== *)

Module App.
Import Main.

(** What these handlers send. *)
Inductive Message : Type :=
| switch_user (username : string)
| switch_account (account_id : Z)
| command (c : Command).

(** What they tell the user or the console. *)
Inductive Notice : Type :=
| console_warn (msg : string)
| console_error (msg : string)
| notice (k : ToastKind) (msg : string).

(** [wsRef.current && wsRef.current.readyState === WebSocket.OPEN]: the
    socket of the reference when the test holds. *)
Definition connected (w : World) : option nat :=
  match wsRef w with
  | Some i =>
      match stateOf w i with
      | Some OPEN => Some i
      | _ => None
      end
  | None => None
  end.

(** The result of a handler: the message it sent with its socket, if it
    sent one, and its notices.  [send] on an open socket does not throw, so
    the [catch] of the two switch handlers is never entered. *)
Definition switchUser (username : string) (w : World)
    : option (nat * Message) * list Notice :=
  match connected w with
  | None =>
      (None, [console_warn "WS not connected, cannot switch user";
              notice toast_error "Not connected to server"])
  | Some i =>
      (Some (i, switch_user username), [notice toast_plain "Switching account..."])
  end.

Definition switchAccount (accountId : Z) (w : World)
    : option (nat * Message) * list Notice :=
  match connected w with
  | None =>
      (None, [console_warn "WS not connected, cannot switch account";
              notice toast_error "Not connected to server"])
  | Some i =>
      (Some (i, switch_account accountId), [notice toast_plain "Switching account..."])
  end.

Definition refreshData (w : World) : option (nat * Message) * list Notice :=
  match connected w with
  | None => (None, [])
  | Some i => (Some (i, command get_snapshot), [])
  end.

(** [setAccountRefreshTrigger(prev => prev + 1)], then the same send. *)
Definition handleAccountUpdated (accountRefreshTrigger : Z) (w : World)
    : Z * (option (nat * Message) * list Notice) :=
  (accountRefreshTrigger + 1, refreshData w)%Z.

(** ** [resolveWsUrl] *)

(** The parts of [window.location] that are read. *)
Record Location : Type := {
  hostname : string;
  protocol : string;
  host : string
}.

(** [window] is [None] where [typeof window === 'undefined']. *)
Definition resolveWsUrl (window : option Location) : string :=
  match window with
  | None => "ws://localhost:5611/ws"
  | Some location =>
      (* In development, always connect to backend port 5611 *)
      if String.eqb (hostname location) "localhost"
         || String.eqb (hostname location) "127.0.0.1"
      then "ws://localhost:5611/ws"
      else
        (* In production, use the same host *)
        let protocol :=
          if String.eqb (protocol location) "https:" then "wss:" else "ws:" in
        protocol +:+ "//" +:+ host location +:+ "/ws"
  end.

(** ** The data of [App] and the messages of the server *)

(** A value that [JSON.parse] gives, or [undefined].  The handler takes the
    message as [any], so a property of it may hold any of these, and so may
    the state variables that are set from them. *)
#[warnings="-register-all"]
Inductive Value : Type :=
| undefined
| null
| boolean (b : bool)
| number (n : JS.number)
| text (s : string)
| array (items : list Value)
| object (fields : list (string * Value)).

(** Truthiness: [undefined], [null], [false], [0], [NaN] and [""] are
    falsy. *)
Definition truthy (v : Value) : bool :=
  match v with
  | undefined | null => false
  | boolean b => b
  | number JS.NaN => false
  | number (JS.Fin q) => negb (Qeq_bool q 0)
  | number _ => true
  | text s => JS.truthy s
  | array _ | object _ => true
  end.

(** [a || b] *)
Definition or_else (a b : Value) : Value := if truthy a then a else b.

(** [v === s] for a string [s]. *)
Definition is_text (v : Value) (s : string) : bool :=
  match v with text t => String.eqb t s | _ => false end.

(** The own property [k] of a parsed object: of two properties with one
    name the later one counts. *)
Fixpoint field (k : string) (fields : list (string * Value)) : option Value :=
  match fields with
  | [] => None
  | (k', v) :: rest =>
      match field k rest with
      | Some x => Some x
      | None => if String.eqb k' k then Some v else None
      end
  end.

(** [v.k], for the names the handler reads ([type], [user], [username] and
    the like), which no string, number, boolean or array and no prototype
    has: the value of the property, [undefined] where there is none, and a
    [TypeError] on [undefined] and [null]. *)
Definition get (k : string) (v : Value) : Outcome Value :=
  match v with
  | undefined | null => Exn {| message := "TypeError" |}
  | object fields => Val (default undefined (field k fields))
  | _ => Val undefined
  end.

(** Whether the template [`${v}`] can be formed.  Of what [JSON.parse] gives
    only an object with a property [toString] of its own cannot be
    converted: that property is no function, and [valueOf] gives no
    primitive, so the conversion throws a [TypeError]; an array converts its
    items. *)
Fixpoint printable (v : Value) : bool :=
  match v with
  | array items => forallb printable items
  | object fields =>
      match field "toString" fields with Some _ => false | None => true end
  | _ => true
  end.

(** [msg.k] where [msg.type] has been read, so that [msg] is neither
    [undefined] nor [null]. *)
Definition prop (k : string) (msg : Value) : Value :=
  match get k msg with Val v => v | Exn _ => undefined end.

(** The branch that the tests [msg.type === '...'] choose; reading
    [msg.type] throws when [msg] is [null]. *)
Definition kind (msg : Value) : Outcome ServerMsg :=
  match get "type" msg with
  | Exn e => Exn e
  | Val type =>
      Val (if is_text type "bootstrap_ok" then bootstrap_ok
           else if is_text type "snapshot" then snapshot
           else if is_text type "trades" then Main.trades
           else if is_text type "order_filled" then order_filled
           else if is_text type "order_pending" then order_pending
           else if is_text type "user_switched" then user_switched
           else if is_text type "account_switched" then account_switched
           else if is_text type "error" then error
           else other)
  end.

(** The state variables the handler sets. *)
Record Data : Type := {
  user : Value;
  account : Value;
  overview : Value;
  positions : Value;
  orders : Value;
  trades : Value;
  aiDecisions : Value;
  allAssetCurves : Value
}.

Definition initial : Data :=
  {| user := null; account := null; overview := null; positions := array [];
     orders := array []; trades := array []; aiDecisions := array [];
     allAssetCurves := array [] |}.

Definition setUser (v : Value) (d : Data) : Data :=
  {| user := v; account := account d; overview := overview d;
     positions := positions d; orders := orders d; trades := trades d;
     aiDecisions := aiDecisions d; allAssetCurves := allAssetCurves d |}.
Definition setAccount (v : Value) (d : Data) : Data :=
  {| user := user d; account := v; overview := overview d;
     positions := positions d; orders := orders d; trades := trades d;
     aiDecisions := aiDecisions d; allAssetCurves := allAssetCurves d |}.
Definition setTrades (v : Value) (d : Data) : Data :=
  {| user := user d; account := account d; overview := overview d;
     positions := positions d; orders := orders d; trades := v;
     aiDecisions := aiDecisions d; allAssetCurves := allAssetCurves d |}.

(** What the handler shows or logs. *)
Inductive Report : Type :=
| parse_failure               (* console.error('Failed to parse WebSocket message:', err) *)
| error_logged (v : Value)    (* console.error(v) *)
| toast_shown (k : ToastKind) (v : Value)
| toast_switched (v : Value). (* toast.success(`Switched to ${v}`) *)

(** What the handler does besides sending: the data it leaves, its reports,
    and whether it calls [refreshAccounts]. *)
Record Reaction : Type := {
  data : Data;
  reports : list Report;
  refreshesAccounts : bool
}.

(** The [catch] of the handler. *)
Definition failure (d : Data) : Reaction :=
  {| data := d; reports := [parse_failure]; refreshesAccounts := false |}.

(** The part of [handleMessage] that sets the data, for a text that parses
    to [msg], or for one on which [JSON.parse] throws ([None]).  The answers
    it sends are [Main.handleMessage]. *)
Definition handleData (parsed : option Value) (d : Data) : Reaction :=
  match parsed with
  | None => failure d
  | Some msg =>
      match kind msg with
      | Exn _ => failure d
      | Val bootstrap_ok =>
          let d := if truthy (prop "user" msg) then setUser (prop "user" msg) d
                   else d in
          let d := if truthy (prop "account" msg)
                   then setAccount (prop "account" msg) d else d in
          {| data := d; reports := []; refreshesAccounts := true |}
      | Val snapshot =>
          {| data := {| user := user d; account := account d;
                        overview := prop "overview" msg;
                        positions := prop "positions" msg;
                        orders := prop "orders" msg;
                        trades := or_else (prop "trades" msg) (array []);
                        aiDecisions := or_else (prop "ai_decisions" msg) (array []);
                        allAssetCurves :=
                          or_else (prop "all_asset_curves" msg) (array []) |};
             reports := []; refreshesAccounts := false |}
      | Val Main.trades =>
          {| data := setTrades (or_else (prop "trades" msg) (array [])) d;
             reports := []; refreshesAccounts := false |}
      | Val order_filled =>
          {| data := d; reports := [toast_shown toast_success (text "Order filled")];
             refreshesAccounts := false |}
      | Val order_pending =>
          {| data := d;
             reports := [toast_shown toast_plain
                           (text "Order placed, waiting for fill")];
             refreshesAccounts := false |}
      | Val user_switched =>
          (* the toast is made first, from [msg.user.username] *)
          match get "username" (prop "user" msg) with
          | Exn _ => failure d
          | Val username =>
              if printable username then
                {| data := setUser (prop "user" msg) d;
                   reports := [toast_switched username];
                   refreshesAccounts := false |}
              else failure d
          end
      | Val account_switched =>
          match get "name" (prop "account" msg) with
          | Exn _ => failure d
          | Val name =>
              if printable name then
                {| data := setAccount (prop "account" msg) d;
                   reports := [toast_switched name];
                   refreshesAccounts := true |}
              else failure d
          end
      | Val error =>
          {| data := d;
             reports := [error_logged (prop "message" msg);
                         toast_shown toast_error
                           (or_else (prop "message" msg) (text "Order error"))];
             refreshesAccounts := false |}
      | Val other => {| data := d; reports := []; refreshesAccounts := false |}
      end
  end.

(** The messages of a session, in the order they arrive. *)
Fixpoint receive (ms : list (option Value)) (d : Data) : Data :=
  match ms with
  | [] => d
  | m :: ms' => receive ms' (data (handleData m d))
  end.

(** [!user || !account || !overview] fails: the page is rendered, not the
    text "Connecting to trading server...". *)
Definition rendered (d : Data) : bool :=
  truthy (user d) && truthy (account d) && truthy (overview d).

End App.

(* ===================================================================== *)
(** * Vocabulary of the properties *)
(* ===================================================================== *)

(** A request to the order endpoint. *)
Definition is_order_request (e : Event) : bool :=
  match e with
  | Fetch r => String.eqb (h_url r) "/api/okx-account/order"
  | Call (placeOKXOrder _ _ _) => true
  | _ => false
  end.

Definition order_requests (log : list Event) : list Event :=
  List.filter is_order_request log.

(** A request for the order history or the trades. *)
Definition is_history_request (e : Event) : bool :=
  match e with
  | Call (getOKXOrderHistory _) | Call (getOKXTrades _) => true
  | Fetch r => Api.includes "/okx-account/orders/history" (h_url r)
               || Api.includes "/okx-account/trades" (h_url r)
  | _ => false
  end.

Definition history_requests (log : list Event) : list Event :=
  List.filter is_history_request log.

(** The three fields of an order form that its validation reads. *)
Record OrderForm : Type := {
  f_amount : string;
  f_price : string;
  f_type : OrderType
}.

Definition quantity_of (f : OrderForm) : JS.number := JS.parseFloat (f_amount f).
Definition price_of (f : OrderForm) : JS.number := JS.parseFloat (f_price f).

(** [quantity <= 0], or a limit order with [price <= 0]. *)
Definition invalid (f : OrderForm) : Prop :=
  JS.le0 (quantity_of f) = true
  \/ (f_type f = limit /\ JS.le0 (price_of f) = true).

(** [quantity > 0] and, for a limit order, [price > 0]. *)
Definition positive (f : OrderForm) : Prop :=
  JS.gt0 (quantity_of f) = true
  /\ (f_type f = limit -> JS.gt0 (price_of f) = true).

(** What the two guards let through: a text that is not empty and whose
    number is not [<= 0]. *)
Definition passes (f : OrderForm) : Prop :=
  JS.truthy (f_amount f) = true /\ JS.le0 (quantity_of f) = false
  /\ (f_type f = limit ->
      JS.truthy (f_price f) = true /\ JS.le0 (price_of f) = false).

(** The texts that are read parse to numbers. *)
Definition numeric (f : OrderForm) : Prop :=
  JS.isNaN (quantity_of f) = false
  /\ (f_type f = limit -> JS.isNaN (price_of f) = false).

(** The same test as a function, for the forms that are accepted. *)
Definition accepts (f : OrderForm) : bool :=
  JS.truthy (f_amount f) && negb (JS.le0 (quantity_of f))
  && (negb (is_limit (f_type f))
      || (JS.truthy (f_price f) && negb (JS.le0 (price_of f)))).

(** A handler that only reports an error: no request, no state change. *)
Definition rejected {S} (r : Outcome unit * S * list Event) (c : S) : Prop :=
  exists msg, r = (Val tt, c, [Toast toast_error msg]).

Definition view_form (c : ManualTradingView.State) : OrderForm :=
  {| f_amount := ManualTradingView.amount (ManualTradingView.form c);
     f_price := ManualTradingView.price (ManualTradingView.form c);
     f_type := ManualTradingView.orderType (ManualTradingView.form c) |}.

Definition view2_form (c : ManualTradingView2.State) : OrderForm :=
  {| f_amount := ManualTradingView2.amount (ManualTradingView2.form c);
     f_price := ManualTradingView2.price (ManualTradingView2.form c);
     f_type := ManualTradingView2.orderType (ManualTradingView2.form c) |}.

Definition panel_form (c : OKXTradingPanel.State) : OrderForm :=
  {| f_amount := OKXTradingPanel.quantity c;
     f_price := OKXTradingPanel.price c;
     f_type := OKXTradingPanel.orderType c |}.

(** Whether a placement ended with [success]. *)
Definition succeeded (o : Outcome Payload) : bool :=
  match o with Val r => Res.success r | Exn _ => false end.

(** A remote side that answers nothing. *)
Definition offline : Remote :=
  {| http := fun _ => Exn {| message := "Failed to fetch" |};
     api := fun _ => Exn {| message := "Failed to fetch" |} |}.

(** A computation that leaves a part of the state as it is, however the
    remote side answers. *)
Definition keeps {S A X} (proj : S -> X) (m : M S A) : Prop :=
  forall w s, proj (state_of (m w s)) = proj s.

(** A computation that logs no event of a kind. *)
Definition silent {S A} (kind : Event -> bool) (m : M S A) : Prop :=
  forall w s, List.filter kind (log_of (m w s)) = [].

(** Some forms. *)
Definition view_with (amount price : string) (t : OrderType)
    : ManualTradingView.State :=
  {| ManualTradingView.form :=
       {| ManualTradingView.symbol := "BTC-USDT-SWAP";
          ManualTradingView.side := buy;
          ManualTradingView.orderType := t;
          ManualTradingView.amount := amount;
          ManualTradingView.price := price;
          ManualTradingView.isSubmitting := false |};
     ManualTradingView.data := ManualTradingView.data ManualTradingView.initial |}.

Definition view2_with (amount price : string) (t : OrderType)
    : ManualTradingView2.State :=
  {| ManualTradingView2.form :=
       {| ManualTradingView2.symbol := "BTC-USDT-SWAP";
          ManualTradingView2.side := buy;
          ManualTradingView2.posSide := long;
          ManualTradingView2.orderType := t;
          ManualTradingView2.amount := amount;
          ManualTradingView2.price := price;
          ManualTradingView2.isSubmitting := false |};
     ManualTradingView2.data := ManualTradingView2.data ManualTradingView2.initial |}.

Definition panel_with (quantity price : string) (t : OrderType)
    : OKXTradingPanel.State :=
  {| OKXTradingPanel.symbol := "BTC"; OKXTradingPanel.side := buy;
     OKXTradingPanel.quantity := quantity; OKXTradingPanel.orderType := t;
     OKXTradingPanel.price := price; OKXTradingPanel.loading := false |}.

Definition is_toast (e : Event) : bool :=
  match e with Toast _ _ => true | _ => false end.

Definition toasts (log : list Event) : list Event := List.filter is_toast log.

(** Remote sides for the account view: every query answers [success] with
    nothing in it, except the positions query, which throws, answers
    [success = false], or answers [success] with no position. *)
Definition answering (positionsRes : Outcome Payload) : Remote :=
  {| http := fun _ => Exn {| message := "Failed to fetch" |};
     api := fun c => match c with
                     | getOKXPositions _ => positionsRes
                     | _ => Val (Res.plain true)
                     end |}.

Definition positions_throw : Remote :=
  answering (Exn {| message := "HTTP error! status: 500" |}).
Definition positions_refused : Remote := answering (Val (Res.plain false)).
Definition positions_empty : Remote := answering (Val (Res.plain true)).

(** What the history is after a fetch that started from [previous]. *)
Definition fetched_orders (o : Outcome Payload) (previous : list OKXOrder)
    : list OKXOrder :=
  match o with
  | Val res => if Res.success res then Res.orders res else previous
  | Exn _ => previous
  end.

Definition fetched_trades (o : Outcome Payload) (previous : list OKXTrade)
    : list OKXTrade :=
  match o with
  | Val res => if Res.success res then Res.trades res else previous
  | Exn _ => previous
  end.

(** An order and a trade, and views that have them cached. *)
Definition sample_order : OKXOrder :=
  {| o_id := "1001"; o_clientOrderId := None; o_symbol := "BTC/USDT:USDT";
     o_type := "market"; o_side := "buy"; o_price := JS.Fin 0; o_amount := JS.Fin 1;
     o_filled := JS.Fin 1; o_remaining := JS.Fin 0; o_status := "closed";
     o_timestamp := JS.Fin 0; o_datetime := "2025-01-01T00:00:00Z" |}.

Definition sample_trade : OKXTrade :=
  {| t_id := "2001"; t_order := "1001"; t_symbol := "BTC/USDT:USDT";
     t_type := "market"; t_side := "buy"; t_price := JS.Fin 30000;
     t_amount := JS.Fin 1; t_cost := JS.Fin 30000; t_fee := None;
     t_timestamp := JS.Fin 0; t_datetime := "2025-01-01T00:00:00Z" |}.

Definition view2_cached : ManualTradingView2.State :=
  ManualTradingView2.setTrades [sample_trade]
    (ManualTradingView2.setOrderHistory [sample_order] ManualTradingView2.initial).

Definition account_cached : OKXAccountView.State :=
  OKXAccountView.setTrades [sample_trade]
    (OKXAccountView.setOrderHistory [sample_order] OKXAccountView.initial).

(** A remote side on which every query succeeds and finds nothing, and the
    views after the History tab was chosen once on it. *)
Definition empty_account : Remote :=
  {| http := fun _ => Exn {| message := "Failed to fetch" |};
     api := fun _ => Val (Res.plain true) |}.

Definition visited_once : ManualTradingView2.State :=
  state_of (run (ManualTradingView2.fetchOrderHistory 1 ManualTradingView2.initial
                   false) empty_account ManualTradingView2.initial).

Definition account_visited_once : OKXAccountView.State :=
  state_of (run (OKXAccountView.fetchOrderHistory 1 OKXAccountView.initial)
              empty_account OKXAccountView.initial).

(** A market buy of one contract. *)
Definition one_contract : PlaceOKXOrderRequest :=
  {| r_symbol := "BTC-USDT-SWAP"; r_side := buy; r_quantity := JS.Fin 1;
     r_orderType := market; r_price := None |}.

(** Two calls of [placeOKXOrder], one after the other, whatever the first
    one answers. *)
Definition place_twice {S} (req : PlaceOKXOrderRequest) : M S Payload :=
  _ <- attempt (Api.placeOKXOrder req) ;;;
  Api.placeOKXOrder req.

(** The names of the properties of an order request. *)
Definition request_fields : list string :=
  ["symbol"; "side"; "quantity"; "order_type"; "price"].

(** A string in which a character does not occur. *)
Fixpoint avoids (sep : ascii) (s : string) : bool :=
  match s with
  | EmptyString => true
  | String ch r => negb (ch =? sep)%char && avoids sep r
  end.

(** Two balances, a long and a short position, and no open order. *)
Definition sample_balances : list Snapshot.Balance :=
  [ {| Snapshot.currency := "USDT"; Snapshot.total := 1000; Snapshot.free := 750;
       Snapshot.used := 250 |};
    {| Snapshot.currency := "BTC"; Snapshot.total := 1 # 2; Snapshot.free := 1 # 2;
       Snapshot.used := 0 |} ].

Definition sample_positions : list Snapshot.Position :=
  [ {| Snapshot.notional := 3000; Snapshot.unrealizedPnl := 12 |};
    {| Snapshot.notional := - (1500); Snapshot.unrealizedPnl := - (7 # 2) |} ].

(** One BTC at 30000 USDT. *)
Definition sample_value (currency : string) (amount : Q) : Q :=
  if String.eqb currency "BTC" then (30000 * amount)%Q else amount.

(** The base currencies of the supported instruments, in their order. *)
Definition supported_bases : list string :=
  [ "BTC"; "ETH"; "SOL"; "DOGE"; "XRP"; "ADA"; "AVAX"; "DOT"; "MATIC"; "LTC";
    "BTC"; "ETH"; "SOL"; "BNB"; "XRP"; "DOGE"; "ADA"; "AVAX"; "MATIC"; "LINK" ]
  ++ OKXTradingPanel.CRYPTO_SYMBOLS.

(** A limit or a number of days that is left out, or is an integer that
    [toString] writes in plain decimal digits. *)
Definition plain_integer (z : option Z) : bool :=
  match z with
  | Some n => (Z.abs n <? 10 ^ 21)%Z
  | None => true
  end.

(** Amount and price are values of number inputs. *)
Definition from_number_inputs (f : OrderForm) : Prop :=
  JS.number_input_value (f_amount f) = true
  /\ JS.number_input_value (f_price f) = true.

(** How often a character occurs in a string. *)
Fixpoint occurrences (c : ascii) (s : string) : nat :=
  match s with
  | EmptyString => 0
  | String a r => (if (a =? c)%char then 1 else 0) + occurrences c r
  end.

(** The characters a serialized query consists of besides its separators. *)
Definition query_safe (c : ascii) : bool :=
  Api.unreserved c || (c =? "+")%char || (c =? "%")%char.

Fixpoint all_chars (p : ascii -> bool) (s : string) : bool :=
  match s with
  | EmptyString => true
  | String a r => p a && all_chars p r
  end.

(** The request [apiRequest] makes. *)
Definition api_request (endpoint : string) (method : HttpMethod)
    (body : list (string * json)) : HttpRequest :=
  {| h_method := method; h_url := "/api" +:+ endpoint; h_body := body |}.

(** A remote side whose every answer is the given response. *)
Definition responding (response : HttpResponse) : Remote :=
  {| http := fun _ => Val response;
     api := fun _ => Exn {| message := "Failed to fetch" |} |}.

(** The answer of a server that refuses an order with a reason. *)
Definition bad_request : HttpResponse :=
  {| h_ok := false; h_status := 400;
     h_content_type := Some "application/json";
     h_json := Val {| Res.success := false; Res.assets := []; Res.positions := [];
                      Res.orders := []; Res.trades := []; Res.summary := None;
                      Res.order_id := None; Res.error := "";
                      Res.detail := "Insufficient margin"; Res.message := "" |} |}.

(** A server error, and a remote side that answers the balance query with
    it and every other request with [success] and one position. *)
Definition server_error : HttpResponse :=
  {| h_ok := false; h_status := 500; h_content_type := Some "text/html";
     h_json := Exn {| message := "Unexpected token" |} |}.

Definition sample_position : OKXPosition :=
  {| p_symbol := "BTC/USDT:USDT"; p_side := "long"; p_contracts := JS.Fin 1;
     p_contractSize := JS.Fin (1 # 100); p_notional := JS.Fin 300;
     p_leverage := JS.Fin 3; p_unrealizedPnl := JS.Fin 0;
     p_percentage := JS.Fin 0; p_entryPrice := JS.Fin 30000;
     p_markPrice := JS.Fin 30000; p_liquidationPrice := JS.Fin 20000;
     p_marginMode := "cross"; p_timestamp := JS.Fin 0;
     p_datetime := "2025-01-01T00:00:00Z" |}.

Definition good_answer : HttpResponse :=
  {| h_ok := true; h_status := 200; h_content_type := Some "application/json";
     h_json := Val {| Res.success := true; Res.assets := [];
                      Res.positions := [sample_position]; Res.orders := [];
                      Res.trades := []; Res.summary := None; Res.order_id := Some "77";
                      Res.error := ""; Res.detail := ""; Res.message := "" |} |}.

Definition balance_down : Remote :=
  {| http := fun r => if String.eqb (h_url r) "/api/okx-account/balance"
                      then Val server_error else Val good_answer;
     api := fun _ => Exn {| message := "Failed to fetch" |} |}.

Definition is_timeout (e : Event) : bool :=
  match e with SetTimeout _ => true | _ => false end.

(** The request of the trading panel, and the body of its answer: the panel
    reads the body whatever the status of the response is. *)
Definition panel_request (c : OKXTradingPanel.State) : HttpRequest :=
  {| h_method := POST; h_url := "/api/okx-account/order";
     h_body := OKXTradingPanel.order_body c |}.

Definition panel_answer (w : Remote) (c : OKXTradingPanel.State) : Outcome Payload :=
  match http w (panel_request c) with
  | Val response => h_json response
  | Exn e => Exn e
  end.

(** The request of [handleSubmitOrder] of ManualTradingView.tsx. *)
Definition view_request (c : ManualTradingView.State) : HttpRequest :=
  api_request "/okx-account/order" POST
    (Api.backendRequest (ManualTradingView.orderRequest c)).

(** A JSON value that is a number above zero. *)
Definition positive_json (j : json) : Prop :=
  exists q, j = JNum (JS.Fin q) /\ (0 < q)%Q.

(** The messages of the server that are answered with [get_snapshot]. *)
Definition asks_snapshot (m : Main.ServerMsg) : bool :=
  match m with
  | Main.bootstrap_ok | Main.order_filled | Main.order_pending => true
  | _ => false
  end.

(** A page on which every socket is closed and no timer is pending. *)
Definition at_rest (w : Main.World) : Prop :=
  (forall i s, Main.sockets w !! i = Some s -> Main.readyState s = Main.CLOSED)
  /\ (forall t, Main.is_pending w t = false).

(** The first messages of a session: the server introduces the user and the
    account, then sends a snapshot. *)
Definition hello : list (option App.Value) :=
  [ Some (App.object
            [ ("type", App.text "bootstrap_ok");
              ("user", App.object [ ("id", App.number (JS.Fin 1));
                                    ("username", App.text "default") ]);
              ("account", App.object [ ("id", App.number (JS.Fin 1));
                                       ("name", App.text "Default") ]) ]);
    Some (App.object
            [ ("type", App.text "snapshot");
              ("overview", App.object
                             [ ("total_assets", App.number (JS.Fin 10000)) ]);
              ("positions", App.array []);
              ("orders", App.array []) ]) ].

(** A value that is neither [undefined] nor [null]. *)
Definition defined (v : App.Value) : Prop := v <> App.undefined /\ v <> App.null.

(** A page served over https by a host that is not local. *)
Definition production_page : App.Location :=
  {| App.hostname := "trade.example.com"; App.protocol := "https:";
     App.host := "trade.example.com:8443" |}.

(* ===================================================================== *)
(** * Properties *)
(* ===================================================================== *)

(** ** [parseFloat] on some texts *)

Example parseFloat_decimal : JS.parseFloat "0.001" = JS.Fin (1 # 1000).
Proof. reflexivity. Qed.

Example parseFloat_prefix : JS.parseFloat " 7px" = JS.Fin 7.
Proof. reflexivity. Qed.

Example parseFloat_exponent : JS.parseFloat "-3.5e2" = JS.Fin (- (350)).
Proof. reflexivity. Qed.

Example parseFloat_empty : JS.parseFloat "" = JS.NaN.
Proof. reflexivity. Qed.

Example parseFloat_text : JS.parseFloat "abc" = JS.NaN.
Proof. reflexivity. Qed.

Example parseFloat_dot : JS.parseFloat "." = JS.NaN.
Proof. reflexivity. Qed.

Example parseFloat_infinity : JS.parseFloat "-Infinity" = JS.NInf.
Proof. reflexivity. Qed.

Example parseFloat_underflow : JS.parseFloat "1e-400" = JS.Fin 0.
Proof. reflexivity. Qed.

Example parseFloat_overflow : JS.parseFloat "1e400" = JS.PInf.
Proof. reflexivity. Qed.

(** A no-break space (U+00A0) and a byte order mark (U+FEFF) are skipped. *)
Example parseFloat_no_break_space :
  JS.parseFloat (String (ascii_of_nat 194) (String (ascii_of_nat 160)
                   (String (ascii_of_nat 239) (String (ascii_of_nat 187)
                      (String (ascii_of_nat 191) "-5")))))
  = JS.Fin (- (5)).
Proof. reflexivity. Qed.

(** [NaN] is neither [<= 0] nor [> 0]. *)
Lemma NaN_unordered : JS.le0 JS.NaN = false /\ JS.gt0 JS.NaN = false.
Proof. split; reflexivity. Qed.

(** On a number, [> 0] is the negation of [<= 0]. *)
Lemma gt0_not_le0 (x : JS.number) :
  JS.isNaN x = false -> JS.gt0 x = negb (JS.le0 x).
Proof. destruct x; simpl; [discriminate | reflexivity ..]. Qed.

(** ** The value of a number input parses to a number *)

Lemma of_decimal_number neg m e : JS.isNaN (JS.of_decimal neg m e) = false.
Proof.
  unfold JS.of_decimal. destruct (Qle_bool JS.overflow_bound _).
  - now destruct neg.
  - now destruct (Qle_bool _ JS.underflow_bound).
Qed.

(** The digits read do not depend on the value accumulated so far. *)
Lemma digits_count (s : string) : forall acc acc' n,
  snd (fst (JS.digits acc n s)) = snd (fst (JS.digits acc' n s))
  /\ snd (JS.digits acc n s) = snd (JS.digits acc' n s)
  /\ (n <= snd (fst (JS.digits acc n s)))%Z.
Proof.
  induction s as [| c r IH]; intros acc acc' n; simpl.
  - repeat split; lia.
  - destruct (JS.is_digit c); simpl.
    + destruct (IH (10 * acc + JS.digit_val c)%Z (10 * acc' + JS.digit_val c)%Z (n + 1)%Z)
        as (H1 & H2 & H3).
      repeat split; trivial; lia.
    + repeat split; lia.
Qed.

(** When no digit is read, nothing is consumed; otherwise the text starts
    with a digit. *)
Lemma digits_head (s : string) acc n :
  match s with
  | String c _ =>
      if JS.is_digit c then (n < snd (fst (JS.digits acc n s)))%Z
      else JS.digits acc n s = (acc, n, s)
  | EmptyString => JS.digits acc n s = (acc, n, s)
  end.
Proof.
  destruct s as [| c r]; simpl; [reflexivity |].
  destruct (JS.is_digit c); [| reflexivity].
  pose proof (digits_count r (10 * acc + JS.digit_val c)%Z 0%Z (n + 1)%Z) as (_ & _ & H).
  lia.
Qed.

Lemma digit_not_other c :
  JS.is_digit c = true ->
  JS.is_space c = false /\ (c =? "-")%char = false /\ (c =? "+")%char = false
  /\ (c =? ".")%char = false /\ (c =? "I")%char = false.
Proof.
  destruct c as [[] [] [] [] [] [] [] []]; vm_compute; intros H;
    first [discriminate H | repeat split].
Qed.

Lemma valid_unsigned_head (s : string) :
  JS.valid_unsigned s = true ->
  exists c r, s = String c r /\ (JS.is_digit c = true \/ (c =? ".")%char = true).
Proof.
  unfold JS.valid_unsigned. destruct s as [| c r]; [discriminate |].
  intros H. exists c, r. split; [reflexivity |].
  pose proof (digits_head (String c r) 0 0) as D. simpl in D.
  destruct (JS.is_digit c) eqn:Hd; [now left |]. right.
  change (JS.digits 0 0 (String c r)) with
    (if JS.is_digit c then JS.digits (10 * 0 + JS.digit_val c) (0 + 1) r
     else (0%Z, 0%Z, String c r)) in H.
  rewrite Hd in H. destruct (c =? ".")%char; [reflexivity |]. discriminate.
Qed.

Lemma valid_unsigned_parses neg (s : string) :
  JS.valid_unsigned s = true -> JS.isNaN (JS.unsigned_literal neg s) = false.
Proof.
  intros V. destruct (valid_unsigned_head s V) as (c & r & -> & Hc).
  unfold JS.unsigned_literal.
  assert (I : JS.starts_with "Infinity" (String c r) = false).
  { change (JS.starts_with "Infinity" (String c r))
      with (("I" =? c)%char && JS.starts_with "nfinity" r).
    destruct Hc as [Hd | Hp].
    - destruct (digit_not_other c Hd) as (_ & _ & _ & _ & HI).
      now rewrite Ascii.eqb_sym, HI.
    - apply Ascii.eqb_eq in Hp. subst c. reflexivity. }
  rewrite I. clear I. unfold JS.valid_unsigned in V.
  destruct (JS.digits 0 0 (String c r)) as [[i ni] r0] eqn:D.
  pose proof (digits_count (String c r) 0%Z 0%Z 0%Z) as (_ & _ & Hn).
  rewrite D in Hn. simpl in Hn.
  destruct r0 as [| c0 r1].
  - rewrite V. apply of_decimal_number.
  - destruct (c0 =? ".")%char.
    + pose proof (digits_count r1 i 0%Z 0%Z) as (H1 & H2 & H3).
      destruct (JS.digits i 0 r1) as [[m nf] r2].
      destruct (JS.digits 0 0 r1) as [[m' nf'] r2']. simpl in *. subst nf' r2'.
      apply andb_true_iff in V as [V _]. apply Z.ltb_lt in V.
      replace (0 <? ni + nf)%Z with true by (symmetry; apply Z.ltb_lt; lia).
      apply of_decimal_number.
    + apply andb_true_iff in V as [V _]. rewrite V. apply of_decimal_number.
Qed.

(** No white space starts with a character of the ASCII range that is not
    white space itself. *)
Lemma trim_start_plain (c : ascii) (r : string) :
  JS.is_space c = false -> (nat_of_ascii c <? 128)%nat = true ->
  JS.trim_start (String c r) = String c r.
Proof.
  destruct c as [[] [] [] [] [] [] [] []]; vm_compute; intros Hs Ha;
    try discriminate Hs; try discriminate Ha;
    destruct r as [| c1 [| c2 r2]]; reflexivity.
Qed.

Lemma digit_plain c : JS.is_digit c = true -> (nat_of_ascii c <? 128)%nat = true.
Proof.
  destruct c as [[] [] [] [] [] [] [] []]; vm_compute; intros H;
    first [discriminate H | reflexivity].
Qed.

Lemma valid_float_parses (s : string) :
  JS.valid_float s = true -> JS.isNaN (JS.parseFloat s) = false.
Proof.
  unfold JS.valid_float, JS.parseFloat. destruct s as [| c r]; [discriminate |].
  destruct (c =? "-")%char eqn:Hm.
  - apply Ascii.eqb_eq in Hm. subst c.
    rewrite trim_start_plain by reflexivity.
    change (("-" =? "-")%char) with true. cbv iota. apply valid_unsigned_parses.
  - intros V. destruct (valid_unsigned_head _ V) as (c' & r' & [= <- <-] & Hc).
    assert (Hs : JS.is_space c = false /\ (c =? "+")%char = false
                 /\ (nat_of_ascii c <? 128)%nat = true).
    { destruct Hc as [Hd | Hp].
      - destruct (digit_not_other c Hd) as (H1 & _ & H3 & _).
        pose proof (digit_plain c Hd). auto.
      - apply Ascii.eqb_eq in Hp. subst c. repeat split. }
    destruct Hs as (Hs & Hplus & Ha).
    rewrite (trim_start_plain c r Hs Ha), Hm, Hplus.
    now apply valid_unsigned_parses.
Qed.

(** ** The monad *)

Section Frames.
Context {S X : Type} (proj : S -> X).

Lemma keeps_ret {A} (a : A) : keeps proj (@ret S A a).
Proof. intros w s. reflexivity. Qed.

Lemma keeps_throw {A} e : keeps proj (@throw S A e).
Proof. intros w s. reflexivity. Qed.

Lemma keeps_emit e : keeps proj (@emit S e).
Proof. intros w s. reflexivity. Qed.

Lemma keeps_fetch r : keeps proj (@fetch S r).
Proof. intros w s. reflexivity. Qed.

Lemma keeps_call c : keeps proj (@call S c).
Proof. intros w s. reflexivity. Qed.

Lemma keeps_settle {A} (o : Outcome A) : keeps proj (@settle S A o).
Proof. intros w s. reflexivity. Qed.

Lemma keeps_set (f : S -> S) :
  (forall s, proj (f s) = proj s) -> keeps proj (set f).
Proof. intros H w s. apply H. Qed.

Lemma keeps_bind {A B} (m : M S A) (k : A -> M S B) :
  keeps proj m -> (forall a, keeps proj (k a)) -> keeps proj (bind m k).
Proof.
  intros Hm Hk w s. specialize (Hm w s). unfold bind, state_of in *.
  destruct (m w s) as [[[a | e] s1] l1]; simpl in *; [| exact Hm].
  specialize (Hk a w s1). unfold state_of in Hk.
  destruct (k a w s1) as [[o s2] l2]. simpl in *. congruence.
Qed.

Lemma keeps_try_catch {A} (m : M S A) (h : Error -> M S A) :
  keeps proj m -> (forall e, keeps proj (h e)) -> keeps proj (try_catch m h).
Proof.
  intros Hm Hh w s. specialize (Hm w s). unfold try_catch, state_of in *.
  destruct (m w s) as [[[a | e] s1] l1]; simpl in *; [exact Hm |].
  specialize (Hh e w s1). unfold state_of in Hh.
  destruct (h e w s1) as [[o s2] l2]. simpl in *. congruence.
Qed.

Lemma keeps_try_finally {A} (m : M S A) (f : M S unit) :
  keeps proj m -> keeps proj f -> keeps proj (try_finally m f).
Proof.
  intros Hm Hf w s. specialize (Hm w s). unfold try_finally, state_of in *.
  destruct (m w s) as [[o s1] l1]. simpl in *.
  specialize (Hf w s1). unfold state_of in Hf.
  destruct (f w s1) as [[[u | e] s2] l2]; simpl in *; congruence.
Qed.

Lemma keeps_when b (m : M S unit) : keeps proj m -> keeps proj (when b m).
Proof. destruct b; simpl; [trivial | intros _; apply keeps_ret]. Qed.

Lemma keeps_unawaited {A} (m : M S A) : keeps proj m -> keeps proj (unawaited m).
Proof.
  intros Hm w s. specialize (Hm w s). unfold unawaited, state_of in *.
  destruct (m w s) as [[o s1] l1]. exact Hm.
Qed.

Lemma keeps_promise_all3 {A B C} (a : M S A) (b : M S B) (c : M S C) :
  keeps proj a -> keeps proj b -> keeps proj c -> keeps proj (promise_all3 a b c).
Proof.
  intros Ha Hb Hc w s. unfold promise_all3, state_of.
  specialize (Ha w s). unfold state_of in Ha.
  destruct (a w s) as [[oa s1] l1]. simpl in Ha.
  specialize (Hb w s1). unfold state_of in Hb.
  destruct (b w s1) as [[ob s2] l2]. simpl in Hb.
  specialize (Hc w s2). unfold state_of in Hc.
  destruct (c w s2) as [[oc s3] l3]. simpl in *. congruence.
Qed.
End Frames.

Create HintDb frames.
#[export] Hint Resolve keeps_ret keeps_throw keeps_emit keeps_fetch keeps_call
  keeps_settle keeps_bind keeps_try_catch keeps_try_finally keeps_when
  keeps_unawaited keeps_promise_all3 : frames.

Section Logs.
Context {S : Type} (kind : Event -> bool).

Lemma silent_ret {A} (a : A) : silent kind (@ret S A a).
Proof. intros w s. reflexivity. Qed.

Lemma silent_throw {A} e : silent kind (@throw S A e).
Proof. intros w s. reflexivity. Qed.

Lemma silent_set (f : S -> S) : silent kind (set f).
Proof. intros w s. reflexivity. Qed.

Lemma silent_settle {A} (o : Outcome A) : silent kind (@settle S A o).
Proof. intros w s. reflexivity. Qed.

Lemma silent_emit e : kind e = false -> silent kind (@emit S e).
Proof. intros H w s. unfold emit, log_of. simpl. now rewrite H. Qed.

Lemma silent_fetch r : kind (Fetch r) = false -> silent kind (@fetch S r).
Proof. intros H w s. unfold fetch, log_of. simpl. now rewrite H. Qed.

Lemma silent_call c : kind (Call c) = false -> silent kind (@call S c).
Proof. intros H w s. unfold call, log_of. simpl. now rewrite H. Qed.

Lemma silent_bind {A B} (m : M S A) (k : A -> M S B) :
  silent kind m -> (forall a, silent kind (k a)) -> silent kind (bind m k).
Proof.
  intros Hm Hk w s. specialize (Hm w s). unfold bind, log_of in *.
  destruct (m w s) as [[[a | e] s1] l1]; simpl in *; [| exact Hm].
  specialize (Hk a w s1). unfold log_of in Hk.
  destruct (k a w s1) as [[o s2] l2]. simpl in *.
  rewrite List.filter_app, Hm, Hk. reflexivity.
Qed.

Lemma silent_try_catch {A} (m : M S A) (h : Error -> M S A) :
  silent kind m -> (forall e, silent kind (h e)) -> silent kind (try_catch m h).
Proof.
  intros Hm Hh w s. specialize (Hm w s). unfold try_catch, log_of in *.
  destruct (m w s) as [[[a | e] s1] l1]; simpl in *; [exact Hm |].
  specialize (Hh e w s1). unfold log_of in Hh.
  destruct (h e w s1) as [[o s2] l2]. simpl in *.
  rewrite List.filter_app, Hm, Hh. reflexivity.
Qed.

Lemma silent_try_finally {A} (m : M S A) (f : M S unit) :
  silent kind m -> silent kind f -> silent kind (try_finally m f).
Proof.
  intros Hm Hf w s. specialize (Hm w s). unfold try_finally, log_of in *.
  destruct (m w s) as [[o s1] l1]. simpl in *.
  specialize (Hf w s1). unfold log_of in Hf.
  destruct (f w s1) as [[[u | e] s2] l2]; simpl in *;
    rewrite List.filter_app, Hm, Hf; reflexivity.
Qed.

Lemma silent_when b (m : M S unit) : silent kind m -> silent kind (when b m).
Proof. destruct b; simpl; [trivial | intros _; apply silent_ret]. Qed.

Lemma silent_unawaited {A} (m : M S A) :
  silent kind m -> silent kind (unawaited m).
Proof.
  intros Hm w s. specialize (Hm w s). unfold unawaited, log_of in *.
  destruct (m w s) as [[o s1] l1]. exact Hm.
Qed.

Lemma silent_promise_all3 {A B C} (a : M S A) (b : M S B) (c : M S C) :
  silent kind a -> silent kind b -> silent kind c ->
  silent kind (promise_all3 a b c).
Proof.
  intros Ha Hb Hc w s. unfold promise_all3, log_of.
  specialize (Ha w s). unfold log_of in Ha.
  destruct (a w s) as [[oa s1] l1]. simpl in Ha.
  specialize (Hb w s1). unfold log_of in Hb.
  destruct (b w s1) as [[ob s2] l2]. simpl in Hb.
  specialize (Hc w s2). unfold log_of in Hc.
  destruct (c w s2) as [[oc s3] l3]. simpl in *.
  rewrite !List.filter_app, Ha, Hb, Hc. reflexivity.
Qed.
End Logs.

Create HintDb logs.
#[export] Hint Resolve silent_ret silent_throw silent_set silent_settle
  silent_emit silent_fetch silent_call silent_bind silent_try_catch
  silent_try_finally silent_when silent_unawaited silent_promise_all3 : logs.

(** ** lib/api.ts *)

Lemma append_assoc (a b c : string) : (a +:+ b) +:+ c = a +:+ (b +:+ c).
Proof.
  induction a as [| ch a IH]; [reflexivity |].
  change (String ch ((a +:+ b) +:+ c) = String ch (a +:+ (b +:+ c))).
  now f_equal.
Qed.

(** A request function of lib/api.ts makes exactly one HTTP request, to
    [/api] followed by its endpoint, and leaves the state alone. *)
Lemma json_of_log {S} endpoint method body (w : Remote) (s : S) :
  log_of (Api.json_of endpoint method body w s)
  = [Fetch {| h_method := method; h_url := "/api" +:+ endpoint; h_body := body |}]
  /\ state_of (Api.json_of endpoint method body w s) = s.
Proof.
  unfold Api.json_of, Api.apiRequest, bind, fetch, try_catch, settle, throw, ret,
    log_of, state_of.
  simpl.
  destruct (http w _) as [response | e]; simpl; [| auto].
  destruct (h_ok response); simpl.
  - destruct (h_content_type response) as [ct |]; simpl; [| auto].
    destruct (Api.includes _ ct); simpl; auto.
  - destruct (h_json response); simpl; auto.
Qed.

Lemma keeps_json_of {S X} (proj : S -> X) endpoint method body :
  keeps proj (@Api.json_of S endpoint method body).
Proof. intros w s. now rewrite (proj2 (json_of_log endpoint method body w s)). Qed.

(** The outcome of a request function does not depend on the state of the
    component that calls it. *)
Lemma json_of_outcome {S S'} endpoint method body (w : Remote) (s : S) (s' : S') :
  outcome_of (Api.json_of endpoint method body w s)
  = outcome_of (Api.json_of endpoint method body w s').
Proof.
  unfold Api.json_of, Api.apiRequest, bind, fetch, try_catch, settle, throw, ret,
    outcome_of.
  simpl.
  destruct (http w _) as [response | e]; simpl; [| auto].
  destruct (h_ok response); simpl.
  - destruct (h_content_type response) as [ct |]; simpl; [| auto].
    destruct (Api.includes _ ct); simpl; auto.
  - destruct (h_json response); simpl; auto.
Qed.

(** C9. A call of the order-history query or of the trades query that leaves
    the window arguments out is bounded by the defaults: whatever the symbol
    argument, the query carries [limit=100] and [days=7], and the one request
    made is the GET of that query. *)
Theorem history_queries_default_window :
  forall (symbol : option string),
    let prefix := if Api.given symbol
                  then "symbol=" +:+ Api.urlencode (Api.text symbol) +:+ "&"
                  else "" in
    Api.history_params symbol None None
    = (if Api.given symbol then [("symbol", Api.text symbol)] else [])
      ++ [("limit", "100"); ("days", "7")]
    /\ Api.getOKXOrderHistory_endpoint symbol None None
       = "/okx-account/orders/history?" +:+ prefix +:+ "limit=100&days=7"
    /\ Api.getOKXTrades_endpoint symbol None None
       = "/okx-account/trades?" +:+ prefix +:+ "limit=100&days=7"
    /\ (forall (w : Remote) (s : unit),
          log_of (run (Api.getOKXOrderHistory symbol None None) w s)
          = [Fetch {| h_method := GET;
                      h_url := "/api/okx-account/orders/history?" +:+ prefix
                               +:+ "limit=100&days=7";
                      h_body := [] |}]
          /\ log_of (run (Api.getOKXTrades symbol None None) w s)
             = [Fetch {| h_method := GET;
                         h_url := "/api/okx-account/trades?" +:+ prefix
                                  +:+ "limit=100&days=7";
                         h_body := [] |}]).
Proof.
  intros symbol prefix.
  assert (Hp : Api.toString (Api.history_params symbol None None)
               = prefix +:+ "limit=100&days=7").
  { unfold Api.history_params, prefix. destruct (Api.given symbol); [| reflexivity].
    rewrite !append_assoc. reflexivity. }
  repeat split.
  - unfold Api.history_params. destruct (Api.given symbol); reflexivity.
  - unfold Api.getOKXOrderHistory_endpoint. now rewrite Hp.
  - unfold Api.getOKXTrades_endpoint. now rewrite Hp.
  - unfold run, Api.getOKXOrderHistory.
    rewrite (proj1 (json_of_log _ _ _ w s)).
    unfold Api.getOKXOrderHistory_endpoint. now rewrite Hp.
  - unfold run, Api.getOKXTrades.
    rewrite (proj1 (json_of_log _ _ _ w s)).
    unfold Api.getOKXTrades_endpoint. now rewrite Hp.
Qed.

(** ** Validation of an order form *)

Lemma passes_positive (f : OrderForm) : passes f -> numeric f -> positive f.
Proof.
  unfold passes, numeric, positive, quantity_of, price_of.
  intros (_ & Hq & Hp) (Nq & Np). split.
  - destruct (JS.parseFloat (f_amount f)); simpl in *; try congruence.
    now rewrite Hq.
  - intros Ht. destruct (Hp Ht) as [_ Hp']. specialize (Np Ht).
    destruct (JS.parseFloat (f_price f)); simpl in *; try congruence.
    now rewrite Hp'.
Qed.

Lemma accepts_passes (f : OrderForm) : accepts f = true <-> passes f.
Proof.
  unfold accepts, passes. destruct (f_type f); simpl; split.
  - rewrite andb_true_r, andb_true_iff, negb_true_iff. intros [Ha Hq].
    repeat split; trivial; discriminate.
  - intros (Ha & Hq & _). now rewrite Ha, Hq.
  - rewrite !andb_true_iff, !negb_true_iff. intros [[Ha Hq] [Hp Hl]].
    repeat split; trivial.
  - intros (Ha & Hq & Hp). destruct (Hp eq_refl) as [Hp1 Hp2].
    now rewrite Ha, Hq, Hp1, Hp2.
Qed.

Lemma invalid_not_accepted (f : OrderForm) : invalid f -> accepts f = false.
Proof.
  unfold invalid, accepts. intros [Hq | [Ht Hp]].
  - rewrite Hq. simpl. now rewrite andb_false_r.
  - rewrite Ht, Hp. simpl. now rewrite !andb_false_r.
Qed.

Lemma filled_input_parses (text : string) :
  JS.number_input_value text = true -> JS.truthy text = true ->
  JS.isNaN (JS.parseFloat text) = false.
Proof.
  unfold JS.number_input_value. destruct text as [| c r]; [discriminate |].
  simpl. intros V _. now apply valid_float_parses.
Qed.

Lemma number_inputs_numeric (f : OrderForm) :
  from_number_inputs f -> passes f -> numeric f.
Proof.
  intros [Ia Ip] (Ha & _ & Hp). split.
  - now apply filled_input_parses.
  - intros Ht. destruct (Hp Ht) as [Hp' _]. now apply filled_input_parses.
Qed.

(** The two guards of a submit handler, in the order they are tested. *)
Ltac guards :=
  simpl;
  match goal with
  | |- context [JS.truthy ?amount] => destruct (JS.truthy amount) eqn:Ha; simpl
  end;
  [| split; [intros _; eauto | intros H; now elim H]];
  match goal with
  | |- context [JS.le0 ?quantity] => destruct (JS.le0 quantity) eqn:Hq; simpl
  end;
  [split; [intros _; eauto | intros H; now elim H] |];
  match goal with
  | |- context [is_limit ?type] => destruct (is_limit type) eqn:Hl; simpl
  end;
  [| split; [discriminate | reflexivity]];
  match goal with
  | |- context [JS.truthy ?price] => destruct (JS.truthy price) eqn:Hp; simpl
  end;
  [| split; [intros _; eauto | intros H; now elim H]];
  match goal with
  | |- context [JS.le0 ?number] => destruct (JS.le0 number) eqn:Hn; simpl
  end;
  [split; [intros _; eauto | intros H; now elim H] |];
  split; [discriminate | reflexivity].

Lemma view_guards (w : Remote) (c : ManualTradingView.State) :
  (accepts (view_form c) = false ->
     rejected (run (ManualTradingView.handleSubmitOrder c) w c) c)
  /\ (order_requests (log_of (run (ManualTradingView.handleSubmitOrder c) w c)) <> [] ->
        accepts (view_form c) = true).
Proof.
  unfold run, ManualTradingView.handleSubmitOrder, accepts, view_form,
    quantity_of, price_of, rejected.
  guards.
Qed.

Lemma view2_guards accountId (w : Remote) (c : ManualTradingView2.State) :
  (accepts (view2_form c) = false ->
     rejected (run (ManualTradingView2.handleSubmitOrder accountId c) w c) c)
  /\ (order_requests
        (log_of (run (ManualTradingView2.handleSubmitOrder accountId c) w c)) <> [] ->
        accepts (view2_form c) = true).
Proof.
  unfold run, ManualTradingView2.handleSubmitOrder, accepts, view2_form,
    quantity_of, price_of, rejected.
  guards.
Qed.

Lemma panel_guards (onRefresh : bool) (w : Remote) (c : OKXTradingPanel.State) :
  (accepts (panel_form c) = false ->
     rejected (run (OKXTradingPanel.handlePlaceOrder onRefresh c) w c) c)
  /\ (order_requests
        (log_of (run (OKXTradingPanel.handlePlaceOrder onRefresh c) w c)) <> [] ->
        accepts (panel_form c) = true).
Proof.
  unfold run, OKXTradingPanel.handlePlaceOrder, accepts, panel_form,
    quantity_of, price_of, rejected.
  guards.
Qed.

(** C1. In the trading form, in both its revisions, and in the trading
    panel, an order with [quantity <= 0], or a limit order with [price <= 0],
    is rejected by the handler itself: it reports the error and makes no
    request and no state change.  Amount, price and quantity are written from
    number inputs and by the components themselves, which write [""] and
    ["0.001"], so they are values of number inputs; on them a request to the
    order endpoint is made only when [quantity > 0] and, for a limit order,
    [price > 0]. *)
Theorem order_rejected_before_any_request :
  forall (w : Remote) (accountId : Z) (c : ManualTradingView.State)
         (c2 : ManualTradingView2.State)
         (p : OKXTradingPanel.State) (onRefresh : bool),
    let r := run (ManualTradingView.handleSubmitOrder c) w c in
    let r2 := run (ManualTradingView2.handleSubmitOrder accountId c2) w c2 in
    let r' := run (OKXTradingPanel.handlePlaceOrder onRefresh p) w p in
    (invalid (view_form c) -> rejected r c /\ network (log_of r) = [])
    /\ (from_number_inputs (view_form c) -> order_requests (log_of r) <> [] ->
        positive (view_form c))
    /\ (invalid (view2_form c2) -> rejected r2 c2 /\ network (log_of r2) = [])
    /\ (from_number_inputs (view2_form c2) -> order_requests (log_of r2) <> [] ->
        positive (view2_form c2))
    /\ (invalid (panel_form p) -> rejected r' p /\ network (log_of r') = [])
    /\ (from_number_inputs (panel_form p) -> order_requests (log_of r') <> [] ->
        positive (panel_form p)).
Proof.
  intros w accountId c c2 p onRefresh r r2 r'.
  destruct (view_guards w c) as [V1 V2].
  destruct (view2_guards accountId w c2) as [W1 W2].
  destruct (panel_guards onRefresh w p) as [P1 P2].
  split; [| split; [| split; [| split; [| split]]]].
  - intros H. destruct (V1 (invalid_not_accepted _ H)) as [msg E].
    split; [now exists msg |]. unfold r. now rewrite E.
  - intros I H. apply V2, accepts_passes in H.
    apply passes_positive; [| apply number_inputs_numeric]; assumption.
  - intros H. destruct (W1 (invalid_not_accepted _ H)) as [msg E].
    split; [now exists msg |]. unfold r2. now rewrite E.
  - intros I H. apply W2, accepts_passes in H.
    apply passes_positive; [| apply number_inputs_numeric]; assumption.
  - intros H. destruct (P1 (invalid_not_accepted _ H)) as [msg E].
    split; [now exists msg |]. unfold r'. now rewrite E.
  - intros I H. apply P2, accepts_passes in H.
    apply passes_positive; [| apply number_inputs_numeric]; assumption.
Qed.

Lemma order_rejected_before_any_request_witness :
  (rejected (run (ManualTradingView.handleSubmitOrder (view_with "0" "" market))
               offline (view_with "0" "" market)) (view_with "0" "" market)
   /\ network (log_of (run (ManualTradingView.handleSubmitOrder
                              (view_with "0" "" market))
                         offline (view_with "0" "" market))) = [])
  /\ positive (view_form (view_with "2" "30000.5" limit))
  /\ (rejected (run (ManualTradingView2.handleSubmitOrder 1
                      (view2_with "-1" "" market))
                  offline (view2_with "-1" "" market)) (view2_with "-1" "" market)
      /\ network (log_of (run (ManualTradingView2.handleSubmitOrder 1
                                 (view2_with "-1" "" market))
                            offline (view2_with "-1" "" market))) = [])
  /\ (rejected (run (OKXTradingPanel.handlePlaceOrder true (panel_with "1" "0" limit))
                  offline (panel_with "1" "0" limit)) (panel_with "1" "0" limit)
      /\ network (log_of (run (OKXTradingPanel.handlePlaceOrder true
                                 (panel_with "1" "0" limit))
                            offline (panel_with "1" "0" limit))) = [])
  /\ positive (panel_form (panel_with "0.001" "" market)).
Proof.
  pose proof (order_rejected_before_any_request offline 1 (view_with "0" "" market)
                (view2_with "-1" "" market) (panel_with "1" "0" limit) true)
    as (V & _ & W & _ & P & _).
  pose proof (order_rejected_before_any_request offline 1
                (view_with "2" "30000.5" limit) (view2_with "-1" "" market)
                (panel_with "0.001" "" market) true)
    as (_ & V' & _ & _ & _ & P').
  split; [| split; [| split; [| split]]].
  - apply V. left. reflexivity.
  - apply V'; [split; reflexivity | vm_compute; discriminate].
  - apply W. left. reflexivity.
  - apply P. right. split; reflexivity.
  - apply P'; [split; reflexivity | vm_compute; discriminate].
Defined.

(** ** Submitting an order *)

Lemma guard_flip (l t z : bool) :
  negb l || (t && negb z) = negb (l && (negb t || z)).
Proof. destruct l, t, z; reflexivity. Qed.

Ltac frames :=
  repeat first
    [ apply keeps_json_of
    | apply keeps_try_finally | apply keeps_try_catch | apply keeps_bind
    | apply keeps_when | apply keeps_unawaited | apply keeps_promise_all3
    | apply keeps_ret | apply keeps_emit | apply keeps_call | apply keeps_fetch
    | apply keeps_settle | apply keeps_throw
    | (apply keeps_set; intros; reflexivity)
    | match goal with
      | |- forall _ : _ * _ * _, keeps _ _ => intros [[? ?] ?]
      | |- forall _, keeps _ _ => intro
      end ].

(** Refreshing the data leaves the form alone. *)
Lemma view2_fetchAllData_form accountId :
  keeps ManualTradingView2.form (ManualTradingView2.fetchAllData accountId).
Proof. unfold ManualTradingView2.fetchAllData. frames. Qed.

Lemma view_fetchAllData_form :
  keeps ManualTradingView.form ManualTradingView.fetchAllData.
Proof.
  unfold ManualTradingView.fetchAllData, Api.getOKXBalance, Api.getOKXPositions,
    Api.getOKXOpenOrders.
  frames.
Qed.

(** A request function, run: its outcome, the state it was given, one
    request. *)
Lemma json_of_run {S} endpoint method body (w : Remote) (s : S) :
  Api.json_of endpoint method body w s
  = (outcome_of (Api.json_of endpoint method body w s), s,
     [Fetch {| h_method := method; h_url := "/api" +:+ endpoint; h_body := body |}]).
Proof.
  pose proof (json_of_log endpoint method body w s) as [Hl Hs].
  unfold log_of, state_of, outcome_of in *.
  destruct (Api.json_of endpoint method body w s) as [[o s1] l1].
  simpl in *. congruence.
Qed.

(** The form after [handleSubmitOrder] of the view with the history tabs. *)
Lemma view2_submit accountId (w : Remote) (c : ManualTradingView2.State) :
  let s' := state_of (run (ManualTradingView2.handleSubmitOrder accountId c) w c) in
  let o := api w (placeOKXOrder accountId (ManualTradingView2.orderRequest c)
                    (ManualTradingView2.posSide (ManualTradingView2.form c))) in
  (accepts (view2_form c) = false -> s' = c)
  /\ (accepts (view2_form c) = true ->
        ManualTradingView2.form s'
        = ManualTradingView2.form
            (if succeeded o
             then ManualTradingView2.setPrice ""
                    (ManualTradingView2.setAmount ""
                       (ManualTradingView2.setIsSubmitting false c))
             else ManualTradingView2.setIsSubmitting false c)).
Proof.
  unfold run, ManualTradingView2.handleSubmitOrder, accepts, view2_form,
    quantity_of, price_of. simpl.
  destruct (JS.truthy _) eqn:Ha; simpl; [| split; [reflexivity | discriminate]].
  destruct (JS.le0 (JS.parseFloat (ManualTradingView2.amount _))) eqn:Hq; simpl;
    [split; [reflexivity | discriminate] |].
  rewrite guard_flip.
  destruct (is_limit _ && _) eqn:Hg; simpl;
    [split; [reflexivity | discriminate] |].
  split; [discriminate | intros _].
  unfold bind, set, try_finally, try_catch, call, emit, unawaited, state_of.
  simpl.
  destruct (api w _) as [result | e]; simpl; [| reflexivity].
  destruct (Res.success result); simpl; [| reflexivity].
  match goal with
  | |- context [ManualTradingView2.fetchAllData accountId w ?s] =>
      pose proof (view2_fetchAllData_form accountId w s) as K;
      unfold state_of in K;
      destruct (ManualTradingView2.fetchAllData accountId w s) as [[o1 s1] l1]
  end.
  simpl in *. now rewrite K.
Qed.

(** The form after [handleSubmitOrder] of ManualTradingView.tsx. *)
Lemma view_submit (w : Remote) (c : ManualTradingView.State) :
  let s' := state_of (run (ManualTradingView.handleSubmitOrder c) w c) in
  let o := outcome_of (run (Api.placeOKXOrder (ManualTradingView.orderRequest c)) w c) in
  (accepts (view_form c) = false -> s' = c)
  /\ (accepts (view_form c) = true ->
        ManualTradingView.form s'
        = ManualTradingView.form
            (if succeeded o
             then ManualTradingView.setPrice ""
                    (ManualTradingView.setAmount ""
                       (ManualTradingView.setIsSubmitting false c))
             else ManualTradingView.setIsSubmitting false c)).
Proof.
  unfold run, ManualTradingView.handleSubmitOrder, accepts, view_form,
    quantity_of, price_of. simpl.
  destruct (JS.truthy _) eqn:Ha; simpl; [| split; [reflexivity | discriminate]].
  destruct (JS.le0 (JS.parseFloat (ManualTradingView.amount _))) eqn:Hq; simpl;
    [split; [reflexivity | discriminate] |].
  rewrite guard_flip.
  destruct (is_limit _ && _) eqn:Hg; simpl;
    [split; [reflexivity | discriminate] |].
  split; [discriminate | intros _].
  unfold Api.placeOKXOrder.
  unfold bind at 1. unfold set at 1. unfold try_finally, try_catch, bind.
  rewrite json_of_run.
  rewrite (json_of_outcome _ _ _ w (ManualTradingView.setIsSubmitting true c) c).
  destruct (outcome_of (Api.json_of _ _ _ w c)) as [result | e];
    unfold emit, set, unawaited, state_of; simpl; [| reflexivity].
  destruct (Res.success result); simpl; [| reflexivity].
  match goal with
  | |- context [ManualTradingView.fetchAllData w ?s] =>
      pose proof (view_fetchAllData_form w s) as K;
      unfold state_of in K;
      destruct (ManualTradingView.fetchAllData w s) as [[o1 s1] l1]
  end.
  simpl in *. now rewrite K.
Qed.

Lemma accepted_amount_not_empty (f : OrderForm) :
  accepts f = true -> f_amount f <> "".
Proof.
  intros H E. apply accepts_passes in H. destruct H as [H _].
  rewrite E in H. discriminate.
Qed.

(** C10. Submitting an order is atomic for the form, in both revisions of
    the trading view.  Once the form is accepted and the placement is made:
    the in-flight flag is false again on every path; symbol, side and order
    type (and position side) are what they were; when the placement answers
    [success = false] or throws, amount and price are what they were; when it
    succeeds both are cleared; and the amount is cleared exactly when the
    placement succeeds.  A form that is not accepted changes nothing. *)
Theorem submit_is_atomic_for_the_form :
  forall (accountId : Z) (w : Remote)
         (c2 : ManualTradingView2.State) (c : ManualTradingView.State),
    let s2 := state_of (run (ManualTradingView2.handleSubmitOrder accountId c2) w c2) in
    let o2 := api w (placeOKXOrder accountId (ManualTradingView2.orderRequest c2)
                       (ManualTradingView2.posSide (ManualTradingView2.form c2))) in
    let s := state_of (run (ManualTradingView.handleSubmitOrder c) w c) in
    let o := outcome_of (run (Api.placeOKXOrder (ManualTradingView.orderRequest c)) w c) in
    (accepts (view2_form c2) = false -> s2 = c2)
    /\ (accepts (view2_form c2) = true ->
          ManualTradingView2.isSubmitting (ManualTradingView2.form s2) = false
          /\ ManualTradingView2.symbol (ManualTradingView2.form s2)
             = ManualTradingView2.symbol (ManualTradingView2.form c2)
          /\ ManualTradingView2.side (ManualTradingView2.form s2)
             = ManualTradingView2.side (ManualTradingView2.form c2)
          /\ ManualTradingView2.posSide (ManualTradingView2.form s2)
             = ManualTradingView2.posSide (ManualTradingView2.form c2)
          /\ ManualTradingView2.orderType (ManualTradingView2.form s2)
             = ManualTradingView2.orderType (ManualTradingView2.form c2)
          /\ (succeeded o2 = false ->
                ManualTradingView2.amount (ManualTradingView2.form s2)
                = ManualTradingView2.amount (ManualTradingView2.form c2)
                /\ ManualTradingView2.price (ManualTradingView2.form s2)
                   = ManualTradingView2.price (ManualTradingView2.form c2))
          /\ (succeeded o2 = true ->
                ManualTradingView2.amount (ManualTradingView2.form s2) = ""
                /\ ManualTradingView2.price (ManualTradingView2.form s2) = "")
          /\ (ManualTradingView2.amount (ManualTradingView2.form s2) = ""
              <-> succeeded o2 = true))
    /\ (accepts (view_form c) = false -> s = c)
    /\ (accepts (view_form c) = true ->
          ManualTradingView.isSubmitting (ManualTradingView.form s) = false
          /\ ManualTradingView.symbol (ManualTradingView.form s)
             = ManualTradingView.symbol (ManualTradingView.form c)
          /\ ManualTradingView.side (ManualTradingView.form s)
             = ManualTradingView.side (ManualTradingView.form c)
          /\ ManualTradingView.orderType (ManualTradingView.form s)
             = ManualTradingView.orderType (ManualTradingView.form c)
          /\ (succeeded o = false ->
                ManualTradingView.amount (ManualTradingView.form s)
                = ManualTradingView.amount (ManualTradingView.form c)
                /\ ManualTradingView.price (ManualTradingView.form s)
                   = ManualTradingView.price (ManualTradingView.form c))
          /\ (succeeded o = true ->
                ManualTradingView.amount (ManualTradingView.form s) = ""
                /\ ManualTradingView.price (ManualTradingView.form s) = "")
          /\ (ManualTradingView.amount (ManualTradingView.form s) = ""
              <-> succeeded o = true)).
Proof.
  intros accountId w c2 c s2 o2 s o.
  destruct (view2_submit accountId w c2) as [R2 A2].
  destruct (view_submit w c) as [R A].
  fold s2 o2 in R2, A2. fold s o in R, A.
  split; [exact R2 |]. split; [| split; [exact R |]].
  - intros Hacc. specialize (A2 Hacc).
    pose proof (accepted_amount_not_empty _ Hacc) as Hne. simpl in Hne.
    rewrite A2. destruct (succeeded o2); simpl;
      repeat split; trivial; try discriminate; try congruence.
  - intros Hacc. specialize (A Hacc).
    pose proof (accepted_amount_not_empty _ Hacc) as Hne. simpl in Hne.
    rewrite A. destruct (succeeded o); simpl;
      repeat split; trivial; try discriminate; try congruence.
Qed.

Lemma submit_is_atomic_for_the_form_witness :
  state_of (run (ManualTradingView2.handleSubmitOrder 1 (view2_with "0" "" market))
              offline (view2_with "0" "" market))
  = view2_with "0" "" market
  /\ ManualTradingView2.isSubmitting
       (ManualTradingView2.form
          (state_of (run (ManualTradingView2.handleSubmitOrder 1
                            (view2_with "2" "" market))
                       offline (view2_with "2" "" market)))) = false
  /\ ManualTradingView.amount
       (ManualTradingView.form
          (state_of (run (ManualTradingView.handleSubmitOrder
                            (view_with "2" "100" limit))
                       offline (view_with "2" "100" limit)))) = "2".
Proof.
  split; [| split].
  - apply (submit_is_atomic_for_the_form 1 offline (view2_with "0" "" market)
             (view_with "2" "100" limit)).
    reflexivity.
  - apply (submit_is_atomic_for_the_form 1 offline (view2_with "2" "" market)
             (view_with "2" "100" limit)).
    reflexivity.
  - apply (submit_is_atomic_for_the_form 1 offline (view2_with "2" "" market)
             (view_with "2" "100" limit)); reflexivity.
Defined.

(** ** The account view: a query that fails *)

(** C5, as the code has it.  [fetchAllData] of the account view has no
    unavailable state for a section.  When the four queries answer, a section
    whose answer has [success = false] keeps the value it had, and no notice
    is shown; when a query throws, the three sections all keep the value they
    had and the one notice is the error toast.  So a section that was empty
    and whose query fails is shown as empty. *)
Theorem failed_section_keeps_previous_value :
  forall (accountId : Z) (w : Remote) (c : OKXAccountView.State),
    let r := run (OKXAccountView.fetchAllData accountId) w c in
    let s' := state_of r in
    match api w (getOKXAccountSummary accountId), api w (getOKXBalance accountId),
          api w (getOKXPositions accountId), api w (getOKXOpenOrders accountId) with
    | Val _, Val b, Val p, Val o =>
        OKXAccountView.balance s'
        = (if Res.success b then Res.assets b else OKXAccountView.balance c)
        /\ OKXAccountView.positions s'
           = (if Res.success p then Res.positions p else OKXAccountView.positions c)
        /\ OKXAccountView.openOrders s'
           = (if Res.success o then Res.orders o else OKXAccountView.openOrders c)
        /\ toasts (log_of r) = []
    | _, _, _, _ =>
        OKXAccountView.balance s' = OKXAccountView.balance c
        /\ OKXAccountView.positions s' = OKXAccountView.positions c
        /\ OKXAccountView.openOrders s' = OKXAccountView.openOrders c
        /\ toasts (log_of r) = [Toast toast_error "Failed to load OKX account data"]
    end
    /\ (OKXAccountView.positions c = [] ->
        succeeded (api w (getOKXPositions accountId)) = false ->
        OKXAccountView.renderPositions s' = OKXAccountView.NoOpenPositions).
Proof.
  intros accountId w c r s'. unfold s', r, run, OKXAccountView.fetchAllData.
  unfold OKXAccountView.renderPositions, succeeded.
  unfold try_finally, try_catch, bind, set, call, promise_all3, when, emit, ret,
    state_of, log_of, toasts.
  simpl.
  destruct (api w (getOKXAccountSummary accountId)) as [sm | e0]; simpl.
  2:{ split; [repeat split |]. now intros ->. }
  destruct (Res.success sm); simpl;
    destruct (api w (getOKXBalance accountId)) as [b | e1]; simpl;
    destruct (api w (getOKXPositions accountId)) as [p | e2]; simpl;
    destruct (api w (getOKXOpenOrders accountId)) as [o | e3]; simpl;
    try (split; [repeat split |]; now intros ->);
    destruct (Res.success b), (Res.success p), (Res.success o); simpl;
    (split; [repeat split |]; try discriminate; now intros ->).
Qed.

Lemma failed_section_keeps_previous_value_witness :
  OKXAccountView.renderPositions
    (state_of (run (OKXAccountView.fetchAllData 1) positions_throw
                 OKXAccountView.initial))
  = OKXAccountView.NoOpenPositions.
Proof.
  apply (failed_section_keeps_previous_value 1 positions_throw
           OKXAccountView.initial); reflexivity.
Defined.

(** C5, as stated, fails: on the first load a positions query that fails
    leaves [positions] the empty list, and the view shows what it shows for an
    account with no position; when the failure is an answer with
    [success = false], the run as a whole, its state and its log, is the one
    of a successful empty answer. *)
Lemma failed_positions_shown_as_empty :
  OKXAccountView.positions
    (state_of (run (OKXAccountView.fetchAllData 1) positions_throw
                 OKXAccountView.initial)) = []
  /\ OKXAccountView.renderPositions
       (state_of (run (OKXAccountView.fetchAllData 1) positions_throw
                    OKXAccountView.initial))
     = OKXAccountView.renderPositions
         (state_of (run (OKXAccountView.fetchAllData 1) positions_empty
                      OKXAccountView.initial))
  /\ run (OKXAccountView.fetchAllData 1) positions_refused OKXAccountView.initial
     = run (OKXAccountView.fetchAllData 1) positions_empty OKXAccountView.initial.
Proof. repeat split. Qed.

(** ** History and trades are loaded lazily *)

Ltac logs :=
  repeat first
    [ apply silent_try_finally | apply silent_try_catch | apply silent_bind
    | apply silent_when | apply silent_unawaited | apply silent_promise_all3
    | apply silent_ret | apply silent_set | apply silent_settle
    | apply silent_throw
    | (apply silent_emit; reflexivity)
    | (apply silent_call; reflexivity)
    | (apply silent_fetch; reflexivity)
    | match goal with
      | |- forall _ : _ * _ * _, silent _ _ => intros [[? ?] ?]
      | |- forall _, silent _ _ => intro
      end ].

Lemma view2_fetchAllData_no_history accountId :
  silent is_history_request (ManualTradingView2.fetchAllData accountId).
Proof. unfold ManualTradingView2.fetchAllData. logs. Qed.

Lemma account_fetchAllData_no_history accountId :
  silent is_history_request (OKXAccountView.fetchAllData accountId).
Proof. unfold OKXAccountView.fetchAllData. logs. Qed.

Lemma view2_fetchAllData_orderHistory accountId :
  keeps (fun x => ManualTradingView2.orderHistory (ManualTradingView2.data x))
    (ManualTradingView2.fetchAllData accountId).
Proof. unfold ManualTradingView2.fetchAllData. frames. Qed.

Lemma view2_fetchAllData_trades accountId :
  keeps (fun x => ManualTradingView2.trades (ManualTradingView2.data x))
    (ManualTradingView2.fetchAllData accountId).
Proof. unfold ManualTradingView2.fetchAllData. frames. Qed.

Lemma view2_handleRefresh_lists accountId (w : Remote)
    (c s : ManualTradingView2.State) :
  ManualTradingView2.orderHistory
    (ManualTradingView2.data
       (state_of (run (ManualTradingView2.handleRefresh accountId c) w s)))
  = fetched_orders (api w (getOKXOrderHistory accountId)) []
  /\ ManualTradingView2.trades
       (ManualTradingView2.data
          (state_of (run (ManualTradingView2.handleRefresh accountId c) w s)))
     = fetched_trades (api w (getOKXTrades accountId)) [].
Proof.
  unfold run, ManualTradingView2.handleRefresh, ManualTradingView2.fetchOrderHistory,
    ManualTradingView2.fetchTrades.
  rewrite !andb_false_r.
  unfold bind, set, unawaited, try_catch, call, when, emit, ret,
    state_of, fetched_orders, fetched_trades.
  simpl.
  match goal with
  | |- context [ManualTradingView2.fetchAllData accountId w ?s0] =>
      pose proof (view2_fetchAllData_orderHistory accountId w s0) as K1;
      pose proof (view2_fetchAllData_trades accountId w s0) as K2;
      unfold state_of in K1, K2;
      destruct (ManualTradingView2.fetchAllData accountId w s0) as [[o1 s1] l1]
  end.
  simpl in *.
  destruct (api w (getOKXOrderHistory accountId)) as [r1 | e1];
    [destruct (Res.success r1) |];
    (destruct (api w (getOKXTrades accountId)) as [r2 | e2];
      [destruct (Res.success r2) |]);
    simpl; rewrite ?K1, ?K2; auto.
Qed.

(** C6, as the code has it.  The default fetch of either view,
    [fetchAllData], asks for neither order history nor trades, and the tabs
    ask only when the History or the Trades tab is chosen.  What the views
    keep of a fetch is the list itself, and a list is a cache when it is not
    empty: a request for history or trades with such a list and no force flag
    returns at once, with no request, no event and no state change, while a
    request with an empty list asks, also when the list is empty because the
    answer of an earlier fetch was.  The refresh of the trading view empties
    both lists first, so that afterwards each list is empty or the list of an
    answer that succeeded, never the old cache. *)
Theorem history_is_lazy_and_cached :
  forall (accountId : Z) (w : Remote)
         (c s : ManualTradingView2.State) (c' s' : OKXAccountView.State),
    (* the default fetch *)
    history_requests (log_of (run (ManualTradingView2.fetchAllData accountId) w s)) = []
    /\ history_requests (log_of (run (OKXAccountView.fetchAllData accountId) w s')) = []
    (* the tabs *)
    /\ (forall value, value <> "history" -> value <> "trades" ->
          run (ManualTradingView2.onValueChange accountId c value) w s = (Val tt, s, [])
          /\ run (OKXAccountView.onValueChange accountId c' value) w s'
             = (Val tt, s', []))
    (* a list that is not empty is a cache *)
    /\ (ManualTradingView2.orderHistory (ManualTradingView2.data c) <> [] ->
          run (ManualTradingView2.fetchOrderHistory accountId c false) w s
          = (Val tt, s, []))
    /\ (ManualTradingView2.trades (ManualTradingView2.data c) <> [] ->
          run (ManualTradingView2.fetchTrades accountId c false) w s = (Val tt, s, []))
    /\ (OKXAccountView.orderHistory c' <> [] ->
          run (OKXAccountView.fetchOrderHistory accountId c') w s' = (Val tt, s', []))
    /\ (OKXAccountView.trades c' <> [] ->
          run (OKXAccountView.fetchTrades accountId c') w s' = (Val tt, s', []))
    (* an empty list is none *)
    /\ (ManualTradingView2.orderHistory (ManualTradingView2.data c) = [] ->
          let r := run (ManualTradingView2.fetchOrderHistory accountId c false) w s in
          network (log_of r) = [Call (getOKXOrderHistory accountId)]
          /\ ManualTradingView2.orderHistory (ManualTradingView2.data (state_of r))
             = fetched_orders (api w (getOKXOrderHistory accountId))
                 (ManualTradingView2.orderHistory (ManualTradingView2.data s)))
    /\ (ManualTradingView2.trades (ManualTradingView2.data c) = [] ->
          let r := run (ManualTradingView2.fetchTrades accountId c false) w s in
          network (log_of r) = [Call (getOKXTrades accountId)]
          /\ ManualTradingView2.trades (ManualTradingView2.data (state_of r))
             = fetched_trades (api w (getOKXTrades accountId))
                 (ManualTradingView2.trades (ManualTradingView2.data s)))
    /\ (OKXAccountView.orderHistory c' = [] ->
          let r := run (OKXAccountView.fetchOrderHistory accountId c') w s' in
          network (log_of r) = [Call (getOKXOrderHistory accountId)]
          /\ OKXAccountView.orderHistory (state_of r)
             = fetched_orders (api w (getOKXOrderHistory accountId))
                 (OKXAccountView.orderHistory s'))
    /\ (OKXAccountView.trades c' = [] ->
          let r := run (OKXAccountView.fetchTrades accountId c') w s' in
          network (log_of r) = [Call (getOKXTrades accountId)]
          /\ OKXAccountView.trades (state_of r)
             = fetched_trades (api w (getOKXTrades accountId))
                 (OKXAccountView.trades s'))
    (* the refresh empties the lists first *)
    /\ (let after := ManualTradingView2.data
                       (state_of (run (ManualTradingView2.handleRefresh accountId c)
                                    w s)) in
        (ManualTradingView2.orderHistory after = []
         \/ exists res, api w (getOKXOrderHistory accountId) = Val res
              /\ Res.success res = true
              /\ ManualTradingView2.orderHistory after = Res.orders res)
        /\ (ManualTradingView2.trades after = []
            \/ exists res, api w (getOKXTrades accountId) = Val res
                 /\ Res.success res = true
                 /\ ManualTradingView2.trades after = Res.trades res)).
Proof.
  intros accountId w c s c' s'.
  split; [apply view2_fetchAllData_no_history |].
  split; [apply account_fetchAllData_no_history |].
  split.
  { intros value Hh Ht.
    apply String.eqb_neq in Hh. apply String.eqb_neq in Ht.
    unfold run, ManualTradingView2.onValueChange, OKXAccountView.onValueChange.
    rewrite Hh, Ht. split; reflexivity. }
  split.
  { unfold run, ManualTradingView2.fetchOrderHistory.
    destruct (ManualTradingView2.orderHistory _); [congruence | reflexivity]. }
  split.
  { unfold run, ManualTradingView2.fetchTrades.
    destruct (ManualTradingView2.trades _); [congruence | reflexivity]. }
  split.
  { unfold run, OKXAccountView.fetchOrderHistory.
    destruct (OKXAccountView.orderHistory _); [congruence | reflexivity]. }
  split.
  { unfold run, OKXAccountView.fetchTrades.
    destruct (OKXAccountView.trades _); [congruence | reflexivity]. }
  split.
  { intros E r. unfold r, run, ManualTradingView2.fetchOrderHistory. rewrite E.
    unfold try_catch, bind, call, when, set, emit, ret, state_of, log_of, network,
      fetched_orders. simpl.
    destruct (api w (getOKXOrderHistory accountId)) as [res | e]; simpl;
      [destruct (Res.success res) |]; split; reflexivity. }
  split.
  { intros E r. unfold r, run, ManualTradingView2.fetchTrades. rewrite E.
    unfold try_catch, bind, call, when, set, emit, ret, state_of, log_of, network,
      fetched_trades. simpl.
    destruct (api w (getOKXTrades accountId)) as [res | e]; simpl;
      [destruct (Res.success res) |]; split; reflexivity. }
  split.
  { intros E r. unfold r, run, OKXAccountView.fetchOrderHistory. rewrite E.
    unfold try_catch, bind, call, when, set, emit, ret, state_of, log_of, network,
      fetched_orders. simpl.
    destruct (api w (getOKXOrderHistory accountId)) as [res | e]; simpl;
      [destruct (Res.success res) |]; split; reflexivity. }
  split.
  { intros E r. unfold r, run, OKXAccountView.fetchTrades. rewrite E.
    unfold try_catch, bind, call, when, set, emit, ret, state_of, log_of, network,
      fetched_trades. simpl.
    destruct (api w (getOKXTrades accountId)) as [res | e]; simpl;
      [destruct (Res.success res) |]; split; reflexivity. }
  destruct (view2_handleRefresh_lists accountId w c s) as [Ho Ht].
  cbv zeta. rewrite Ho, Ht. unfold fetched_orders, fetched_trades.
  split.
  - destruct (api w (getOKXOrderHistory accountId)) as [res | e]; [| now left].
    destruct (Res.success res) eqn:E; [| now left].
    right. exists res. rewrite E. auto.
  - destruct (api w (getOKXTrades accountId)) as [res | e]; [| now left].
    destruct (Res.success res) eqn:E; [| now left].
    right. exists res. rewrite E. auto.
Qed.

Lemma history_is_lazy_and_cached_witness :
  run (ManualTradingView2.onValueChange 1 view2_cached "positions") offline
      view2_cached = (Val tt, view2_cached, [])
  /\ run (ManualTradingView2.fetchOrderHistory 1 view2_cached false) offline
         view2_cached = (Val tt, view2_cached, [])
  /\ run (ManualTradingView2.fetchTrades 1 view2_cached false) offline
         view2_cached = (Val tt, view2_cached, [])
  /\ run (OKXAccountView.fetchOrderHistory 1 account_cached) offline
         account_cached = (Val tt, account_cached, [])
  /\ run (OKXAccountView.fetchTrades 1 account_cached) offline
         account_cached = (Val tt, account_cached, [])
  /\ network (log_of (run (ManualTradingView2.fetchOrderHistory 1
                             ManualTradingView2.initial false) empty_account
                          ManualTradingView2.initial))
     = [Call (getOKXOrderHistory 1)].
Proof.
  pose proof (history_is_lazy_and_cached 1 offline view2_cached view2_cached
                account_cached account_cached)
    as (_ & _ & Htab & Hh & Ht & Hh' & Ht' & _).
  pose proof (history_is_lazy_and_cached 1 empty_account ManualTradingView2.initial
                ManualTradingView2.initial OKXAccountView.initial
                OKXAccountView.initial)
    as (_ & _ & _ & _ & _ & _ & _ & He & _).
  split; [| split; [| split; [| split; [| split]]]].
  - apply Htab; discriminate.
  - apply Hh. discriminate.
  - apply Ht. discriminate.
  - apply Hh'. discriminate.
  - apply Ht'. discriminate.
  - apply He. reflexivity.
Defined.

(** C6, as stated, fails in two places.  A fetch that succeeded with an
    empty answer leaves nothing that the next request could find: the order
    history is asked for again, with no force flag.  And the refresh of the
    trading view asks for order history and trades on a view on which neither
    tab was ever chosen. *)
Lemma successful_empty_fetch_is_fetched_again :
  succeeded (api empty_account (getOKXOrderHistory 1)) = true
  /\ network (log_of (run (ManualTradingView2.fetchOrderHistory 1
                             ManualTradingView2.initial false) empty_account
                          ManualTradingView2.initial))
     = [Call (getOKXOrderHistory 1)]
  /\ history_requests
       (log_of (run (ManualTradingView2.fetchOrderHistory 1 visited_once false)
                  empty_account visited_once))
     = [Call (getOKXOrderHistory 1)]
  /\ history_requests
       (log_of (run (OKXAccountView.fetchOrderHistory 1 account_visited_once)
                  empty_account account_visited_once))
     = [Call (getOKXOrderHistory 1)]
  /\ history_requests
       (log_of (run (ManualTradingView2.handleRefresh 1 ManualTradingView2.initial)
                  empty_account ManualTradingView2.initial))
     = [Call (getOKXOrderHistory 1); Call (getOKXTrades 1)].
Proof. repeat split. Qed.

(** ** Placing the same order twice *)

(** C2, as the code has it.  An order request has no correlation id: what
    [placeOKXOrder] posts has the properties symbol, side, quantity,
    order_type and price and no other.  Every call makes one POST to the order
    endpoint, so two calls with the same request make two POSTs with the same
    body; no call is rejected as a duplicate by the client. *)
Theorem every_placement_posts :
  forall (req : PlaceOKXOrderRequest) (w : Remote) (s : unit),
    (forall k, In k (map fst (Api.backendRequest req)) -> In k request_fields)
    /\ log_of (run (Api.placeOKXOrder req) w s)
       = [Fetch {| h_method := POST; h_url := "/api/okx-account/order";
                   h_body := Api.backendRequest req |}]
    /\ log_of (run (place_twice req) w s)
       = [Fetch {| h_method := POST; h_url := "/api/okx-account/order";
                   h_body := Api.backendRequest req |};
          Fetch {| h_method := POST; h_url := "/api/okx-account/order";
                   h_body := Api.backendRequest req |}].
Proof.
  intros req w s. split; [| split].
  - unfold Api.backendRequest, request_fields.
    destruct (r_price req); simpl; intuition.
  - unfold run, Api.placeOKXOrder. now rewrite json_of_run.
  - unfold run, place_twice, Api.placeOKXOrder, bind, attempt.
    pose proof (json_of_log "/okx-account/order" POST (Api.backendRequest req) w s)
      as [Hl Hs].
    unfold log_of, state_of in *.
    destruct (Api.json_of "/okx-account/order" POST (Api.backendRequest req) w s)
      as [[o s1] l1] eqn:E.
    simpl in *. subst s1 l1. rewrite E. now destruct o.
Qed.

Lemma every_placement_posts_witness :
  In "quantity" request_fields.
Proof.
  apply (every_placement_posts one_contract offline tt). simpl. auto.
Defined.

(** C2, as stated, fails: the request of an order has no property for a
    correlation id, and placing the same order twice makes two requests to the
    order endpoint. *)
Lemma same_order_twice_posts_twice :
  map fst (Api.backendRequest one_contract)
  = ["symbol"; "side"; "quantity"; "order_type"]
  /\ length (order_requests (log_of (run (place_twice one_contract) offline tt))) = 2%nat.
Proof. split; reflexivity. Qed.

(** ** Symbol formats *)

Lemma plain_avoids (s : string) :
  Symbols.plain s = true ->
  avoids "-" s = true /\ avoids "/" s = true /\ avoids ":" s = true.
Proof.
  induction s as [| ch r IH]; simpl; [auto |].
  intros H. apply andb_true_iff in H. destruct H as [Hc Hr].
  apply negb_true_iff, orb_false_iff in Hc. destruct Hc as [Hc H3].
  apply orb_false_iff in Hc. destruct Hc as [H1 H2].
  destruct (IH Hr) as (I1 & I2 & I3).
  now rewrite H1, H2, H3, I1, I2, I3.
Qed.

Lemma split_whole (sep : ascii) (s : string) :
  avoids sep s = true -> Symbols.split sep s = [s].
Proof.
  induction s as [| ch r IH]; simpl; [reflexivity |].
  rewrite andb_true_iff, negb_true_iff. intros [Hc Hr].
  now rewrite Hc, (IH Hr).
Qed.

Lemma split_at (sep : ascii) (a r : string) :
  avoids sep a = true ->
  Symbols.split sep (a +:+ String sep r) = a :: Symbols.split sep r.
Proof.
  induction a as [| ch a IH]; simpl.
  - intros _. now rewrite Ascii.eqb_refl.
  - rewrite andb_true_iff, negb_true_iff. intros [Hc Ha].
    change (String ch a +:+ String sep r) with (String ch (a +:+ String sep r)).
    simpl. now rewrite Hc, (IH Ha).
Qed.

Lemma avoids_app (sep : ascii) (a b : string) :
  avoids sep a = true -> avoids sep b = true -> avoids sep (a +:+ b) = true.
Proof.
  induction a as [| ch a IH]; simpl; [trivial |].
  rewrite andb_true_iff. intros [Hc Ha] Hb.
  change (String ch a +:+ b) with (String ch (a +:+ b)). simpl.
  now rewrite Hc, IH.
Qed.

(** The two translations are inverse to each other on every symbol
    [BASE-QUOTE-SWAP] whose base and quote are currency codes. *)
Lemma translation_inverse (base quote : string) :
  Symbols.plain base = true -> Symbols.plain quote = true ->
  Symbols.toWire (base +:+ "-" +:+ quote +:+ "-SWAP")
  = Some (base +:+ "/" +:+ quote +:+ ":" +:+ quote)
  /\ Symbols.toCanonical (base +:+ "/" +:+ quote +:+ ":" +:+ quote)
     = Some (base +:+ "-" +:+ quote +:+ "-SWAP").
Proof.
  intros Hb Hq.
  destruct (plain_avoids _ Hb) as (B1 & B2 & B3).
  destruct (plain_avoids _ Hq) as (Q1 & Q2 & Q3).
  split.
  - unfold Symbols.toWire.
    change (base +:+ "-" +:+ quote +:+ "-SWAP")
      with (base +:+ String "-" (quote +:+ String "-" "SWAP")).
    rewrite (split_at "-" base _ B1), (split_at "-" quote _ Q1). reflexivity.
  - unfold Symbols.toCanonical.
    change (base +:+ "/" +:+ quote +:+ ":" +:+ quote)
      with (base +:+ String "/" (quote +:+ String ":" quote)).
    rewrite (split_at "/" base _ B2).
    rewrite (split_whole "/" (quote +:+ String ":" quote)).
    + rewrite (split_at ":" quote _ Q3), (split_whole ":" quote Q3). reflexivity.
    + apply avoids_app; [assumption |]. simpl. now rewrite Q2.
Qed.

(** Every supported instrument is a currency code followed by [-USDT-SWAP]. *)
Lemma supported_shape (s : string) :
  In s Symbols.supported ->
  exists base, Symbols.plain base = true /\ s = base +:+ "-" +:+ "USDT" +:+ "-SWAP".
Proof.
  assert (E : Symbols.supported
              = map (fun b => b +:+ "-" +:+ "USDT" +:+ "-SWAP") supported_bases)
    by reflexivity.
  assert (P : forallb Symbols.plain supported_bases = true) by reflexivity.
  rewrite E. intros H. apply in_map_iff in H. destruct H as (base & <- & Hin).
  exists base. split; [| reflexivity].
  rewrite forallb_forall in P. now apply P.
Qed.

(** C3. On the supported instrument set the translation between the canonical
    form and the wire form is a bijection: a supported symbol has a wire form,
    translating that back gives the symbol again, so translating to the wire
    form, back and to the wire form again gives the wire form. *)
Theorem symbol_translation_round_trip :
  forall s : string,
    In s Symbols.supported ->
    exists wire,
      Symbols.toWire s = Some wire
      /\ Symbols.toCanonical wire = Some s
      /\ (Symbols.toWire s ≫= Symbols.toCanonical) ≫= Symbols.toWire
         = Symbols.toWire s.
Proof.
  intros s H. destruct (supported_shape s H) as (base & Hb & ->).
  destruct (translation_inverse base "USDT" Hb eq_refl) as [Hw Hc].
  eexists. split; [exact Hw |]. split; [exact Hc |].
  rewrite Hw. simpl. rewrite Hc. simpl. exact Hw.
Qed.

Lemma symbol_translation_round_trip_witness :
  exists wire,
    Symbols.toWire "BTC-USDT-SWAP" = Some wire
    /\ Symbols.toCanonical wire = Some "BTC-USDT-SWAP"
    /\ (Symbols.toWire "BTC-USDT-SWAP" ≫= Symbols.toCanonical) ≫= Symbols.toWire
       = Symbols.toWire "BTC-USDT-SWAP".
Proof.
  apply (symbol_translation_round_trip "BTC-USDT-SWAP").
  unfold Symbols.supported. simpl. auto.
Defined.

(** ** Snapshot summary *)

(** C4. In every snapshot that was assembled with a summary, the used balance
    of the summary is its total balance minus its free balance; it is the
    used balances in the quote currency plus the positions value. *)
Theorem used_is_total_minus_free :
  forall (value : string -> Q -> Q)
         (b : Outcome (list Snapshot.Balance)) (p : Outcome (list Snapshot.Position))
         (o : Outcome (list OKXOrder)) (sm : Snapshot.Summary),
    Snapshot.summary (Snapshot.assemble value b p o) = Some sm ->
    (Snapshot.usedBalance sm == Snapshot.totalBalance sm - Snapshot.freeBalance sm)%Q
    /\ exists bs, b = Val bs
       /\ (Snapshot.usedBalance sm
           == Snapshot.Qsum (map (fun x => value (Snapshot.currency x)
                                              (Snapshot.used x)) bs)
              + Snapshot.positionsValue sm)%Q.
Proof.
  intros value b p o sm. unfold Snapshot.assemble. simpl.
  destruct b as [bs | e]; [| discriminate].
  destruct p as [ps | e]; [| discriminate].
  destruct o as [os | e]; [| discriminate].
  intros E. injection E as <-. unfold Snapshot.summarize. simpl.
  split; [reflexivity |]. exists bs. split; [reflexivity | ring].
Qed.

Lemma used_is_total_minus_free_witness :
  (Snapshot.usedBalance
     (Snapshot.summarize sample_value sample_balances sample_positions [])
   == Snapshot.totalBalance
        (Snapshot.summarize sample_value sample_balances sample_positions [])
      - Snapshot.freeBalance
          (Snapshot.summarize sample_value sample_balances sample_positions []))%Q.
Proof.
  apply (used_is_total_minus_free sample_value (Val sample_balances)
           (Val sample_positions) (Val [])).
  reflexivity.
Defined.

(** ** main.tsx: the connection *)

Import Main.

(** *** What each operation changes *)

(** Sending a message changes nothing but what was sent. *)
Lemma send_fields k c w :
  sockets (send k c w) = sockets w /\ __WS_SINGLETON__ (send k c w) = __WS_SINGLETON__ w
  /\ wsRef (send k c w) = wsRef w /\ closures (send k c w) = closures w
  /\ timers (send k c w) = timers w.
Proof.
  unfold send. destruct (wsOf w k) as [j |]; [| auto].
  destruct (stateOf w j) as [[] |]; auto.
Qed.

Lemma is_pending_send k c w t : is_pending (send k c w) t = is_pending w t.
Proof.
  unfold is_pending.
  now rewrite (proj2 (proj2 (proj2 (proj2 (send_fields k c w))))).
Qed.

Lemma wsOf_send k c w j : wsOf (send k c w) j = wsOf w j.
Proof.
  unfold wsOf.
  now rewrite (proj1 (proj2 (proj2 (proj2 (send_fields k c w))))).
Qed.

Lemma stateOf_send k c w j : stateOf (send k c w) j = stateOf w j.
Proof. unfold stateOf. now rewrite (proj1 (send_fields k c w)). Qed.

Lemma stateOf_setState i r w j :
  stateOf (setState i r w) j
  = if decide (i = j) then (fun _ => r) <$> stateOf w j else stateOf w j.
Proof.
  unfold stateOf, setState. simpl. rewrite list_lookup_alter.
  destruct (decide (i = j)) as [-> |]; [| reflexivity].
  now destruct (sockets w !! j).
Qed.

Lemma sockets_setState i r w j s :
  sockets (setState i r w) !! j = Some s ->
  exists s0, sockets w !! j = Some s0 /\ listener s = listener s0
             /\ readyState s = if decide (i = j) then r else readyState s0.
Proof.
  unfold setState. simpl. rewrite list_lookup_alter.
  destruct (decide (i = j)) as [-> |].
  - destruct (sockets w !! j) as [s0 |]; simpl; [| discriminate].
    intros [= <-]. eauto.
  - eauto.
Qed.

(** What was sent, after a message is sent. *)
Lemma sent_send k c w :
  sent (send k c w) = sent w
  \/ exists j, wsOf w k = Some j /\ stateOf w j = Some OPEN
               /\ sent (send k c w) = sent w ++ [(j, c)].
Proof.
  unfold send. destruct (wsOf w k) as [j |]; [| auto].
  destruct (stateOf w j) as [[] |] eqn:E; auto.
  right. exists j. auto.
Qed.

Lemma bootstraps_snoc w w' j c i :
  sent w' = sent w ++ [(j, c)] ->
  bootstraps w' i
  = bootstraps w i + (if (j =? i)%nat && is_bootstrap c then 1 else 0).
Proof.
  intros E. unfold bootstraps. rewrite E, List.filter_app, length_app. simpl.
  now destruct ((j =? i)%nat && is_bootstrap c).
Qed.

Lemma bootstraps_same w w' i : sent w' = sent w -> bootstraps w' i = bootstraps w i.
Proof. intros E. unfold bootstraps. now rewrite E. Qed.

(** *** The connection invariant is kept by every step *)

(** The invariant reads the sockets, the singleton, the closures and the
    timers only. *)
Lemma Conn_ext w w' :
  sockets w' = sockets w -> __WS_SINGLETON__ w' = __WS_SINGLETON__ w ->
  closures w' = closures w -> timers w' = timers w ->
  Conn w -> Conn w'.
Proof.
  destruct w, w'. simpl. intros -> -> -> -> H.
  destruct H. constructor; assumption.
Qed.

Lemma Conn_send k c w : Conn w -> Conn (send k c w).
Proof.
  destruct (send_fields k c w) as (E1 & E2 & _ & E4 & E5).
  now apply Conn_ext.
Qed.

(** A socket that is not closed may change to another state that is not
    closed. *)
Lemma Conn_setState w i r s :
  Conn w -> sockets w !! i = Some s -> readyState s <> CLOSED -> r <> CLOSED ->
  Conn (setState i r w).
Proof.
  intros [L Sg Q T Li O] E R0 R. constructor.
  - intros j s' Hj Hr. apply sockets_setState in Hj as (s0 & Hj & Hl & Hs).
    destruct (decide (i = j)) as [<- |].
    + apply (L _ _ E R0).
    + rewrite Hs in Hr. apply (L _ _ Hj Hr).
  - intros j Hs. destruct (Sg j Hs) as (s0 & H0 & R1 & W).
    destruct (decide (i = j)) as [<- |].
    + exists {| readyState := r; listener := listener s0 |}.
      unfold setState. simpl. rewrite list_lookup_alter_eq, H0. auto.
    + exists s0. unfold setState. simpl. rewrite list_lookup_alter_ne by done. auto.
  - exact Q.
  - exact T.
  - intros j s' Hj. apply sockets_setState in Hj as (s0 & Hj & Hl & Hs).
    rewrite Hl. apply (Li _ _ Hj).
  - exact O.
Qed.

Lemma is_pending_snoc w w' x t :
  timers w' = timers w ++ [x] -> t_state x = Pending ->
  is_pending w' t = is_pending w t || (t =? length (timers w))%nat.
Proof.
  intros E P. unfold is_pending. rewrite E, lookup_app.
  destruct (timers w !! t) as [y |] eqn:H.
  - apply lookup_lt_Some in H.
    replace (t =? length (timers w))%nat with false
      by (symmetry; apply Nat.eqb_neq; lia).
    now rewrite orb_false_r.
  - apply lookup_ge_None in H. simpl.
    destruct (t - length (timers w)) as [| m] eqn:D; simpl.
    + rewrite P. symmetry. apply Nat.eqb_eq. lia.
    + symmetry. apply Nat.eqb_neq. lia.
Qed.

Lemma is_pending_not_yet w t : is_pending w t = true -> t < length (timers w).
Proof.
  unfold is_pending. destruct (timers w !! t) eqn:H; [| discriminate].
  intros _. now apply lookup_lt_Some in H.
Qed.

Lemma is_pending_setTimer w t st t' :
  is_pending (setTimer t st w) t'
  = if decide (t = t')
    then match timers w !! t' with
         | Some _ => match st with Pending => true | _ => false end
         | None => false
         end
    else is_pending w t'.
Proof.
  unfold is_pending, setTimer. simpl. rewrite list_lookup_alter.
  destruct (decide (t = t')) as [-> |]; [| reflexivity].
  now destruct (timers w !! t').
Qed.

Lemma closed_or_not (r : ReadyState) : r = CLOSED \/ r <> CLOSED.
Proof. destruct r; auto; right; discriminate. Qed.

Lemma setTimeout_fields k ms w :
  sockets (setTimeout k ms w) = sockets w
  /\ __WS_SINGLETON__ (setTimeout k ms w) = __WS_SINGLETON__ w
  /\ length (closures (setTimeout k ms w)) = length (closures w)
  /\ (forall t, is_pending (setTimeout k ms w) t
                = is_pending w t || (t =? length (timers w))%nat)
  /\ (forall t x, timers (setTimeout k ms w) !! t = Some x ->
                  timers w !! t = Some x \/ t_closure x = k).
Proof.
  unfold setTimeout. simpl. repeat split.
  - apply length_alter.
  - intros t.
    now apply (is_pending_snoc w _ {| t_closure := k; t_delay := ms;
                                      t_state := Pending |}).
  - intros t x Hx. apply lookup_snoc_Some in Hx.
    destruct Hx as [[_ Hx] | [_ <-]]; auto.
Qed.

Lemma handleClose_fields k code w :
  sockets (handleClose k code w) = sockets w
  /\ __WS_SINGLETON__ (handleClose k code w) = None
  /\ length (closures (handleClose k code w)) = length (closures w)
  /\ (forall t, is_pending (handleClose k code w) t
                = is_pending w t || (abnormal code && (t =? length (timers w))%nat))
  /\ (forall t x, timers (handleClose k code w) !! t = Some x ->
                  timers w !! t = Some x \/ t_closure x = k).
Proof.
  unfold handleClose. destruct (abnormal code).
  - match goal with |- context [setTimeout k 3000 ?w1] =>
      destruct (setTimeout_fields k 3000 w1) as (E1 & E2 & E3 & E4 & E5)
    end.
    rewrite E1, E2, E3. repeat split; [exact E4 | exact E5].
  - simpl. repeat split; [| auto].
    intros t. unfold is_pending. simpl. now rewrite orb_false_r.
Qed.

(** The close event of a socket that is not closed: it was the singleton, so
    afterwards no socket is open and the only timer that can be pending is
    the one [handleClose] has just set. *)
Lemma Conn_close w i s code :
  Conn w -> sockets w !! i = Some s -> readyState s <> CLOSED ->
  Conn (handleClose (listener s) code (setState i CLOSED w)).
Proof.
  intros C E R0. pose proof C as [L Sg Q T Li O].
  pose proof (L _ _ E R0) as Hsing.
  destruct (handleClose_fields (listener s) code (setState i CLOSED w))
    as (E1 & E2 & E3 & E4 & E5).
  constructor.
  - intros j s' Hj Hr. rewrite E1 in Hj.
    apply sockets_setState in Hj as (s0 & Hj & Hl & Hs).
    destruct (decide (i = j)) as [<- |]; [congruence |].
    rewrite Hs in Hr. pose proof (L _ _ Hj Hr). congruence.
  - rewrite E2. discriminate.
  - rewrite E2. discriminate.
  - intros t t'. rewrite !E4.
    change (is_pending (setState i CLOSED w)) with (is_pending w).
    rewrite !(Q _ _ Hsing). simpl. rewrite !andb_true_iff, !Nat.eqb_eq.
    intros [_ ->] [_ ->]. reflexivity.
  - intros j s' Hj. rewrite E1 in Hj. rewrite E3.
    apply sockets_setState in Hj as (s0 & Hj & Hl & Hs).
    rewrite Hl. eauto.
  - intros t x Hx. rewrite E3. destruct (E5 _ _ Hx) as [H | ->]; [eauto |].
    apply (Li _ _ E).
Qed.

Lemma wsOf_connect k w :
  k < length (closures w) ->
  wsOf (connectWebSocket k true w) k = Some (length (sockets w)).
Proof.
  intros Hk. unfold wsOf, connectWebSocket. simpl.
  rewrite list_lookup_alter_eq.
  destruct (lookup_lt_is_Some_2 _ _ Hk) as [c ->]. reflexivity.
Qed.

(** A pending timer that fires: there was no singleton, so every socket was
    closed, and the timer was the only one pending. *)
Lemma Conn_timer w t x ok :
  Conn w -> timers w !! t = Some x -> t_state x = Pending ->
  Conn (connectWebSocket (t_closure x) ok (setTimer t Fired w)).
Proof.
  intros C E P. pose proof C as [L Sg Q T Li O].
  assert (Hp : is_pending w t = true) by (unfold is_pending; now rewrite E, P).
  assert (Hnone : __WS_SINGLETON__ w = None).
  { destruct (__WS_SINGLETON__ w) as [i |] eqn:H; [| reflexivity].
    rewrite (Q i t eq_refl) in Hp. discriminate. }
  assert (Hclosed : forall j s, sockets w !! j = Some s -> readyState s = CLOSED).
  { intros j s Hj. destruct (closed_or_not (readyState s)) as [| N]; [done |].
    pose proof (L _ _ Hj N). congruence. }
  assert (Hfired : forall t', is_pending (setTimer t Fired w) t' = false).
  { intros t'. rewrite is_pending_setTimer.
    destruct (decide (t = t')) as [<- |]; [now rewrite E |].
    destruct (is_pending w t') eqn:H'; [| reflexivity].
    now pose proof (T _ _ Hp H'). }
  pose proof (O _ _ E) as Hk.
  destruct ok.
  - constructor.
    + intros j s Hj Hr. unfold connectWebSocket in *. simpl in *.
      apply lookup_snoc_Some in Hj. destruct Hj as [[_ Hj] | [-> _]].
      * now rewrite (Hclosed _ _ Hj) in Hr.
      * reflexivity.
    + intros j Hj. unfold connectWebSocket in Hj. simpl in Hj. injection Hj as <-.
      exists {| readyState := CONNECTING; listener := t_closure x |}.
      split; [| split].
      * unfold connectWebSocket. simpl.
        apply lookup_snoc_Some. right. auto.
      * discriminate.
      * simpl. now apply (wsOf_connect (t_closure x) (setTimer t Fired w)).
    + intros j t' _. apply Hfired.
    + intros t1 t2 H1. unfold connectWebSocket in H1.
      change (is_pending (setTimer t Fired w) t1 = true) in H1.
      now rewrite Hfired in H1.
    + intros j s Hj. unfold connectWebSocket in *. simpl in *.
      rewrite length_alter. apply lookup_snoc_Some in Hj.
      destruct Hj as [[_ Hj] | [_ <-]]; [eauto | exact Hk].
    + intros t' y Hy. unfold connectWebSocket in *. simpl in *.
      rewrite length_alter. rewrite list_lookup_alter in Hy.
      destruct (decide (t = t')) as [<- |]; [| eauto].
      rewrite E in Hy. simpl in Hy. injection Hy as <-. exact Hk.
  - unfold connectWebSocket.
    destruct (setTimeout_fields (t_closure x) 5000 (setTimer t Fired w))
      as (E1 & E2 & E3 & E4 & E5).
    constructor.
    + intros j s Hj Hr. rewrite E1 in Hj. simpl in Hj.
      now rewrite (Hclosed _ _ Hj) in Hr.
    + rewrite E2. simpl. rewrite Hnone. discriminate.
    + rewrite E2. simpl. rewrite Hnone. discriminate.
    + intros t1 t2. rewrite !E4, !Hfired. simpl. rewrite !Nat.eqb_eq. congruence.
    + intros j s Hj. rewrite E1 in Hj. rewrite E3. simpl in *. eauto.
    + intros t' y Hy. rewrite E3. simpl.
      destruct (E5 _ _ Hy) as [H | ->]; [| exact Hk].
      simpl in H. rewrite list_lookup_alter in H.
      destruct (decide (t = t')) as [<- |]; [| eauto].
      rewrite E in H. simpl in H. injection H as <-. exact Hk.
Qed.

Lemma Conn_step l w : Conn w -> Conn (step l w).
Proof.
  intros C. destruct l as [i | i m | i | i code | t ok]; simpl.
  - destruct (sockets w !! i) as [s |] eqn:E; [| exact C].
    destruct (readyState s) eqn:R; try exact C.
    apply Conn_send. apply (Conn_setState w i OPEN s C E); [congruence | discriminate].
  - destruct (sockets w !! i) as [s |] eqn:E; [| exact C].
    destruct (readyState s) eqn:R; try exact C.
    unfold handleMessage. destruct m; try exact C; now apply Conn_send.
  - unfold stateOf. destruct (sockets w !! i) as [s |] eqn:E; simpl; [| exact C].
    destruct (readyState s) eqn:R; try exact C;
      apply (Conn_setState w i CLOSING s C E); congruence.
  - destruct (sockets w !! i) as [s |] eqn:E; [| exact C].
    destruct (readyState s) eqn:R; try exact C;
      apply (Conn_close w i s code C E); congruence.
  - destruct (timers w !! t) as [x |] eqn:E; [| exact C].
    destruct (t_state x) eqn:P; try exact C.
    now apply Conn_timer.
Qed.

Ltac concrete :=
  first
    [ solve [intros ? [= <-]; eexists; split;
             [reflexivity | split; [discriminate | reflexivity]]]
    | solve [intros ? [=]]
    | solve [intros ? ? [=]]
    | solve [intros [| [| ?]] ? [=]; subst; simpl; intros; first [done | lia]]
    | solve [intros ? [| [| [| ?]]] ?; reflexivity]
    | solve [intros [| [| [| ?]]] [| [| [| ?]]]; simpl; intros; done] ].

(** The invariant holds when the page is mounted, whether the component is
    initialized once or twice and whether the constructions succeed. *)
Lemma Conn_mount twice ok ok' : Conn (mount twice ok ok').
Proof.
  destruct twice, ok, ok'; vm_compute; constructor; concrete.
Qed.

(** *** At most one bootstrap per socket *)

Lemma Boot_same w w' :
  sent w' = sent w ->
  (forall i, stateOf w' i = Some CONNECTING \/ stateOf w' i = None ->
             stateOf w i = Some CONNECTING \/ stateOf w i = None) ->
  Boot w -> Boot w'.
Proof.
  intros E H B i. destruct (B i) as [B1 B2].
  rewrite (bootstraps_same w w' i E). split; [exact B1 |].
  intros H'. apply B2, H, H'.
Qed.

Lemma Boot_get_snapshot k w : Boot w -> Boot (send k get_snapshot w).
Proof.
  intros B i. destruct (B i) as [B1 B2]. rewrite stateOf_send.
  destruct (sent_send k get_snapshot w) as [E | (j & _ & _ & E)].
  - now rewrite (bootstraps_same _ _ i E).
  - rewrite (bootstraps_snoc _ _ _ _ i E). simpl. rewrite andb_false_r.
    rewrite Nat.add_0_r. auto.
Qed.

Lemma stateOf_handleClose k code w j : stateOf (handleClose k code w) j = stateOf w j.
Proof.
  unfold stateOf. now rewrite (proj1 (handleClose_fields k code w)).
Qed.

Lemma sent_handleClose k code w : sent (handleClose k code w) = sent w.
Proof. unfold handleClose. now destruct (abnormal code). Qed.

Lemma sent_connect k ok w : sent (connectWebSocket k ok w) = sent w.
Proof. now destruct ok. Qed.

Lemma stateOf_connect k ok w j :
  stateOf (connectWebSocket k ok w) j = Some CONNECTING \/
  stateOf (connectWebSocket k ok w) j = None ->
  stateOf w j = Some CONNECTING \/ stateOf w j = None.
Proof.
  destruct ok; [| trivial]. unfold stateOf, connectWebSocket. simpl.
  rewrite lookup_app. destruct (sockets w !! j); simpl; auto.
Qed.

Lemma Boot_step l w : Conn w -> Boot w -> Boot (step l w).
Proof.
  intros C B. destruct l as [i | i m | i | i code | t ok]; simpl.
  - destruct (sockets w !! i) as [s |] eqn:E; [| exact B].
    destruct (readyState s) eqn:R; try exact B.
    assert (N : readyState s <> CLOSED) by congruence.
    pose proof (conn_live w C _ _ E N) as Hs.
    destruct (conn_single w C _ Hs) as (s0 & E0 & _ & W).
    rewrite E in E0. injection E0 as <-.
    assert (Si : stateOf w i = Some CONNECTING)
      by (unfold stateOf; rewrite E; simpl; now rewrite R).
    unfold handleOpen. intros j. rewrite stateOf_send, stateOf_setState.
    destruct (sent_send (listener s) bootstrapMsg (setState i OPEN w))
      as [E1 | (j' & W' & _ & E1)].
    + rewrite (bootstraps_same _ _ j E1).
      change (bootstraps (setState i OPEN w) j) with (bootstraps w j).
      destruct (B j) as [B1 B2]. split; [exact B1 |].
      destruct (decide (i = j)) as [<- |]; [| exact B2].
      rewrite Si. simpl. intros [[=] | [=]].
    + change (wsOf (setState i OPEN w)) with (wsOf w) in W'.
      rewrite W in W'. injection W' as <-.
      rewrite (bootstraps_snoc _ _ _ _ j E1).
      change (bootstraps (setState i OPEN w) j) with (bootstraps w j).
      destruct (B j) as [B1 B2]. simpl. rewrite andb_true_r.
      destruct (decide (i = j)) as [<- |].
      * rewrite Nat.eqb_refl, Si. simpl. rewrite (B2 (or_introl Si)).
        split; [lia | intros [[=] | [=]]].
      * replace (i =? j)%nat with false by (symmetry; now apply Nat.eqb_neq).
        rewrite Nat.add_0_r. auto.
  - destruct (sockets w !! i) as [s |] eqn:E; [| exact B].
    destruct (readyState s) eqn:R; try exact B.
    unfold handleMessage. destruct m; try exact B; now apply Boot_get_snapshot.
  - destruct (stateOf w i) as [r |] eqn:E; [| exact B].
    destruct r; try exact B;
      (apply (Boot_same w); [reflexivity | | exact B];
       intros j; rewrite stateOf_setState;
       destruct (decide (i = j)) as [<- |]; [| trivial];
       rewrite E; simpl; intros [[=] | [=]]).
  - destruct (sockets w !! i) as [s |] eqn:E; [| exact B].
    destruct (readyState s) eqn:R; try exact B;
      (apply (Boot_same w); [now rewrite sent_handleClose | | exact B];
       intros j; rewrite stateOf_handleClose, stateOf_setState;
       destruct (decide (i = j)) as [<- |]; [| trivial];
       unfold stateOf; rewrite E; simpl; intros [[=] | [=]]).
  - destruct (timers w !! t) as [x |] eqn:E; [| exact B].
    destruct (t_state x) eqn:P; try exact B.
    apply (Boot_same w); [now rewrite sent_connect | | exact B].
    intros j H. apply stateOf_connect in H. exact H.
Qed.

Lemma Boot_mount twice ok ok' : Boot (mount twice ok ok').
Proof.
  intros i. assert (E : sent (mount twice ok ok') = [])
    by (destruct twice, ok, ok'; reflexivity).
  unfold bootstraps. rewrite E. simpl. split; [lia | reflexivity].
Qed.

(** Both invariants hold in every state of the lifecycle. *)
Lemma reachable_inv w : reachable w -> Conn w /\ Boot w.
Proof.
  induction 1 as [twice ok ok' | w l Hr [C B]].
  - split; [apply Conn_mount | apply Boot_mount].
  - split; [now apply Conn_step | now apply Boot_step].
Qed.

(** *** Consequences *)

Lemma live_singleton w :
  Conn w -> forall i, In i (live w) -> __WS_SINGLETON__ w = Some i.
Proof.
  intros C i Hi. unfold live in Hi. apply List.filter_In in Hi as [_ Hi].
  unfold stateOf in Hi. destruct (sockets w !! i) as [s |] eqn:E; [| discriminate].
  simpl in Hi. apply (conn_live w C i s E).
  intros R. now rewrite R in Hi.
Qed.

Lemma live_at_most_one w : Conn w -> length (live w) <= 1.
Proof.
  intros C. destruct (__WS_SINGLETON__ w) as [i |] eqn:S.
  - change 1 with (length [i]). apply List.NoDup_incl_length.
    + unfold live. apply List.NoDup_filter, List.seq_NoDup.
    + intros j Hj. pose proof (live_singleton w C j Hj) as H.
      rewrite S in H. injection H as ->. now left.
  - destruct (live w) as [| j r] eqn:L; [simpl; lia |].
    pose proof (live_singleton w C j) as H. rewrite L, S in H.
    discriminate H. now left.
Qed.

Lemma pending_snoc (w w' : World) :
  (forall t, is_pending w' t = is_pending w t || (t =? length (timers w))%nat) ->
  length (timers w') = S (length (timers w)) ->
  pending w' = pending w ++ [length (timers w)].
Proof.
  intros H L. unfold pending. rewrite L, seq_S, List.filter_app. simpl.
  rewrite H, Nat.eqb_refl, orb_true_r. f_equal.
  apply List.filter_ext_in. intros t Ht. apply in_seq in Ht.
  rewrite H. replace (t =? length (timers w))%nat with false
    by (symmetry; apply Nat.eqb_neq; lia).
  now rewrite orb_false_r.
Qed.

Lemma pending_setTimeout k ms w :
  length (pending (setTimeout k ms w)) = S (length (pending w)).
Proof.
  rewrite (pending_snoc w (setTimeout k ms w)).
  - rewrite length_app. simpl. lia.
  - apply setTimeout_fields.
  - unfold setTimeout. simpl. rewrite length_app. simpl. lia.
Qed.

Lemma abnormal_spec (code : Z) :
  abnormal code = true <-> code <> 1000%Z /\ code <> 1001%Z.
Proof.
  unfold abnormal. rewrite andb_true_iff, !negb_true_iff, !Z.eqb_neq. tauto.
Qed.

Lemma constructs_only_when_created l w :
  Conn w -> length (sockets w) < length (sockets (step l w)) ->
  __WS_SINGLETON__ w = None /\ created w = true.
Proof.
  intros C. destruct l as [i | i m | i | i code | t ok]; simpl.
  - destruct (sockets w !! i) as [s |]; [| lia].
    destruct (readyState s); try lia.
    unfold handleOpen. rewrite (proj1 (send_fields _ _ _)). simpl.
    rewrite length_alter. lia.
  - destruct (sockets w !! i) as [s |]; [| lia].
    destruct (readyState s); try lia.
    unfold handleMessage. destruct m; try lia;
      rewrite (proj1 (send_fields _ _ _)); lia.
  - destruct (stateOf w i) as [[] |]; simpl; rewrite ?length_alter; lia.
  - destruct (sockets w !! i) as [s |]; [| lia].
    destruct (readyState s); try lia;
      rewrite (proj1 (handleClose_fields _ _ _)); simpl; rewrite length_alter; lia.
  - destruct (timers w !! t) as [x |] eqn:E; [| lia].
    destruct (t_state x) eqn:P; try lia. intros _.
    assert (Hp : is_pending w t = true) by (unfold is_pending; now rewrite E, P).
    assert (Hnone : __WS_SINGLETON__ w = None).
    { destruct (__WS_SINGLETON__ w) as [i |] eqn:H; [| reflexivity].
      rewrite (conn_quiet w C i t H) in Hp. discriminate. }
    split; [exact Hnone |]. unfold created. now rewrite Hnone.
Qed.

(** C7. A close event schedules a reconnection exactly when its code is
    neither 1000 nor 1001: the singleton is reset, and a timer that calls
    [connectWebSocket] after three seconds is added for every other code and
    none for these two.  In every state of the lifecycle, a socket that opens
    is sent the bootstrap command, a reconnection timer that fires constructs
    a socket that is connecting, and a socket has been sent at most one
    bootstrap and none before it opened; nothing but the opening of a socket
    sends a bootstrap. *)
Theorem reconnect_unless_normal_close :
  (forall (w : World) (i : nat) (s : Socket) (code : Z),
      sockets w !! i = Some s -> readyState s <> CLOSED ->
      __WS_SINGLETON__ (step (Closes i code) w) = None
      /\ (code <> 1000%Z /\ code <> 1001%Z ->
            timers (step (Closes i code) w)
            = timers w ++ [{| t_closure := listener s; t_delay := 3000;
                              t_state := Pending |}])
      /\ (code = 1000%Z \/ code = 1001%Z ->
            timers (step (Closes i code) w) = timers w)
      /\ (length (pending (step (Closes i code) w)) = S (length (pending w))
          <-> code <> 1000%Z /\ code <> 1001%Z))
  /\ (forall w : World, reachable w ->
        (forall i, stateOf w i = Some CONNECTING ->
                   sent (step (Opens i) w) = sent w ++ [(i, bootstrapMsg)])
        /\ (forall t x, timers w !! t = Some x -> t_state x = Pending ->
              stateOf (step (TimerFires t true) w) (length (sockets w))
              = Some CONNECTING)
        /\ (forall i, bootstraps w i <= 1
                      /\ (stateOf w i = Some CONNECTING -> bootstraps w i = 0)))
  /\ (forall (w : World) (l : Label) (i : nat),
        (forall j, l <> Opens j) -> bootstraps (step l w) i = bootstraps w i).
Proof.
  split; [| split].
  - intros w i s code E R. simpl. rewrite E.
    assert (X : step (Closes i code) w
                = handleClose (listener s) code (setState i CLOSED w)).
    { simpl. rewrite E. now destruct (readyState s). }
    simpl in X. rewrite E in X. rewrite X. clear X.
    split; [apply handleClose_fields |]. unfold handleClose. split; [| split].
    + intros H. apply abnormal_spec in H. now rewrite H.
    + intros H. destruct (abnormal code) eqn:A; [| reflexivity].
      apply abnormal_spec in A. lia.
    + rewrite <- abnormal_spec. destruct (abnormal code).
      * split; [reflexivity | intros _].
        rewrite pending_setTimeout. reflexivity.
      * split; [| discriminate]. intros H. exfalso.
        change (length (pending w) = S (length (pending w))) in H. lia.
  - intros w Hr. destruct (reachable_inv w Hr) as [C B]. split; [| split].
    + intros i Si. unfold stateOf in Si.
      destruct (sockets w !! i) as [s |] eqn:E; [| discriminate].
      simpl in Si. injection Si as R.
      assert (N : readyState s <> CLOSED) by congruence.
      pose proof (conn_live w C _ _ E N) as Hs.
      destruct (conn_single w C _ Hs) as (s0 & E0 & _ & W).
      rewrite E in E0. injection E0 as <-.
      simpl. rewrite E, R. unfold handleOpen, send.
      change (wsOf (setState i OPEN w)) with (wsOf w). rewrite W.
      rewrite stateOf_setState. destruct (decide (i = i)); [| done].
      unfold stateOf. now rewrite E.
    + intros t x E P. simpl. rewrite E, P. unfold stateOf, connectWebSocket. simpl.
      now rewrite lookup_app_r, Nat.sub_diag by lia.
    + intros i. destruct (B i) as [B1 B2]. auto.
  - intros w l i Hl. destruct l as [j | j m | j | j code | t ok]; simpl.
    + now elim (Hl j).
    + destruct (sockets w !! j) as [s |]; [| reflexivity].
      destruct (readyState s); try reflexivity.
      unfold handleMessage. destruct m; try reflexivity.
      all: destruct (sent_send (listener s) get_snapshot w) as [E1 | (j' & _ & _ & E1)];
        [now rewrite (bootstraps_same _ _ i E1)
        | rewrite (bootstraps_snoc _ _ _ _ i E1); simpl;
          rewrite andb_false_r; lia].
    + destruct (stateOf w j) as [[] |]; reflexivity.
    + destruct (sockets w !! j) as [s |]; [| reflexivity].
      destruct (readyState s); try reflexivity;
        apply bootstraps_same; now rewrite sent_handleClose.
    + destruct (timers w !! t) as [x |]; [| reflexivity].
      destruct (t_state x); try reflexivity.
      apply bootstraps_same. now rewrite sent_connect.
Qed.

(** C8. The page has at most one live WebSocket.  The effect constructs a
    socket only when [created] holds, that is when the singleton is null,
    closing or closed, and otherwise takes the singleton over; a second
    initialization right after the first leaves the sockets, the singleton,
    the reference and the timers as the first made them.  In every state of
    the lifecycle at most one socket is not closed, and it is the singleton; a
    step constructs a socket only when the singleton is null; a close event
    resets the singleton and leaves no socket that is not closed. *)
Theorem at_most_one_live_connection :
  (forall (w : World) (ok : bool),
      (length (sockets w) < length (sockets (effect ok w)) -> created w = true)
      /\ (created w = false ->
            sockets (effect ok w) = sockets w
            /\ __WS_SINGLETON__ (effect ok w) = __WS_SINGLETON__ w
            /\ wsRef (effect ok w) = __WS_SINGLETON__ w))
  /\ (forall ok' : bool,
        sockets (mount true true ok') = sockets (mount false true ok')
        /\ __WS_SINGLETON__ (mount true true ok')
           = __WS_SINGLETON__ (mount false true ok')
        /\ wsRef (mount true true ok') = wsRef (mount false true ok')
        /\ timers (mount true true ok') = timers (mount false true ok'))
  /\ (forall w : World, reachable w ->
        length (live w) <= 1
        /\ (forall i, In i (live w) -> __WS_SINGLETON__ w = Some i)
        /\ (forall l, length (sockets w) < length (sockets (step l w)) ->
                      __WS_SINGLETON__ w = None /\ created w = true)
        /\ (forall i s code,
              sockets w !! i = Some s -> readyState s <> CLOSED ->
              __WS_SINGLETON__ (step (Closes i code) w) = None
              /\ live (step (Closes i code) w) = [])).
Proof.
  split; [| split].
  - intros w ok. unfold effect. destruct (created w); simpl.
    + split; [reflexivity | discriminate].
    + split; [lia | auto].
  - intros ok'. repeat split.
  - intros w Hr. destruct (reachable_inv w Hr) as [C B].
    split; [now apply live_at_most_one |].
    split; [now apply live_singleton |].
    split; [intros l; now apply constructs_only_when_created |].
    intros i s code E R.
    assert (S : __WS_SINGLETON__ (step (Closes i code) w) = None).
    { simpl. rewrite E. destruct (readyState s); try congruence;
        apply handleClose_fields. }
    split; [exact S |].
    pose proof (Conn_step (Closes i code) w C) as C'.
    destruct (live (step (Closes i code) w)) as [| j r] eqn:L; [reflexivity |].
    pose proof (live_singleton _ C' j) as H. rewrite L, S in H.
    discriminate H. now left.
Qed.

Lemma at_most_one_live_connection_witness :
  length (live (step (Opens 1)
                  (step (TimerFires 0 true)
                     (step (Closes 0 1006)
                        (step (Opens 0) (mount true true true)))))) <= 1.
Proof.
  apply at_most_one_live_connection.
  repeat apply reach_step. apply reach_mount.
Defined.

Lemma reconnect_unless_normal_close_witness :
  timers (step (Closes 0 1006) (mount false true true))
  = [{| t_closure := 0; t_delay := 3000; t_state := Pending |}]
  /\ timers (step (Closes 0 1000) (mount false true true)) = []
  /\ sent (step (Opens 0) (mount false true true)) = [(0, bootstrapMsg)].
Proof.
  split; [| split].
  - apply (proj1 reconnect_unless_normal_close (mount false true true) 0
             {| readyState := CONNECTING; listener := 0 |} 1006%Z);
      [reflexivity | discriminate | split; discriminate].
  - apply (proj1 reconnect_unless_normal_close (mount false true true) 0
             {| readyState := CONNECTING; listener := 0 |} 1000%Z);
      [reflexivity | discriminate | left; reflexivity].
  - apply (proj1 (proj2 reconnect_unless_normal_close) (mount false true true)
             (reach_mount false true true)).
    reflexivity.
Defined.

(** The bound comes from the lifecycle, in which the effect runs only when
    the page is mounted.  The guard of the effect alone does not give it: a
    run of the effect while the singleton is closing constructs a second
    socket next to the one that is not closed yet. *)
Remark run_while_closing_constructs_again :
  created (step (StartsClosing 0) (step (Opens 0) (mount false true true))) = true
  /\ live (effect true
            (step (StartsClosing 0) (step (Opens 0) (mount false true true))))
     = [0; 1].
Proof. split; reflexivity. Qed.

(* ===================================================================== *)
(** * Further properties of the sources *)
(* ===================================================================== *)

(* ===================================================================== *)
(** ** lib/api.ts: what [apiRequest] throws and returns *)
(* ===================================================================== *)

(** [apiRequest] on a response that is not ok. *)
Lemma apiRequest_not_ok {S} endpoint method body (w : Remote) (s : S) response :
  http w (api_request endpoint method body) = Val response ->
  h_ok response = false ->
  Api.apiRequest endpoint method body w s
  = (Exn {| message := "HTTP error! status: " +:+ Api.Z_str (h_status response) |},
     s, [Fetch (api_request endpoint method body)]).
Proof.
  intros H Hok.
  unfold Api.apiRequest, bind, fetch, Api.API_BASE_URL.
  unfold api_request in *. rewrite H, Hok. simpl.
  unfold try_catch, bind, settle, throw.
  destruct (h_json response); reflexivity.
Qed.

(** X1. A response that is not ok: the caller gets the status message.  The
    [detail] or [message] of the body is read, and thrown inside the [try]
    whose [catch] replaces it, so it never reaches the caller. *)
Theorem apiRequest_hides_server_detail :
  forall (S : Type) (endpoint : string) (method : HttpMethod)
         (body : list (string * json)) (w : Remote) (s : S)
         (response : HttpResponse),
    http w (api_request endpoint method body) = Val response ->
    h_ok response = false ->
    run (Api.apiRequest endpoint method body) w s
    = (Exn {| message := "HTTP error! status: " +:+ Api.Z_str (h_status response) |},
       s, [Fetch (api_request endpoint method body)]).
Proof. intros. now apply apiRequest_not_ok. Qed.

Lemma apiRequest_hides_server_detail_witness :
  run (Api.apiRequest "/okx-account/order" POST []) (responding bad_request) tt
  = (Exn {| message := "HTTP error! status: 400" |}, tt,
     [Fetch (api_request "/okx-account/order" POST [])]).
Proof.
  apply (apiRequest_hides_server_detail unit "/okx-account/order" POST []
           (responding bad_request) tt bad_request); reflexivity.
Defined.

(** X2. [apiRequest] returns a response exactly when the request was answered,
    the response is ok and its content type names JSON; it then returns that
    response.  One request is made in every case, and the state is not
    touched. *)
Theorem apiRequest_returns_ok_json_only :
  forall (S : Type) (endpoint : string) (method : HttpMethod)
         (body : list (string * json)) (w : Remote) (s : S),
    let r := run (Api.apiRequest endpoint method body) w s in
    (forall response,
        outcome_of r = Val response
        <-> http w (api_request endpoint method body) = Val response
            /\ h_ok response = true
            /\ exists contentType,
                 h_content_type response = Some contentType
                 /\ Api.includes "application/json" contentType = true)
    /\ (forall e, http w (api_request endpoint method body) = Exn e ->
                  outcome_of r = Exn e)
    /\ state_of r = s
    /\ log_of r = [Fetch (api_request endpoint method body)].
Proof.
  intros S endpoint method body w s r. unfold r, run, Api.apiRequest, api_request.
  unfold bind, fetch, outcome_of, state_of, log_of, Api.API_BASE_URL.
  destruct (http w _) as [resp | e] eqn:H; simpl.
  2:{ split; [| split; [| split]]; try reflexivity.
      - intros response. split; [discriminate | intros [? _]; discriminate].
      - now intros e0 [= ->]. }
  destruct (h_ok resp) eqn:Hok; simpl.
  - destruct (h_content_type resp) as [ct |] eqn:Hct; simpl.
    + destruct (Api.includes "application/json" ct) eqn:Hi; simpl.
      * split; [| split; [| split]]; try reflexivity; [| discriminate].
        intros response. split.
        -- intros [= <-]. split; [reflexivity |]. split; [exact Hok |].
           exists ct. now split.
        -- now intros [[= ->] _].
      * split; [| split; [| split]]; try reflexivity; [| discriminate].
        intros response. split; [discriminate |].
        intros [[= <-] [_ (ct' & E & I)]]. congruence.
    + split; [| split; [| split]]; try reflexivity; [| discriminate].
      intros response. split; [discriminate |].
      intros [[= <-] [_ (ct' & E & I)]]. congruence.
  - unfold try_catch, bind, settle, throw.
    destruct (h_json resp); simpl.
    + split; [| split; [| split]]; try reflexivity; [| discriminate].
      intros response. split; [discriminate |]. intros [[= <-] [K _]]. congruence.
    + split; [| split; [| split]]; try reflexivity; [| discriminate].
      intros response. split; [discriminate |]. intros [[= <-] [K _]]. congruence.
Qed.

Lemma apiRequest_returns_ok_json_only_witness :
  outcome_of (run (Api.apiRequest "/okx-account/balance" GET [])
                (responding good_answer) tt)
  = Val good_answer.
Proof.
  pose proof (apiRequest_returns_ok_json_only unit "/okx-account/balance" GET []
                (responding good_answer) tt) as (H & _).
  apply H. split; [reflexivity |]. split; [reflexivity |].
  exists "application/json". split; reflexivity.
Defined.

(* ===================================================================== *)
(** ** lib/api.ts: the queries *)
(* ===================================================================== *)

Lemma occurrences_app (c : ascii) (a b : string) :
  occurrences c (a +:+ b) = occurrences c a + occurrences c b.
Proof.
  induction a as [| x a IH]; [reflexivity |].
  change (String x a +:+ b) with (String x (a +:+ b)). simpl. rewrite IH. lia.
Qed.

Lemma hex_digit_unreserved (n : nat) :
  n < 16 -> Api.unreserved (Api.hex_digit n) = true.
Proof.
  intros H. do 16 (destruct n as [| n]; [reflexivity |]). lia.
Qed.

Lemma unreserved_safe (c : ascii) : Api.unreserved c = true -> query_safe c = true.
Proof. intros H. unfold query_safe. now rewrite H. Qed.

Lemma nat_of_ascii_bound (c : ascii) : nat_of_ascii c < 256.
Proof. destruct c as [[] [] [] [] [] [] [] []]; vm_compute; lia. Qed.

(** The serializer writes letters, digits, [*-._], [+] and [%] only. *)
Lemma urlencode_safe (s : string) : all_chars query_safe (Api.urlencode s) = true.
Proof.
  induction s as [| c r IH]; [reflexivity |]. cbn [Api.urlencode].
  destruct (Api.unreserved c) eqn:U; cbn [all_chars].
  - now rewrite (unreserved_safe c U).
  - destruct (c =? " ")%char; cbn [all_chars]; [exact IH |].
    pose proof (nat_of_ascii_bound c) as B.
    rewrite (unreserved_safe (Api.hex_digit (nat_of_ascii c / 16))),
      (unreserved_safe (Api.hex_digit (nat_of_ascii c mod 16))), IH;
      [reflexivity | |]; apply hex_digit_unreserved.
    + apply Nat.mod_upper_bound. lia.
    + apply Nat.Div0.div_lt_upper_bound. lia.
Qed.

Lemma safe_occurrences (c : ascii) (s : string) :
  query_safe c = false -> all_chars query_safe s = true -> occurrences c s = 0.
Proof.
  intros Hc. induction s as [| a r IH]; [reflexivity |]. simpl.
  intros H. apply andb_true_iff in H as [Ha Hr].
  rewrite (IH Hr). destruct (a =? c)%char eqn:E; [| reflexivity].
  apply Ascii.eqb_eq in E. subst. congruence.
Qed.

Lemma urlencode_occurrences (c : ascii) (s : string) :
  query_safe c = false -> occurrences c (Api.urlencode s) = 0.
Proof. intros Hc. apply safe_occurrences; [exact Hc | apply urlencode_safe]. Qed.

Lemma append_empty (s : string) : s +:+ "" = s.
Proof.
  induction s as [| a s IH]; [reflexivity |].
  change (String a s +:+ "") with (String a (s +:+ "")). now rewrite IH.
Qed.

Lemma toString_cons k v (rest : Api.URLSearchParams) :
  Api.toString ((k, v) :: rest)
  = Api.urlencode k +:+ "=" +:+ Api.urlencode v
    +:+ (match rest with [] => "" | _ => "&" +:+ Api.toString rest end).
Proof.
  destruct rest as [| [k' v'] rest]; cbn [Api.toString].
  - now rewrite append_empty.
  - reflexivity.
Qed.

(** A serialized query has one [=] for each parameter and one [&] between
    two parameters, whatever the keys and values contain. *)
Lemma toString_separators (params : Api.URLSearchParams) :
  occurrences "=" (Api.toString params) = length params
  /\ occurrences "&" (Api.toString params) = length params - 1
  /\ forall c, query_safe c = false -> c <> "="%char -> c <> "&"%char ->
               occurrences c (Api.toString params) = 0.
Proof.
  induction params as [| [k v] rest (IH1 & IH2 & IH3)];
    [split; [| split]; reflexivity |].
  rewrite toString_cons.
  split; [| split; [| intros c Hc N1 N2]].
  - rewrite !occurrences_app, !urlencode_occurrences by reflexivity.
    destruct rest; [reflexivity |].
    rewrite occurrences_app, IH1. reflexivity.
  - rewrite !occurrences_app, !urlencode_occurrences by reflexivity.
    destruct rest as [| p rest]; [reflexivity |].
    rewrite occurrences_app, IH2. simpl. lia.
  - rewrite !occurrences_app, !urlencode_occurrences by exact Hc.
    assert (E : occurrences c "=" = 0).
    { cbn [occurrences]. destruct (Ascii.eqb_spec "=" c); [congruence | reflexivity]. }
    assert (A : occurrences c "&" = 0).
    { cbn [occurrences]. destruct (Ascii.eqb_spec "&" c); [congruence | reflexivity]. }
    rewrite E. destruct rest; [reflexivity |].
    rewrite occurrences_app, A, (IH3 c Hc N1 N2). reflexivity.
Qed.

Lemma length_history_params symbol limit days :
  length (Api.history_params symbol limit days)
  = if Api.given symbol then 3 else 2.
Proof. unfold Api.history_params. destruct (Api.given symbol); reflexivity. Qed.

(** X3. The URL of a history or trades request has the shape of its query
    whatever the symbol is: one [?], one [=] for each parameter, one [&]
    between two parameters and no [#].  A symbol given to the positions or
    the open orders query is written into the URL as it is. *)
Theorem history_query_keeps_its_shape :
  forall (S : Type) (symbol : option string) (limit days : option Z)
         (w : Remote) (s : S),
    (exists orders_url trades_url,
        log_of (run (Api.getOKXOrderHistory symbol limit days) w s)
        = [Fetch {| h_method := GET; h_url := orders_url; h_body := [] |}]
        /\ log_of (run (Api.getOKXTrades symbol limit days) w s)
           = [Fetch {| h_method := GET; h_url := trades_url; h_body := [] |}]
        /\ forall url, url = orders_url \/ url = trades_url ->
             occurrences "?" url = 1
             /\ occurrences "=" url = (if Api.given symbol then 3 else 2)
             /\ occurrences "&" url = (if Api.given symbol then 2 else 1)
             /\ occurrences "#" url = 0)
    /\ (Api.given symbol = true ->
        log_of (run (Api.getOKXPositions symbol) w s)
        = [Fetch {| h_method := GET;
                    h_url := "/api/okx-account/positions?symbol=" +:+ Api.text symbol;
                    h_body := [] |}]
        /\ log_of (run (Api.getOKXOpenOrders symbol) w s)
           = [Fetch {| h_method := GET;
                       h_url := "/api/okx-account/orders/open?symbol="
                                +:+ Api.text symbol;
                       h_body := [] |}]).
Proof.
  intros S symbol limit days w s. split.
  - exists ("/api" +:+ Api.getOKXOrderHistory_endpoint symbol limit days),
           ("/api" +:+ Api.getOKXTrades_endpoint symbol limit days).
    split; [apply json_of_log |]. split; [apply json_of_log |].
    pose proof (toString_separators (Api.history_params symbol limit days))
      as (H1 & H2 & H3).
    rewrite length_history_params in H1, H2.
    intros url [-> | ->];
      unfold Api.getOKXOrderHistory_endpoint, Api.getOKXTrades_endpoint;
      rewrite !occurrences_app, H1, H2, !H3 by (reflexivity || discriminate);
      destruct (Api.given symbol); repeat split.
  - intros G. unfold run, Api.getOKXPositions, Api.getOKXOpenOrders. rewrite G.
    split; apply json_of_log.
Qed.

Lemma history_query_keeps_its_shape_witness :
  log_of (run (Api.getOKXPositions (Some "BTC&limit=1")) offline tt)
  = [Fetch {| h_method := GET;
              h_url := "/api/okx-account/positions?symbol=BTC&limit=1";
              h_body := [] |}].
Proof.
  apply (history_query_keeps_its_shape unit (Some "BTC&limit=1") None None
           offline tt).
  reflexivity.
Defined.

(** *** The serializer loses nothing *)

Lemma hex_digit_inj (a b : nat) :
  a < 16 -> b < 16 -> Api.hex_digit a = Api.hex_digit b -> a = b.
Proof.
  intros Ha Hb H. apply (f_equal nat_of_ascii) in H. unfold Api.hex_digit in H.
  destruct (Nat.ltb_spec a 10), (Nat.ltb_spec b 10);
    rewrite 2 nat_ascii_embedding in H by lia; lia.
Qed.

Lemma nat_of_ascii_inj (c d : ascii) : nat_of_ascii c = nat_of_ascii d -> c = d.
Proof.
  intros H. rewrite <- (ascii_nat_embedding c), <- (ascii_nat_embedding d).
  now rewrite H.
Qed.

Lemma urlencode_cons (c : ascii) (r : string) :
  Api.urlencode (String c r)
  = if Api.unreserved c then String c (Api.urlencode r)
    else if (c =? " ")%char then String "+" (Api.urlencode r)
    else String "%" (String (Api.hex_digit (nat_of_ascii c / 16))
                       (String (Api.hex_digit (nat_of_ascii c mod 16))
                          (Api.urlencode r))).
Proof. reflexivity. Qed.

Lemma urlencode_inj (a b : string) : Api.urlencode a = Api.urlencode b -> a = b.
Proof.
  revert b. induction a as [| c a IH]; intros [| d b].
  - reflexivity.
  - rewrite urlencode_cons. cbn [Api.urlencode].
    destruct (Api.unreserved d); [discriminate |].
    destruct (d =? " ")%char; discriminate.
  - rewrite urlencode_cons. cbn [Api.urlencode].
    destruct (Api.unreserved c); [discriminate |].
    destruct (c =? " ")%char; discriminate.
  - rewrite !urlencode_cons.
    destruct (Api.unreserved c) eqn:Uc, (Api.unreserved d) eqn:Ud.
    + intros [= -> H]. f_equal. now apply IH.
    + destruct (d =? " ")%char; intros [= -> H]; discriminate Uc.
    + destruct (c =? " ")%char; intros [= <- H]; discriminate Ud.
    + destruct (c =? " ")%char eqn:Sc, (d =? " ")%char eqn:Sd.
      * apply Ascii.eqb_eq in Sc, Sd. subst. intros [= H]. f_equal. now apply IH.
      * discriminate.
      * discriminate.
      * intros E. injection E as H1 H2 H. f_equal; [| now apply IH].
        change (Api.hex_digit (nat_of_ascii c / 16)
                = Api.hex_digit (nat_of_ascii d / 16)) in H1.
        change (Api.hex_digit (nat_of_ascii c mod 16)
                = Api.hex_digit (nat_of_ascii d mod 16)) in H2.
        pose proof (nat_of_ascii_bound c) as Bc.
        pose proof (nat_of_ascii_bound d) as Bd.
        apply hex_digit_inj in H1;
          [| apply Nat.Div0.div_lt_upper_bound; lia
           | apply Nat.Div0.div_lt_upper_bound; lia].
        apply hex_digit_inj in H2;
          [| apply Nat.mod_upper_bound; lia | apply Nat.mod_upper_bound; lia].
        apply nat_of_ascii_inj.
        rewrite (Nat.div_mod_eq (nat_of_ascii c) 16),
          (Nat.div_mod_eq (nat_of_ascii d) 16).
        now rewrite H1, H2.
Qed.

(** Two texts of safe characters that are each followed by [&] in equal
    strings are equal, with what follows them. *)
Lemma safe_prefix_inj (a b t t' : string) :
  all_chars query_safe a = true -> all_chars query_safe b = true ->
  a +:+ String "&" t = b +:+ String "&" t' -> a = b /\ t = t'.
Proof.
  revert b. induction a as [| x a IH]; intros [| y b] Ha Hb H.
  - now injection H as ->.
  - change (String "&" t = String y (b +:+ String "&" t')) in H.
    injection H as <- _. discriminate Hb.
  - change (String x (a +:+ String "&" t) = String "&" t') in H.
    injection H as -> _. discriminate Ha.
  - change (String x (a +:+ String "&" t) = String y (b +:+ String "&" t')) in H.
    injection H as -> H.
    cbn [all_chars] in Ha, Hb.
    apply andb_true_iff in Ha as [_ Ha]. apply andb_true_iff in Hb as [_ Hb].
    destruct (IH b Ha Hb H) as [-> ->]. now split.
Qed.

(** X4. The query of the history functions determines the symbol it was
    made for, for symbols of the ASCII range, as the instruments' names are,
    and whole numbers of orders and days below 10^21: two symbols never give
    the same endpoint.  (Beyond that range the claim would need more: a
    JavaScript string with an unpaired surrogate is serialized like the one
    with U+FFFD in its place.) *)
Theorem history_query_determines_symbol :
  forall (a b : string) (limit days limit' days' : option Z),
    JS.is_ascii a = true -> JS.is_ascii b = true ->
    plain_integer limit = true -> plain_integer days = true ->
    plain_integer limit' = true -> plain_integer days' = true ->
    Api.given (Some a) = true -> Api.given (Some b) = true ->
    Api.getOKXOrderHistory_endpoint (Some a) limit days
    = Api.getOKXOrderHistory_endpoint (Some b) limit' days'
    \/ Api.getOKXTrades_endpoint (Some a) limit days
       = Api.getOKXTrades_endpoint (Some b) limit' days' ->
    a = b.
Proof.
  intros a b limit days limit' days' _ _ _ _ _ _ Ga Gb H.
  assert (E : Api.toString (Api.history_params (Some a) limit days)
              = Api.toString (Api.history_params (Some b) limit' days')).
  { destruct H as [H | H];
      unfold Api.getOKXOrderHistory_endpoint, Api.getOKXTrades_endpoint in H;
      now apply String.app_inj in H. }
  unfold Api.history_params in E. rewrite Ga, Gb in E.
  cbn [Api.append app] in E. rewrite !toString_cons in E.
  apply String.app_inj in E. apply String.app_inj in E.
  change ("&" +:+ ?x) with (String "&" x) in E.
  apply safe_prefix_inj in E as [E _]; try apply urlencode_safe.
  now apply urlencode_inj.
Qed.

Lemma history_query_determines_symbol_witness :
  "BTC/USDT:USDT" = "BTC/USDT:USDT".
Proof.
  apply (history_query_determines_symbol "BTC/USDT:USDT" "BTC/USDT:USDT"
           (Some 50%Z) None (Some 50%Z) (Some 7%Z));
    [reflexivity | reflexivity | reflexivity | reflexivity | reflexivity
    | reflexivity | reflexivity | reflexivity | left; reflexivity].
Defined.

(** *** The filters of the decision log *)

Lemma truthy_query (params : Api.URLSearchParams) :
  JS.truthy (Api.toString params) = match params with [] => false | _ => true end.
Proof.
  destruct params as [| [k v] rest]; [reflexivity |].
  pose proof (proj1 (toString_separators ((k, v) :: rest))) as H.
  destruct (Api.toString ((k, v) :: rest)); [discriminate H | reflexivity].
Qed.

(** The [=] signs of the query part of the endpoint count the filters that
    are sent. *)
Lemma decisions_query_count (filters : option Decisions.AIDecisionFilters) :
  let query := Api.toString (Decisions.getAIDecisions_params filters) in
  occurrences "=" (if JS.truthy query then "?" +:+ query else "")
  = length (Decisions.getAIDecisions_params filters).
Proof.
  intros query. unfold query. rewrite truthy_query.
  pose proof (proj1 (toString_separators (Decisions.getAIDecisions_params filters)))
    as H.
  destruct (Decisions.getAIDecisions_params filters); [reflexivity |].
  rewrite occurrences_app, H. reflexivity.
Qed.

Lemma decisions_endpoint_inj accountId f g :
  Decisions.getAIDecisions_endpoint accountId f
  = Decisions.getAIDecisions_endpoint accountId g ->
  length (Decisions.getAIDecisions_params f)
  = length (Decisions.getAIDecisions_params g).
Proof.
  unfold Decisions.getAIDecisions_endpoint. intros H.
  apply String.app_inj in H. apply String.app_inj in H. apply String.app_inj in H.
  rewrite <- !decisions_query_count. now rewrite H.
Qed.

(** X5. [getAIDecisions] sends the filters that are truthy, and [executed]
    whenever it is given.  A limit of 0 and an empty text are left out, so
    the endpoint is the one of the call without them; [executed: false] is
    sent, so the endpoint differs from the one of the call without it; with
    no filter there is no question mark and no query.  [getAIDecisionStats]
    leaves out [days] when it is 0 in the same way. *)
Theorem decisions_query_sends_effective_filters :
  forall (accountId : Z) (op sym sd ed : option string) (ex : option bool)
         (lim : option Z),
    let endpoint := Decisions.getAIDecisions_endpoint accountId in
    let filters op sym ex sd ed lim :=
      Some {| Decisions.operation := op; Decisions.symbol := sym;
              Decisions.executed := ex; Decisions.start_date := sd;
              Decisions.end_date := ed; Decisions.limit := lim |} in
    endpoint (filters op sym ex sd ed (Some 0%Z)) = endpoint (filters op sym ex sd ed None)
    /\ endpoint (filters (Some "") sym ex sd ed lim)
       = endpoint (filters None sym ex sd ed lim)
    /\ endpoint (filters op (Some "") ex sd ed lim)
       = endpoint (filters op None ex sd ed lim)
    /\ endpoint (filters op sym ex (Some "") ed lim)
       = endpoint (filters op sym ex None ed lim)
    /\ endpoint (filters op sym ex sd (Some "") lim)
       = endpoint (filters op sym ex sd None lim)
    /\ endpoint (filters op sym (Some false) sd ed lim)
       <> endpoint (filters op sym None sd ed lim)
    /\ endpoint (filters None None None None None None) = endpoint None
    /\ endpoint None = "/accounts/" +:+ Api.Z_str accountId +:+ "/ai-decisions"
    /\ Decisions.getAIDecisionStats_endpoint accountId (Some 0%Z)
       = Decisions.getAIDecisionStats_endpoint accountId None
    /\ Decisions.getAIDecisionStats_endpoint accountId None
       = "/accounts/" +:+ Api.Z_str accountId +:+ "/ai-decisions/stats".
Proof.
  intros accountId op sym sd ed ex lim endpoint filters.
  split; [reflexivity |]. split; [reflexivity |]. split; [reflexivity |].
  split; [reflexivity |]. split; [reflexivity |].
  split; [| repeat split; unfold Decisions.getAIDecisionStats_endpoint; simpl;
              now rewrite ?append_empty].
  intros H. apply decisions_endpoint_inj in H. revert H.
  unfold filters, Decisions.getAIDecisions_params. cbn [mbind option_bind
    Decisions.operation Decisions.symbol Decisions.executed Decisions.start_date
    Decisions.end_date Decisions.limit].
  destruct (Api.given op), (Api.given sym), (Api.given sd), (Api.given ed),
    (Decisions.nonzero lim); cbn; lia.
Qed.

(* ===================================================================== *)
(** ** The views: loading flags *)
(* ===================================================================== *)

Lemma state_bind_set {S B} (f : S -> S) (k : unit -> M S B) w s :
  state_of (bind (set f) k w s) = state_of (k tt w (f s)).
Proof.
  unfold state_of, bind, set. now destruct (k tt w (f s)) as [[o s2] l2].
Qed.

Lemma state_finally_sets {S A} (m : M S A) (f g : S -> S) w s :
  state_of (try_finally m (set f ;;; set g) w s) = g (f (state_of (m w s))).
Proof.
  unfold state_of, try_finally, bind, set. now destruct (m w s) as [[o s1] l1].
Qed.

Lemma state_unawaited {S A} (m : M S A) w s :
  state_of (unawaited m w s) = state_of (m w s).
Proof. unfold state_of, unawaited. now destruct (m w s) as [[o s1] l1]. Qed.

(** What holds of the state after [m] holds after [m ;;; k] when [k] keeps
    the part of the state it speaks of. *)
Lemma state_after {S A B X} (proj : S -> X) (m : M S A) (k : A -> M S B) (v : X) :
  (forall w s, proj (state_of (m w s)) = v) -> (forall a, keeps proj (k a)) ->
  forall w s, proj (state_of (bind m k w s)) = v.
Proof.
  intros Hm Hk w s. specialize (Hm w s). unfold state_of, bind in *.
  destruct (m w s) as [[[a | e] s1] l1]; simpl in *; [| exact Hm].
  specialize (Hk a w s1). unfold state_of in Hk.
  destruct (k a w s1) as [[o s2] l2]. simpl in *. congruence.
Qed.

(** X6. No fetch leaves a view busy.  After [fetchAllData], and after
    [handleRefresh], of each of the three views, [loading] and [refreshing]
    are false, from whatever state it started and however each query is
    answered. *)
Theorem fetching_always_ends_idle :
  forall (accountId : Z) (w : Remote)
         (c2 s2 : ManualTradingView2.State) (s : ManualTradingView.State)
         (sa : OKXAccountView.State),
    let idle2 (x : ManualTradingView2.State) :=
      ManualTradingView2.loading (ManualTradingView2.data x) = false
      /\ ManualTradingView2.refreshing (ManualTradingView2.data x) = false in
    let idle (x : ManualTradingView.State) :=
      ManualTradingView.loading (ManualTradingView.data x) = false
      /\ ManualTradingView.refreshing (ManualTradingView.data x) = false in
    let idlea (x : OKXAccountView.State) :=
      OKXAccountView.loading x = false /\ OKXAccountView.refreshing x = false in
    idle2 (state_of (run (ManualTradingView2.fetchAllData accountId) w s2))
    /\ idle2 (state_of (run (ManualTradingView2.handleRefresh accountId c2) w s2))
    /\ idle (state_of (run ManualTradingView.fetchAllData w s))
    /\ idle (state_of (run ManualTradingView.handleRefresh w s))
    /\ idlea (state_of (run (OKXAccountView.fetchAllData accountId) w sa))
    /\ idlea (state_of (run (OKXAccountView.handleRefresh accountId) w sa)).
Proof.
  intros accountId w c2 s2 s sa idle2 idle idlea.
  assert (F2 : forall w s, idle2 (state_of (ManualTradingView2.fetchAllData accountId w s))).
  { intros w0 s0. unfold ManualTradingView2.fetchAllData.
    rewrite state_finally_sets. split; reflexivity. }
  assert (F : forall w s, idle (state_of (ManualTradingView.fetchAllData w s))).
  { intros w0 s0. unfold ManualTradingView.fetchAllData.
    rewrite state_finally_sets. split; reflexivity. }
  assert (Fa : forall w s, idlea (state_of (OKXAccountView.fetchAllData accountId w s))).
  { intros w0 s0. unfold OKXAccountView.fetchAllData.
    rewrite state_finally_sets. split; reflexivity. }
  unfold run.
  split; [apply F2 |]. split.
  { unfold ManualTradingView2.handleRefresh. rewrite !state_bind_set.
    split.
    - apply (state_after
               (fun x => ManualTradingView2.loading (ManualTradingView2.data x))).
      + intros w0 s0. rewrite state_unawaited. apply F2.
      + intros _. unfold ManualTradingView2.fetchOrderHistory,
          ManualTradingView2.fetchTrades. rewrite !andb_false_r. frames.
    - apply (state_after
               (fun x => ManualTradingView2.refreshing (ManualTradingView2.data x))).
      + intros w0 s0. rewrite state_unawaited. apply F2.
      + intros _. unfold ManualTradingView2.fetchOrderHistory,
          ManualTradingView2.fetchTrades. rewrite !andb_false_r. frames. }
  split; [apply F |]. split.
  { unfold ManualTradingView.handleRefresh. split.
    - apply (state_after
               (fun x => ManualTradingView.loading (ManualTradingView.data x)));
        [intros w0 s0; rewrite state_unawaited; apply F | intros _; frames].
    - apply (state_after
               (fun x => ManualTradingView.refreshing (ManualTradingView.data x)));
        [intros w0 s0; rewrite state_unawaited; apply F | intros _; frames]. }
  split; [apply Fa |].
  unfold OKXAccountView.handleRefresh. split.
  - apply (state_after OKXAccountView.loading);
      [intros w0 s0; rewrite state_unawaited; apply Fa | intros _; frames].
  - apply (state_after OKXAccountView.refreshing);
      [intros w0 s0; rewrite state_unawaited; apply Fa | intros _; frames].
Qed.

(* ===================================================================== *)
(** ** ManualTradingView.tsx: the three queries of [fetchAllData] *)
(* ===================================================================== *)

(** A request function that meets a response that is not ok throws. *)
Lemma json_of_not_ok {S} endpoint method body (w : Remote) (s : S) response :
  http w (api_request endpoint method body) = Val response ->
  h_ok response = false ->
  outcome_of (Api.json_of endpoint method body w s)
  = Exn {| message := "HTTP error! status: " +:+ Api.Z_str (h_status response) |}.
Proof.
  intros H Hok.
  pose proof (apiRequest_not_ok endpoint method body w s response H Hok) as E.
  unfold Api.json_of, bind, outcome_of. now rewrite E.
Qed.

(** Three request functions under [Promise.all]: three requests, and the
    outcomes of the three. *)
Lemma all3_json_of {S} e1 e2 e3 (w : Remote) (s : S) :
  promise_all3 (Api.json_of e1 GET []) (Api.json_of e2 GET [])
    (Api.json_of e3 GET []) w s
  = (match outcome_of (Api.json_of e1 GET [] w s),
           outcome_of (Api.json_of e2 GET [] w s),
           outcome_of (Api.json_of e3 GET [] w s) with
     | Val x, Val y, Val z => Val (x, y, z)
     | Exn e, _, _ => Exn e
     | _, Exn e, _ => Exn e
     | _, _, Exn e => Exn e
     end, s,
     [Fetch (api_request e1 GET []); Fetch (api_request e2 GET []);
      Fetch (api_request e3 GET [])]).
Proof.
  unfold promise_all3.
  pose proof (json_of_log e1 GET [] w s) as [L1 S1].
  pose proof (json_of_log e2 GET [] w s) as [L2 S2].
  pose proof (json_of_log e3 GET [] w s) as [L3 S3].
  unfold log_of, state_of, outcome_of in *.
  destruct (Api.json_of e1 GET [] w s) as [[oa s1] l1]. simpl in *. subst s1 l1.
  destruct (Api.json_of e2 GET [] w s) as [[ob s2] l2]. simpl in *. subst s2 l2.
  destruct (Api.json_of e3 GET [] w s) as [[oc s3] l3]. simpl in *. subst s3 l3.
  reflexivity.
Qed.

(** The run of [fetchAllData] of ManualTradingView.tsx. *)
Lemma view_fetchAllData_run (w : Remote) (s : ManualTradingView.State) :
  let r := ManualTradingView.fetchAllData w s in
  let s' := ManualTradingView.data (state_of r) in
  let d := ManualTradingView.data s in
  network (log_of r)
  = [Fetch (api_request "/okx-account/balance" GET []);
     Fetch (api_request "/okx-account/positions" GET []);
     Fetch (api_request "/okx-account/orders/open" GET [])]
  /\ match outcome_of (Api.json_of "/okx-account/balance" GET [] w s),
           outcome_of (Api.json_of "/okx-account/positions" GET [] w s),
           outcome_of (Api.json_of "/okx-account/orders/open" GET [] w s) with
     | Val b, Val p, Val o =>
         ManualTradingView.balance s'
         = (if Res.success b then Res.assets b else ManualTradingView.balance d)
         /\ ManualTradingView.positions s'
            = (if Res.success p then Res.positions p
               else ManualTradingView.positions d)
         /\ ManualTradingView.openOrders s'
            = (if Res.success o then Res.orders o
               else ManualTradingView.openOrders d)
         /\ toasts (log_of r) = []
     | _, _, _ =>
         ManualTradingView.balance s' = ManualTradingView.balance d
         /\ ManualTradingView.positions s' = ManualTradingView.positions d
         /\ ManualTradingView.openOrders s' = ManualTradingView.openOrders d
         /\ toasts (log_of r) = [Toast toast_error "Failed to load account data"]
     end.
Proof.
  intros r s' d. unfold s', d, r, ManualTradingView.fetchAllData.
  unfold Api.getOKXBalance, Api.getOKXPositions, Api.getOKXOpenOrders.
  cbn [Api.given].
  unfold try_finally, try_catch, bind, set.
  rewrite all3_json_of.
  rewrite (json_of_outcome "/okx-account/balance" GET [] w _ s).
  rewrite (json_of_outcome "/okx-account/positions" GET [] w _ s).
  rewrite (json_of_outcome "/okx-account/orders/open" GET [] w _ s).
  destruct (outcome_of (Api.json_of "/okx-account/balance" GET [] w s))
    as [b | e1];
    destruct (outcome_of (Api.json_of "/okx-account/positions" GET [] w s))
      as [p | e2];
    destruct (outcome_of (Api.json_of "/okx-account/orders/open" GET [] w s))
      as [o | e3];
    try (split; [reflexivity | repeat split]).
  destruct (Res.success b), (Res.success p), (Res.success o);
    (split; [reflexivity | repeat split]).
Qed.

(** X7. [fetchAllData] of ManualTradingView.tsx asks for balance, positions
    and open orders, in this order and whatever is answered.  When the three
    calls return, each list is replaced if its answer has [success] and kept
    if not, and nothing is shown; when one of them throws, the three lists
    are all kept, also those whose own answer was good, and the error toast
    is shown.  A response that is not ok makes its call throw. *)
Theorem view_fetch_is_all_or_nothing :
  forall (w : Remote) (s : ManualTradingView.State),
    let r := run ManualTradingView.fetchAllData w s in
    let s' := ManualTradingView.data (state_of r) in
    let d := ManualTradingView.data s in
    network (log_of r)
    = [Fetch (api_request "/okx-account/balance" GET []);
       Fetch (api_request "/okx-account/positions" GET []);
       Fetch (api_request "/okx-account/orders/open" GET [])]
    /\ ManualTradingView.form (state_of r) = ManualTradingView.form s
    /\ match outcome_of (run Api.getOKXBalance w s),
             outcome_of (run (Api.getOKXPositions None) w s),
             outcome_of (run (Api.getOKXOpenOrders None) w s) with
       | Val b, Val p, Val o =>
           ManualTradingView.balance s'
           = (if Res.success b then Res.assets b else ManualTradingView.balance d)
           /\ ManualTradingView.positions s'
              = (if Res.success p then Res.positions p
                 else ManualTradingView.positions d)
           /\ ManualTradingView.openOrders s'
              = (if Res.success o then Res.orders o
                 else ManualTradingView.openOrders d)
           /\ toasts (log_of r) = []
       | _, _, _ =>
           ManualTradingView.balance s' = ManualTradingView.balance d
           /\ ManualTradingView.positions s' = ManualTradingView.positions d
           /\ ManualTradingView.openOrders s' = ManualTradingView.openOrders d
           /\ toasts (log_of r) = [Toast toast_error "Failed to load account data"]
       end
    /\ (forall endpoint response,
          In endpoint ["/okx-account/balance"; "/okx-account/positions";
                       "/okx-account/orders/open"] ->
          http w (api_request endpoint GET []) = Val response ->
          h_ok response = false ->
          ManualTradingView.balance s' = ManualTradingView.balance d
          /\ ManualTradingView.positions s' = ManualTradingView.positions d
          /\ ManualTradingView.openOrders s' = ManualTradingView.openOrders d
          /\ toasts (log_of r) = [Toast toast_error "Failed to load account data"]).
Proof.
  intros w s r s' d.
  destruct (view_fetchAllData_run w s) as [N D]. split; [exact N |].
  split; [apply view_fetchAllData_form |]. split; [exact D |].
  intros endpoint response Hin H Hok.
  assert (T : outcome_of (Api.json_of endpoint GET [] w s)
              = Exn {| message := "HTTP error! status: "
                                  +:+ Api.Z_str (h_status response) |})
    by now apply json_of_not_ok.
  destruct Hin as [<- | [<- | [<- | []]]]; rewrite T in D.
  - exact D.
  - now destruct (outcome_of (Api.json_of "/okx-account/balance" GET [] w s)).
  - destruct (outcome_of (Api.json_of "/okx-account/balance" GET [] w s));
      [| exact D].
    now destruct (outcome_of (Api.json_of "/okx-account/positions" GET [] w s)).
Qed.

Lemma view_fetch_is_all_or_nothing_witness :
  ManualTradingView.positions
    (ManualTradingView.data
       (state_of (run ManualTradingView.fetchAllData balance_down
                    ManualTradingView.initial)))
  = [].
Proof.
  pose proof (view_fetch_is_all_or_nothing balance_down ManualTradingView.initial)
    as (_ & _ & _ & H).
  apply (H "/okx-account/balance" server_error); [now left | reflexivity | reflexivity].
Defined.

(* ===================================================================== *)
(** ** The account view: the order of its queries *)
(* ===================================================================== *)

(** X8. [fetchAllData] of the account view asks for the summary first and
    for the three sections only once the summary call has returned: a summary
    call that throws leaves the sections unasked.  The summary is set from an
    answer with [success] before the sections are asked for, so it is
    replaced also when a section query throws afterwards. *)
Theorem account_fetch_asks_summary_first :
  forall (accountId : Z) (w : Remote) (s : OKXAccountView.State),
    let r := run (OKXAccountView.fetchAllData accountId) w s in
    network (log_of r)
    = match api w (getOKXAccountSummary accountId) with
      | Val _ => [Call (getOKXAccountSummary accountId);
                  Call (getOKXBalance accountId);
                  Call (getOKXPositions accountId);
                  Call (getOKXOpenOrders accountId)]
      | Exn _ => [Call (getOKXAccountSummary accountId)]
      end
    /\ OKXAccountView.summary (state_of r)
       = match api w (getOKXAccountSummary accountId) with
         | Val res => if Res.success res then Res.summary res
                      else OKXAccountView.summary s
         | Exn _ => OKXAccountView.summary s
         end
    /\ OKXAccountView.orderHistory (state_of r) = OKXAccountView.orderHistory s
    /\ OKXAccountView.trades (state_of r) = OKXAccountView.trades s.
Proof.
  intros accountId w s r. unfold r, run, OKXAccountView.fetchAllData.
  unfold try_finally, try_catch, bind, set, call, promise_all3, when, emit, ret,
    state_of, log_of, network.
  simpl.
  destruct (api w (getOKXAccountSummary accountId)) as [sm | e0]; simpl;
    [| repeat split].
  destruct (Res.success sm); simpl;
    destruct (api w (getOKXBalance accountId)) as [b | e1]; simpl;
    destruct (api w (getOKXPositions accountId)) as [p | e2]; simpl;
    destruct (api w (getOKXOpenOrders accountId)) as [o | e3]; simpl;
    try (repeat split; fail);
    destruct (Res.success b), (Res.success p), (Res.success o); repeat split.
Qed.

(* ===================================================================== *)
(** ** The account view: history that is never fetched again *)
(* ===================================================================== *)

(** X9. The refresh of the account view leaves the history alone: it asks
    for neither order history nor trades and keeps both lists.  So once a
    list is loaded, the tab shows it for as long as the view lives: after a
    refresh the tab still finds it and asks nothing. *)
Theorem account_refresh_keeps_history :
  forall (accountId : Z) (w w' : Remote) (s : OKXAccountView.State),
    let r := run (OKXAccountView.handleRefresh accountId) w s in
    let s' := state_of r in
    history_requests (log_of r) = []
    /\ OKXAccountView.orderHistory s' = OKXAccountView.orderHistory s
    /\ OKXAccountView.trades s' = OKXAccountView.trades s
    /\ (OKXAccountView.orderHistory s <> [] ->
        run (OKXAccountView.onValueChange accountId s' "history") w' s'
        = (Val tt, s', []))
    /\ (OKXAccountView.trades s <> [] ->
        run (OKXAccountView.onValueChange accountId s' "trades") w' s'
        = (Val tt, s', [])).
Proof.
  intros accountId w w' s r s'.
  assert (K1 : OKXAccountView.orderHistory s' = OKXAccountView.orderHistory s).
  { unfold s', r, run.
    assert (K : keeps OKXAccountView.orderHistory
                  (OKXAccountView.handleRefresh accountId))
      by (unfold OKXAccountView.handleRefresh, OKXAccountView.fetchAllData; frames).
    apply K. }
  assert (K2 : OKXAccountView.trades s' = OKXAccountView.trades s).
  { unfold s', r, run.
    assert (K : keeps OKXAccountView.trades (OKXAccountView.handleRefresh accountId))
      by (unfold OKXAccountView.handleRefresh, OKXAccountView.fetchAllData; frames).
    apply K. }
  split.
  { unfold r, run.
    assert (L : silent is_history_request (OKXAccountView.handleRefresh accountId))
      by (unfold OKXAccountView.handleRefresh, OKXAccountView.fetchAllData; logs).
    apply L. }
  split; [exact K1 |]. split; [exact K2 |].
  unfold run, OKXAccountView.onValueChange, OKXAccountView.fetchOrderHistory,
    OKXAccountView.fetchTrades.
  split; intros H; simpl.
  - rewrite K1. now destruct (OKXAccountView.orderHistory s).
  - rewrite K2. now destruct (OKXAccountView.trades s).
Qed.

Lemma account_refresh_keeps_history_witness :
  run (OKXAccountView.onValueChange 1
         (state_of (run (OKXAccountView.handleRefresh 1) offline account_cached))
         "history") offline
      (state_of (run (OKXAccountView.handleRefresh 1) offline account_cached))
  = (Val tt, state_of (run (OKXAccountView.handleRefresh 1) offline account_cached),
     []).
Proof.
  pose proof (account_refresh_keeps_history 1 offline offline account_cached)
    as (_ & _ & _ & H & _).
  apply H. discriminate.
Defined.

(* ===================================================================== *)
(** ** The history tabs with nothing cached *)
(* ===================================================================== *)

(** X10. Choosing the History or the Trades tab while the list of the render
    is empty asks for it, once, and the list becomes the answer when it has
    [success] and stays what it was otherwise.  A call that throws is
    reported with a toast by the trading view and on the console only by the
    account view.  The test reads the list of the render: an empty answer is
    no cache, and the next visit asks again. *)
Theorem empty_history_is_fetched_on_every_visit :
  forall (accountId : Z) (w : Remote)
         (c s : ManualTradingView2.State) (c' s' : OKXAccountView.State),
    let failed (o : Outcome Payload) (msg : string) :=
      match o with Exn _ => [Toast toast_error msg] | Val _ => [] end in
    (ManualTradingView2.orderHistory (ManualTradingView2.data c) = [] ->
     let r := run (ManualTradingView2.onValueChange accountId c "history") w s in
     network (log_of r) = [Call (getOKXOrderHistory accountId)]
     /\ ManualTradingView2.orderHistory (ManualTradingView2.data (state_of r))
        = fetched_orders (api w (getOKXOrderHistory accountId))
            (ManualTradingView2.orderHistory (ManualTradingView2.data s))
     /\ toasts (log_of r)
        = failed (api w (getOKXOrderHistory accountId)) "Failed to load order history")
    /\ (ManualTradingView2.trades (ManualTradingView2.data c) = [] ->
        let r := run (ManualTradingView2.onValueChange accountId c "trades") w s in
        network (log_of r) = [Call (getOKXTrades accountId)]
        /\ ManualTradingView2.trades (ManualTradingView2.data (state_of r))
           = fetched_trades (api w (getOKXTrades accountId))
               (ManualTradingView2.trades (ManualTradingView2.data s))
        /\ toasts (log_of r)
           = failed (api w (getOKXTrades accountId)) "Failed to load trade history")
    /\ (OKXAccountView.orderHistory c' = [] ->
        let r := run (OKXAccountView.onValueChange accountId c' "history") w s' in
        network (log_of r) = [Call (getOKXOrderHistory accountId)]
        /\ OKXAccountView.orderHistory (state_of r)
           = fetched_orders (api w (getOKXOrderHistory accountId))
               (OKXAccountView.orderHistory s')
        /\ toasts (log_of r) = [])
    /\ (OKXAccountView.trades c' = [] ->
        let r := run (OKXAccountView.onValueChange accountId c' "trades") w s' in
        network (log_of r) = [Call (getOKXTrades accountId)]
        /\ OKXAccountView.trades (state_of r)
           = fetched_trades (api w (getOKXTrades accountId))
               (OKXAccountView.trades s')
        /\ toasts (log_of r) = []).
Proof.
  intros accountId w c s c' s' failed.
  split; [| split; [| split]]; intros E r; unfold r, run, failed;
    unfold ManualTradingView2.onValueChange, ManualTradingView2.fetchOrderHistory,
      ManualTradingView2.fetchTrades, OKXAccountView.onValueChange,
      OKXAccountView.fetchOrderHistory, OKXAccountView.fetchTrades;
    rewrite E; simpl;
    unfold bind, when, unawaited, try_catch, call, set, emit, ret, state_of,
      log_of, network, toasts, fetched_orders, fetched_trades; simpl.
  - destruct (api w (getOKXOrderHistory accountId)) as [res | e]; simpl;
      [destruct (Res.success res) |]; repeat split.
  - destruct (api w (getOKXTrades accountId)) as [res | e]; simpl;
      [destruct (Res.success res) |]; repeat split.
  - destruct (api w (getOKXOrderHistory accountId)) as [res | e]; simpl;
      [destruct (Res.success res) |]; repeat split.
  - destruct (api w (getOKXTrades accountId)) as [res | e]; simpl;
      [destruct (Res.success res) |]; repeat split.
Qed.

Lemma empty_history_is_fetched_on_every_visit_witness :
  network (log_of (run (ManualTradingView2.onValueChange 1
                          ManualTradingView2.initial "history") offline
                       ManualTradingView2.initial))
  = [Call (getOKXOrderHistory 1)].
Proof.
  pose proof (empty_history_is_fetched_on_every_visit 1 offline
                ManualTradingView2.initial ManualTradingView2.initial
                OKXAccountView.initial OKXAccountView.initial) as (H & _).
  apply H. reflexivity.
Defined.

(* ===================================================================== *)
(** ** Submitting: the requests that follow *)
(* ===================================================================== *)

Lemma view2_fetchAllData_network accountId (w : Remote) (s : ManualTradingView2.State) :
  network (log_of (ManualTradingView2.fetchAllData accountId w s))
  = [Call (getOKXBalance accountId); Call (getOKXPositions accountId);
     Call (getOKXOpenOrders accountId)].
Proof.
  unfold ManualTradingView2.fetchAllData.
  unfold try_finally, try_catch, bind, set, call, promise_all3, when, emit, ret,
    log_of, network.
  simpl.
  destruct (api w (getOKXBalance accountId)) as [b | e1]; simpl;
    destruct (api w (getOKXPositions accountId)) as [p | e2]; simpl;
    destruct (api w (getOKXOpenOrders accountId)) as [o | e3]; simpl;
    try reflexivity.
  destruct (Res.success b), (Res.success p), (Res.success o); reflexivity.
Qed.

(** The guards of the two trading views, as one test. *)
Lemma view2_guard_accepts (c : ManualTradingView2.State) :
  accepts (view2_form c)
  = negb (negb (JS.truthy (ManualTradingView2.amount (ManualTradingView2.form c)))
          || JS.le0 (JS.parseFloat
                       (ManualTradingView2.amount (ManualTradingView2.form c))))
    && negb (is_limit (ManualTradingView2.orderType (ManualTradingView2.form c))
             && (negb (JS.truthy
                         (ManualTradingView2.price (ManualTradingView2.form c)))
                 || JS.le0 (JS.parseFloat
                              (ManualTradingView2.price
                                 (ManualTradingView2.form c))))).
Proof.
  unfold accepts, view2_form, quantity_of, price_of. simpl.
  destruct (JS.truthy _), (JS.le0 _), (is_limit _), (JS.truthy _), (JS.le0 _);
    reflexivity.
Qed.

Lemma view_guard_accepts (c : ManualTradingView.State) :
  accepts (view_form c)
  = negb (negb (JS.truthy (ManualTradingView.amount (ManualTradingView.form c)))
          || JS.le0 (JS.parseFloat
                       (ManualTradingView.amount (ManualTradingView.form c))))
    && negb (is_limit (ManualTradingView.orderType (ManualTradingView.form c))
             && (negb (JS.truthy
                         (ManualTradingView.price (ManualTradingView.form c)))
                 || JS.le0 (JS.parseFloat
                              (ManualTradingView.price
                                 (ManualTradingView.form c))))).
Proof.
  unfold accepts, view_form, quantity_of, price_of. simpl.
  destruct (JS.truthy _), (JS.le0 _), (is_limit _), (JS.truthy _), (JS.le0 _);
    reflexivity.
Qed.

Lemma panel_guard_accepts (c : OKXTradingPanel.State) :
  accepts (panel_form c)
  = negb (negb (JS.truthy (OKXTradingPanel.quantity c))
          || JS.le0 (JS.parseFloat (OKXTradingPanel.quantity c)))
    && negb (is_limit (OKXTradingPanel.orderType c)
             && (negb (JS.truthy (OKXTradingPanel.price c))
                 || JS.le0 (JS.parseFloat (OKXTradingPanel.price c)))).
Proof.
  unfold accepts, panel_form, quantity_of, price_of. simpl.
  destruct (JS.truthy _), (JS.le0 _), (is_limit _), (JS.truthy _), (JS.le0 _);
    reflexivity.
Qed.

(** X11. The trading views refresh their data after a placement exactly when
    it succeeded.  The requests of [handleSubmitOrder] are: none for a form
    that is not accepted; the placement alone when it throws or answers
    [success = false]; the placement followed by the queries for balance,
    positions and open orders when it answers [success]. *)
Theorem submit_refreshes_only_on_success :
  forall (accountId : Z) (w : Remote)
         (c2 : ManualTradingView2.State) (c : ManualTradingView.State),
    let place2 := placeOKXOrder accountId (ManualTradingView2.orderRequest c2)
                    (ManualTradingView2.posSide (ManualTradingView2.form c2)) in
    network (log_of (run (ManualTradingView2.handleSubmitOrder accountId c2) w c2))
    = (if accepts (view2_form c2)
       then Call place2
            :: (if succeeded (api w place2)
                then [Call (getOKXBalance accountId);
                      Call (getOKXPositions accountId);
                      Call (getOKXOpenOrders accountId)]
                else [])
       else [])
    /\ network (log_of (run (ManualTradingView.handleSubmitOrder c) w c))
       = (if accepts (view_form c)
          then Fetch (view_request c)
               :: (if succeeded
                        (outcome_of
                           (run (Api.placeOKXOrder (ManualTradingView.orderRequest c))
                              w c))
                   then [Fetch (api_request "/okx-account/balance" GET []);
                         Fetch (api_request "/okx-account/positions" GET []);
                         Fetch (api_request "/okx-account/orders/open" GET [])]
                   else [])
          else []).
Proof.
  intros accountId w c2 c place2. split.
  - rewrite view2_guard_accepts.
    unfold run, ManualTradingView2.handleSubmitOrder.
    destruct (negb (JS.truthy _) || JS.le0 _); [reflexivity |].
    destruct (is_limit _ && _); [reflexivity |]. simpl.
    unfold bind, set, try_finally, try_catch, call, emit, unawaited, log_of.
    simpl. fold place2.
    destruct (api w place2) as [result | e]; simpl; [| reflexivity].
    destruct (Res.success result); simpl; [| reflexivity].
    match goal with
    | |- context [ManualTradingView2.fetchAllData accountId w ?s] =>
        pose proof (view2_fetchAllData_network accountId w s) as K;
        unfold log_of in K;
        destruct (ManualTradingView2.fetchAllData accountId w s) as [[o1 s1] l1]
    end.
    simpl in *. unfold network in *. rewrite app_nil_r.
    simpl. now rewrite K.
  - rewrite view_guard_accepts.
    unfold run, ManualTradingView.handleSubmitOrder.
    destruct (negb (JS.truthy _) || JS.le0 _); [reflexivity |].
    destruct (is_limit _ && _); [reflexivity |]. simpl.
    unfold Api.placeOKXOrder.
    unfold bind at 1. unfold set at 1. unfold try_finally, try_catch, bind.
    rewrite json_of_run.
    rewrite (json_of_outcome _ _ _ w (ManualTradingView.setIsSubmitting true c) c).
    destruct (outcome_of (Api.json_of _ _ _ w c)) as [result | e];
      unfold emit, set, unawaited, log_of; simpl; [| reflexivity].
    destruct (Res.success result); simpl; [| reflexivity].
    match goal with
    | |- context [ManualTradingView.fetchAllData w ?s] =>
        pose proof (proj1 (view_fetchAllData_run w s)) as K;
        unfold log_of in K;
        destruct (ManualTradingView.fetchAllData w s) as [[o1 s1] l1]
    end.
    simpl in *. unfold network in *. rewrite app_nil_r.
    simpl. now rewrite K.
Qed.

(* ===================================================================== *)
(** ** Submitting: what the user is told *)
(* ===================================================================== *)

(** The toasts of [handleSubmitOrder] of ManualTradingView.tsx when the
    placement does not succeed. *)
Lemma view_submit_failure (w : Remote) (c : ManualTradingView.State) :
  accepts (view_form c) = true ->
  let o := outcome_of (Api.json_of "/okx-account/order" POST
                         (Api.backendRequest (ManualTradingView.orderRequest c))
                         w c) in
  succeeded o = false ->
  toasts (log_of (ManualTradingView.handleSubmitOrder c w c))
  = [Toast toast_error
       match o with
       | Val result => JS.or_else (Res.error result) "Failed to place order"
       | Exn e => JS.or_else (message e) "Failed to place order"
       end].
Proof.
  intros A o. unfold o. clear o. rewrite view_guard_accepts in A.
  unfold ManualTradingView.handleSubmitOrder.
  destruct (negb (JS.truthy _) || JS.le0 _); [discriminate A |].
  destruct (is_limit _ && _); [discriminate A |]. simpl.
  unfold Api.placeOKXOrder.
  unfold bind at 1. unfold set at 1. unfold try_finally, try_catch, bind.
  rewrite (json_of_run _ _ _ w (ManualTradingView.setIsSubmitting true c)).
  rewrite (json_of_outcome _ _ _ w (ManualTradingView.setIsSubmitting true c) c).
  destruct (outcome_of (Api.json_of _ _ _ w c)) as [result | e];
    unfold emit, set, unawaited, log_of; simpl; [| reflexivity].
  destruct (Res.success result); simpl; [discriminate | reflexivity].
Qed.

(** X12. What the user is told when the order endpoint refuses an order
    placed from ManualTradingView.tsx.  A response that is not ok is reported
    by its status alone, whatever reason its body gives; the reason of the
    server is shown only when the response is ok and its body has
    [success = false], and then it is the [error] of the body.  In both cases
    the order endpoint was asked once and nothing else. *)
Theorem refused_order_is_reported_by_status :
  forall (w : Remote) (c : ManualTradingView.State) (response : HttpResponse),
    accepts (view_form c) = true ->
    http w (view_request c) = Val response ->
    let r := run (ManualTradingView.handleSubmitOrder c) w c in
    (h_ok response = false ->
     toasts (log_of r)
     = [Toast toast_error ("HTTP error! status: " +:+ Api.Z_str (h_status response))]
     /\ network (log_of r) = [Fetch (view_request c)])
    /\ (forall contentType result,
          h_ok response = true ->
          h_content_type response = Some contentType ->
          Api.includes "application/json" contentType = true ->
          h_json response = Val result ->
          Res.success result = false ->
          toasts (log_of r)
          = [Toast toast_error (JS.or_else (Res.error result) "Failed to place order")]
          /\ network (log_of r) = [Fetch (view_request c)]).
Proof.
  intros w c response A H r. unfold r, run, view_request in *.
  assert (N : forall o,
             outcome_of (Api.json_of "/okx-account/order" POST
                           (Api.backendRequest (ManualTradingView.orderRequest c))
                           w c) = o ->
             succeeded o = false ->
             network (log_of (ManualTradingView.handleSubmitOrder c w c))
             = [Fetch (api_request "/okx-account/order" POST
                         (Api.backendRequest (ManualTradingView.orderRequest c)))]).
  { intros o E F. clear H.
    rewrite view_guard_accepts in A.
    unfold ManualTradingView.handleSubmitOrder.
    destruct (negb (JS.truthy _) || JS.le0 _); [discriminate A |].
    destruct (is_limit _ && _); [discriminate A |]. simpl.
    unfold Api.placeOKXOrder.
    unfold bind at 1. unfold set at 1. unfold try_finally, try_catch, bind.
    rewrite (json_of_run _ _ _ w (ManualTradingView.setIsSubmitting true c)).
    rewrite (json_of_outcome _ _ _ w (ManualTradingView.setIsSubmitting true c) c).
    rewrite E.
    destruct o as [result | e]; unfold emit, set, unawaited, log_of; simpl;
      [| reflexivity].
    simpl in F. rewrite F. reflexivity. }
  split.
  - intros Hok.
    pose proof (json_of_not_ok _ _ _ w c response H Hok) as T.
    split.
    + rewrite (view_submit_failure w c A); rewrite T; reflexivity.
    + apply (N _ T). reflexivity.
  - intros contentType result Hok Hct Hin Hj Hs.
    assert (T : outcome_of (Api.json_of "/okx-account/order" POST
                              (Api.backendRequest (ManualTradingView.orderRequest c))
                              w c) = Val result).
    { unfold Api.json_of, Api.apiRequest, bind, fetch, settle, outcome_of,
        Api.API_BASE_URL.
      unfold api_request in H. rewrite H. simpl. rewrite Hok, Hct. simpl.
      rewrite Hin. simpl. now rewrite Hj. }
    split.
    + rewrite (view_submit_failure w c A); rewrite T; simpl; [reflexivity | exact Hs].
    + apply (N _ T). exact Hs.
Qed.

Lemma refused_order_is_reported_by_status_witness :
  toasts (log_of (run (ManualTradingView.handleSubmitOrder (view_with "2" "" market))
                    (responding bad_request) (view_with "2" "" market)))
  = [Toast toast_error "HTTP error! status: 400"].
Proof.
  pose proof (refused_order_is_reported_by_status (responding bad_request)
                (view_with "2" "" market) bad_request) as H.
  apply H; reflexivity.
Defined.

(* ===================================================================== *)
(** ** The trading panel *)
(* ===================================================================== *)

(** X13. Placing an order from the trading panel, once the form is accepted.
    One request goes to the order endpoint.  [loading] is false again on
    every path, and symbol, side and order type are what they were.  The
    panel reads the body of the answer whatever its status: with [success],
    quantity and price are reset to ["0.001"] and the empty text and, when
    the [onRefresh] prop is given, a refresh is scheduled after a second;
    otherwise quantity and price are kept and no refresh is scheduled.  One
    toast is shown: after a success it names the order id of the body, and
    [undefined] where the body has none; after a refusal, the error of the
    body or "Unknown error"; after a failure of the request, neither. *)
Theorem panel_order_is_atomic_for_the_form :
  forall (onRefresh : bool) (w : Remote) (c : OKXTradingPanel.State),
    accepts (panel_form c) = true ->
    let r := run (OKXTradingPanel.handlePlaceOrder onRefresh c) w c in
    let s' := state_of r in
    let o := panel_answer w c in
    network (log_of r) = [Fetch (panel_request c)]
    /\ OKXTradingPanel.loading s' = false
    /\ OKXTradingPanel.symbol s' = OKXTradingPanel.symbol c
    /\ OKXTradingPanel.side s' = OKXTradingPanel.side c
    /\ OKXTradingPanel.orderType s' = OKXTradingPanel.orderType c
    /\ OKXTradingPanel.quantity s'
       = (if succeeded o then "0.001" else OKXTradingPanel.quantity c)
    /\ OKXTradingPanel.price s'
       = (if succeeded o then "" else OKXTradingPanel.price c)
    /\ List.filter is_timeout (log_of r)
       = (if succeeded o && onRefresh then [SetTimeout 1000] else [])
    /\ toasts (log_of r)
       = [match o with
          | Val data =>
              if Res.success data
              then Toast toast_success
                     ("Order placed successfully: "
                      +:+ default "undefined" (Res.order_id data))
              else Toast toast_error
                     ("Failed to place order: "
                      +:+ JS.or_else (Res.error data) "Unknown error")
          | Exn _ => Toast toast_error "Failed to place order"
          end].
Proof.
  intros onRefresh w c A r s' o. unfold s', o, r, run, panel_answer, panel_request.
  rewrite panel_guard_accepts in A.
  unfold OKXTradingPanel.handlePlaceOrder.
  destruct (negb (JS.truthy _) || JS.le0 _); [discriminate A |].
  destruct (is_limit _ && _); [discriminate A |]. simpl.
  unfold bind, set, try_finally, try_catch, fetch, settle, emit, when, ret,
    state_of, log_of, network, toasts.
  simpl.
  destruct (http w _) as [response | e]; simpl; [| repeat split].
  destruct (h_json response) as [data | e]; simpl; [| repeat split].
  destruct (Res.success data); simpl; [| repeat split].
  destruct onRefresh; repeat split.
Qed.

Lemma panel_order_is_atomic_for_the_form_witness :
  OKXTradingPanel.loading
    (state_of (run (OKXTradingPanel.handlePlaceOrder true (panel_with "2" "" market))
                 offline (panel_with "2" "" market)))
  = false.
Proof.
  pose proof (panel_order_is_atomic_for_the_form true offline
                (panel_with "2" "" market)) as H.
  apply H. reflexivity.
Defined.

(* ===================================================================== *)
(** ** What an order carries *)
(* ===================================================================== *)

Lemma json_of_number_finite (x n : JS.number) :
  json_of_number x = JNum n -> exists q, n = JS.Fin q.
Proof. destruct x; try discriminate. intros [= <-]. eauto. Qed.

Lemma not_le0_json (x : JS.number) :
  JS.le0 x = false -> json_of_number x = JNull \/ positive_json (json_of_number x).
Proof.
  destruct x as [| | | q]; simpl; intros H; try (now left); try discriminate.
  right. exists q. split; [reflexivity |].
  destruct (Qlt_le_dec 0 q) as [L | L]; [exact L |].
  apply Qle_bool_iff in L. congruence.
Qed.

(** X14. The body of an order of ManualTradingView.tsx and of the trading
    panel.  It has symbol, side, quantity and order type, and a price exactly
    when the order is a limit order: the price text of a market order is not
    sent.  A number is written only when it is finite.  For a form that is
    accepted, the quantity, and the price of a limit order, is a number above
    zero or [null], never zero or below. *)
Theorem order_body_has_price_only_for_limit :
  forall (c : ManualTradingView.State) (p : OKXTradingPanel.State),
    let body := Api.backendRequest (ManualTradingView.orderRequest c) in
    let body' := OKXTradingPanel.order_body p in
    map fst body
    = ["symbol"; "side"; "quantity"; "order_type"]
      ++ (if is_limit (ManualTradingView.orderType (ManualTradingView.form c))
          then ["price"] else [])
    /\ map fst body'
       = ["symbol"; "side"; "order_type"; "quantity"]
         ++ (if is_limit (OKXTradingPanel.orderType p) then ["price"] else [])
    /\ (forall k n, In (k, JNum n) body \/ In (k, JNum n) body' ->
                    exists q, n = JS.Fin q)
    /\ (accepts (view_form c) = true ->
        forall k j, In (k, j) body -> k = "quantity" \/ k = "price" ->
                    j = JNull \/ positive_json j)
    /\ (accepts (panel_form p) = true ->
        forall k j, In (k, j) body' -> k = "quantity" \/ k = "price" ->
                    j = JNull \/ positive_json j).
Proof.
  intros c p body body'. unfold body, body', Api.backendRequest,
    OKXTradingPanel.order_body, ManualTradingView.orderRequest.
  cbn [r_symbol r_side r_quantity r_orderType r_price].
  split; [| split; [| split; [| split]]].
  - destruct (is_limit _); reflexivity.
  - destruct (is_limit _); reflexivity.
  - intros k n [H | H]; destruct (is_limit _); simpl in H; intuition;
      match goal with
      | E : (_, _) = (_, JNum _) |- _ => injection E as _ E
      end;
      try discriminate; eauto using json_of_number_finite.
  - intros A. apply accepts_passes in A. destruct A as (_ & Q & P).
    unfold view_form, quantity_of, price_of in *. simpl in *.
    intros k j H K.
    destruct (ManualTradingView.orderType (ManualTradingView.form c)) eqn:T;
      simpl in H.
    + destruct H as [H | [H | [H | [H | []]]]]; injection H as <- <-;
        destruct K as [K | K]; try discriminate K.
      now apply not_le0_json.
    + destruct (P eq_refl) as [_ P'].
      destruct H as [H | [H | [H | [H | [H | []]]]]]; injection H as <- <-;
        destruct K as [K | K]; try discriminate K; now apply not_le0_json.
  - intros A. apply accepts_passes in A. destruct A as (_ & Q & P).
    unfold panel_form, quantity_of, price_of in *. simpl in *.
    intros k j H K.
    destruct (OKXTradingPanel.orderType p) eqn:T; simpl in H.
    + destruct H as [H | [H | [H | [H | []]]]]; injection H as <- <-;
        destruct K as [K | K]; try discriminate K.
      now apply not_le0_json.
    + destruct (P eq_refl) as [_ P'].
      destruct H as [H | [H | [H | [H | [H | []]]]]]; injection H as <- <-;
        destruct K as [K | K]; try discriminate K; now apply not_le0_json.
Qed.

Lemma order_body_has_price_only_for_limit_witness :
  JNum (JS.Fin 2) = JNull \/ positive_json (JNum (JS.Fin 2)).
Proof.
  pose proof (order_body_has_price_only_for_limit (view_with "2" "" market)
                (panel_with "2" "" market)) as (_ & _ & _ & H & _).
  apply (H eq_refl "quantity"); [simpl; auto | now left].
Defined.

(* ===================================================================== *)
(** ** main.tsx: the reference to the socket *)
(* ===================================================================== *)

Lemma Ref_step l w :
  Conn w -> wsRef w = __WS_SINGLETON__ w ->
  wsRef (step l w) = __WS_SINGLETON__ (step l w).
Proof.
  intros C R. destruct l as [i | i m | i | i code | t ok]; simpl.
  - destruct (sockets w !! i) as [s |]; [| exact R].
    destruct (readyState s); try exact R.
    unfold handleOpen.
    destruct (send_fields (listener s) bootstrapMsg (setState i OPEN w))
      as (_ & -> & -> & _). exact R.
  - destruct (sockets w !! i) as [s |]; [| exact R].
    destruct (readyState s); try exact R.
    unfold handleMessage.
    destruct m; try exact R;
      destruct (send_fields (listener s) get_snapshot w) as (_ & -> & -> & _);
      exact R.
  - destruct (stateOf w i) as [[] |]; exact R.
  - destruct (sockets w !! i) as [s |] eqn:E; [| exact R].
    assert (X : readyState s <> CLOSED ->
                wsRef (handleClose (listener s) code (setState i CLOSED w))
                = __WS_SINGLETON__
                    (handleClose (listener s) code (setState i CLOSED w))).
    { intros N.
      pose proof (conn_live w C i s E N) as Hs.
      destruct (conn_single w C i Hs) as (s0 & E0 & _ & W).
      rewrite E in E0. injection E0 as <-.
      rewrite (proj1 (proj2 (handleClose_fields _ _ _))).
      unfold handleClose.
      change (wsOf (setState i CLOSED w) (listener s)) with (wsOf w (listener s)).
      change (wsRef (setState i CLOSED w)) with (wsRef w).
      rewrite W, R, Hs.
      destruct (abnormal code); simpl;
        (destruct (decide (Some i = Some i)); [reflexivity | done]). }
    destruct (readyState s); try exact R; apply X; discriminate.
  - destruct (timers w !! t) as [x |]; [| exact R].
    destruct (t_state x); try exact R.
    unfold connectWebSocket. destruct ok; [reflexivity |]. exact R.
Qed.

Lemma Ref_mount twice ok ok' :
  wsRef (mount twice ok ok') = __WS_SINGLETON__ (mount twice ok ok').
Proof. destruct twice, ok, ok'; reflexivity. Qed.

Lemma reachable_ref w : reachable w -> wsRef w = __WS_SINGLETON__ w.
Proof.
  induction 1 as [twice ok ok' | w l Hr IH].
  - apply Ref_mount.
  - apply Ref_step; [apply (reachable_inv w Hr) | exact IH].
Qed.

Lemma live_lookup w i :
  In i (live w) <-> exists s, sockets w !! i = Some s /\ readyState s <> CLOSED.
Proof.
  unfold live. rewrite List.filter_In, in_seq. unfold stateOf. split.
  - intros [_ H]. destruct (sockets w !! i) as [s |]; [| discriminate].
    exists s. split; [reflexivity |]. simpl in H. now destruct (readyState s).
  - intros (s & E & N). split.
    + apply lookup_lt_Some in E. lia.
    + rewrite E. simpl. now destruct (readyState s).
Qed.

(** X15. [wsRef.current] is the live socket.  In every state of the
    lifecycle the reference and the singleton agree; a socket the reference
    names is not closed; a socket that is not closed is the one the reference
    names; and when the reference is null no socket is live. *)
Theorem reference_is_the_live_socket :
  forall w : World, reachable w ->
    wsRef w = __WS_SINGLETON__ w
    /\ (forall i, wsRef w = Some i ->
                  exists s, sockets w !! i = Some s /\ readyState s <> CLOSED)
    /\ (forall i s, sockets w !! i = Some s -> readyState s <> CLOSED ->
                    wsRef w = Some i)
    /\ (wsRef w = None -> live w = []).
Proof.
  intros w Hr. pose proof (reachable_ref w Hr) as R.
  destruct (reachable_inv w Hr) as [C _].
  split; [exact R |]. split; [| split].
  - intros i Hi. rewrite R in Hi.
    destruct (conn_single w C i Hi) as (s & E & N & _). eauto.
  - intros i s E N. rewrite R. apply (conn_live w C i s E N).
  - intros Hn. destruct (live w) as [| j r] eqn:L; [reflexivity |].
    pose proof (live_singleton w C j) as H. rewrite L, <- R, Hn in H.
    discriminate H. now left.
Qed.

Lemma reference_is_the_live_socket_witness :
  wsRef (step (Closes 0 1006) (step (Opens 0) (mount true true true))) = None.
Proof.
  pose proof (reference_is_the_live_socket
                (step (Closes 0 1006) (step (Opens 0) (mount true true true))))
    as (H & _).
  - repeat apply reach_step. apply reach_mount.
  - rewrite H. reflexivity.
Defined.

(* ===================================================================== *)
(** ** main.tsx: the commands of [App] *)
(* ===================================================================== *)

Lemma connected_open w i :
  reachable w -> (App.connected w = Some i <-> stateOf w i = Some OPEN).
Proof.
  intros Hr. pose proof (reachable_ref w Hr) as R.
  destruct (reachable_inv w Hr) as [C _].
  unfold App.connected. split.
  - destruct (wsRef w) as [j |]; [| discriminate].
    destruct (stateOf w j) as [[] |] eqn:E; try discriminate.
    now intros [= <-].
  - intros O. unfold stateOf in O.
    destruct (sockets w !! i) as [s |] eqn:E; [| discriminate].
    simpl in O. injection O as O.
    assert (N : readyState s <> CLOSED) by congruence.
    rewrite R, (conn_live w C i s E N). unfold stateOf. rewrite E. simpl.
    now rewrite O.
Qed.

Lemma connected_none w :
  reachable w ->
  (App.connected w = None <-> forall i, stateOf w i <> Some OPEN).
Proof.
  intros Hr. split.
  - intros H i O. apply (connected_open w i Hr) in O. congruence.
  - intros H. destruct (App.connected w) as [i |] eqn:E; [| reflexivity].
    apply (connected_open w i Hr) in E. now elim (H i).
Qed.

(** X16. [switchUser], [switchAccount], [refreshData] and
    [handleAccountUpdated] send on the open socket, and refuse only when there
    is none.  In every state of the lifecycle: when a socket is open, each of
    them sends its one message on that socket; when no socket is open,
    nothing is sent, the two switch handlers show the toast that the server
    is not connected, and the other two send nothing and show nothing. *)
Theorem commands_go_out_on_the_open_socket :
  forall w : World, reachable w ->
  forall (username : string) (accountId : Z),
    (forall i, stateOf w i = Some OPEN ->
       App.switchUser username w
       = (Some (i, App.switch_user username),
          [App.notice toast_plain "Switching account..."])
       /\ App.switchAccount accountId w
          = (Some (i, App.switch_account accountId),
             [App.notice toast_plain "Switching account..."])
       /\ App.refreshData w = (Some (i, App.command get_snapshot), [])
       /\ forall n, App.handleAccountUpdated n w
                    = ((n + 1)%Z, (Some (i, App.command get_snapshot), [])))
    /\ ((forall i, stateOf w i <> Some OPEN) ->
        App.switchUser username w
        = (None, [App.console_warn "WS not connected, cannot switch user";
                  App.notice toast_error "Not connected to server"])
        /\ App.switchAccount accountId w
           = (None, [App.console_warn "WS not connected, cannot switch account";
                     App.notice toast_error "Not connected to server"])
        /\ App.refreshData w = (None, [])
        /\ forall n, App.handleAccountUpdated n w = ((n + 1)%Z, (None, []))).
Proof.
  intros w Hr username accountId. split.
  - intros i O. apply (connected_open w i Hr) in O.
    unfold App.handleAccountUpdated, App.switchUser, App.switchAccount,
      App.refreshData. rewrite O. auto.
  - intros H. apply (connected_none w Hr) in H.
    unfold App.handleAccountUpdated, App.switchUser, App.switchAccount,
      App.refreshData. rewrite H. auto.
Qed.

Lemma commands_go_out_on_the_open_socket_witness :
  App.switchUser "alice" (step (Opens 0) (mount false true true))
  = (Some (0, App.switch_user "alice"),
     [App.notice toast_plain "Switching account..."]).
Proof.
  pose proof (commands_go_out_on_the_open_socket
                (step (Opens 0) (mount false true true))) as H.
  apply H.
  - apply reach_step, reach_mount.
  - exact 0%Z.
  - reflexivity.
Defined.

(* ===================================================================== *)
(** ** main.tsx: the reconnection timers *)
(* ===================================================================== *)

Lemma pending_In w t : In t (pending w) <-> is_pending w t = true.
Proof.
  unfold pending. rewrite List.filter_In, in_seq. split; [tauto |].
  intros H. split; [| exact H]. pose proof (is_pending_not_yet w t H). lia.
Qed.

Lemma pending_at_most_one w : Conn w -> length (pending w) <= 1.
Proof.
  intros C. destruct (pending w) as [| a [| b r]] eqn:P; simpl; try lia.
  assert (N : List.NoDup (pending w))
    by (unfold pending; apply List.NoDup_filter, List.seq_NoDup).
  assert (Ha : is_pending w a = true) by (apply pending_In; rewrite P; now left).
  assert (Hb : is_pending w b = true)
    by (apply pending_In; rewrite P; right; now left).
  pose proof (conn_timer w C a b Ha Hb) as ->.
  rewrite P in N. inversion N as [| ? ? Hn _]. elim Hn. now left.
Qed.

Lemma pending_none w : (forall t, is_pending w t = false) -> pending w = [].
Proof.
  intros H. destruct (pending w) as [| a r] eqn:P; [reflexivity |].
  assert (Ha : is_pending w a = true) by (apply pending_In; rewrite P; now left).
  rewrite H in Ha. discriminate.
Qed.

(** X17. Reconnection attempts never pile up.  In every state of the
    lifecycle at most one reconnection timer is pending, and none while a
    socket is live: live sockets and pending timers together are at most
    one. *)
Theorem reconnections_never_pile_up :
  forall w : World, reachable w ->
    length (pending w) <= 1
    /\ (live w <> [] -> pending w = [])
    /\ length (live w) + length (pending w) <= 1.
Proof.
  intros w Hr. destruct (reachable_inv w Hr) as [C _].
  assert (Q : live w <> [] -> pending w = []).
  { intros L. destruct (live w) as [| j r] eqn:E; [done |].
    assert (S : __WS_SINGLETON__ w = Some j)
      by (apply (live_singleton w C); rewrite E; now left).
    apply pending_none. intros t. apply (conn_quiet w C j t S). }
  split; [now apply pending_at_most_one |]. split; [exact Q |].
  pose proof (live_at_most_one w C). pose proof (pending_at_most_one w C).
  destruct (live w) as [| j r] eqn:E; [simpl; lia |].
  rewrite Q by discriminate. simpl in *. lia.
Qed.

Lemma reconnections_never_pile_up_witness :
  length (pending (step (TimerFires 0 false)
                     (step (Closes 0 1006) (mount false true true)))) <= 1.
Proof.
  apply reconnections_never_pile_up.
  repeat apply reach_step. apply reach_mount.
Defined.

(* ===================================================================== *)
(** ** main.tsx: a normal close is final *)
(* ===================================================================== *)

Lemma at_rest_step l w : at_rest w -> step l w = w.
Proof.
  intros [S T]. destruct l as [i | i m | i | i code | t ok]; simpl.
  - destruct (sockets w !! i) as [s |] eqn:E; [| reflexivity].
    now rewrite (S i s E).
  - destruct (sockets w !! i) as [s |] eqn:E; [| reflexivity].
    now rewrite (S i s E).
  - unfold stateOf. destruct (sockets w !! i) as [s |] eqn:E; [| reflexivity].
    simpl. now rewrite (S i s E).
  - destruct (sockets w !! i) as [s |] eqn:E; [| reflexivity].
    now rewrite (S i s E).
  - specialize (T t). unfold is_pending in T.
    destruct (timers w !! t) as [x |]; [| reflexivity].
    destruct (t_state x); [discriminate | reflexivity | reflexivity].
Qed.

Lemma at_rest_steps ls w : at_rest w -> steps ls w = w.
Proof.
  intros H. induction ls as [| l ls IH]; [reflexivity |].
  simpl. now rewrite (at_rest_step l w H).
Qed.

Lemma at_rest_quiet w : at_rest w -> live w = [] /\ pending w = [].
Proof.
  intros [S T]. split; [| now apply pending_none].
  destruct (live w) as [| j r] eqn:L; [reflexivity |].
  assert (Hj : In j (live w)) by (rewrite L; now left).
  apply live_lookup in Hj as (s & E & N). now elim N; apply (S j s).
Qed.

Lemma normal_close_rests w i s code :
  Conn w -> sockets w !! i = Some s -> readyState s <> CLOSED ->
  abnormal code = false ->
  at_rest (step (Closes i code) w).
Proof.
  intros C E N A.
  assert (X : step (Closes i code) w
              = handleClose (listener s) code (setState i CLOSED w)).
  { simpl. rewrite E. destruct (readyState s); congruence. }
  rewrite X.
  pose proof (conn_live w C i s E N) as Hs.
  destruct (handleClose_fields (listener s) code (setState i CLOSED w))
    as (F1 & _ & _ & F4 & _).
  split.
  - intros j s1 E1. rewrite F1 in E1.
    apply sockets_setState in E1 as (s0 & E0 & _ & R).
    destruct (decide (i = j)) as [-> | D]; [exact R |].
    rewrite R. destruct (closed_or_not (readyState s0)) as [K | K]; [exact K |].
    pose proof (conn_live w C j s0 E0 K) as Hj. congruence.
  - intros t. rewrite F4, A. simpl. rewrite orb_false_r.
    change (is_pending (setState i CLOSED w) t) with (is_pending w t).
    apply (conn_quiet w C i t Hs).
Qed.

(** X18. A close with code 1000 or 1001 ends the connection for good.  When
    a socket that is not closed gets such a close event in a state of the
    lifecycle, every socket is closed and no timer is pending afterwards, and
    whatever events follow change nothing: no socket is constructed, nothing
    is sent, until the page is loaded again. *)
Theorem normal_close_is_final :
  forall (w : World) (i : nat) (s : Socket) (code : Z),
    reachable w -> sockets w !! i = Some s -> readyState s <> CLOSED ->
    code = 1000%Z \/ code = 1001%Z ->
    let w' := step (Closes i code) w in
    live w' = [] /\ pending w' = [] /\ wsRef w' = None
    /\ forall ls, steps ls w' = w'.
Proof.
  intros w i s code Hr E N A w'.
  destruct (reachable_inv w Hr) as [C _].
  assert (A' : abnormal code = false).
  { destruct (abnormal code) eqn:X; [| reflexivity].
    apply abnormal_spec in X. lia. }
  pose proof (normal_close_rests w i s code C E N A') as Q. fold w' in Q.
  destruct (at_rest_quiet w' Q) as [L P].
  split; [exact L |]. split; [exact P |]. split.
  - assert (Hr' : reachable w') by (apply reach_step; exact Hr).
    rewrite (reachable_ref w' Hr'). unfold w'. simpl. rewrite E.
    destruct (readyState s); try congruence; apply handleClose_fields.
  - intros ls. now apply at_rest_steps.
Qed.

Lemma normal_close_is_final_witness :
  steps [TimerFires 0 true; Opens 0; Opens 1; Receives 0 bootstrap_ok]
    (step (Closes 0 1001) (step (Opens 0) (mount false true true)))
  = step (Closes 0 1001) (step (Opens 0) (mount false true true)).
Proof.
  pose proof (normal_close_is_final (step (Opens 0) (mount false true true)) 0
                {| readyState := OPEN; listener := 0 |} 1001%Z) as H.
  apply H.
  - apply reach_step, reach_mount.
  - reflexivity.
  - discriminate.
  - now right.
Defined.

(* ===================================================================== *)
(** ** main.tsx: the answers of the client *)
(* ===================================================================== *)

(** A message sent in the run that listens on the singleton goes out on the
    singleton when it is open. *)
Lemma send_on_listener w i s c :
  Conn w -> sockets w !! i = Some s -> readyState s = OPEN ->
  send (listener s) c w
  = {| sockets := sockets w; __WS_SINGLETON__ := __WS_SINGLETON__ w;
       wsRef := wsRef w; closures := closures w; timers := timers w;
       sent := sent w ++ [(i, c)] |}.
Proof.
  intros C E R.
  assert (N : readyState s <> CLOSED) by congruence.
  pose proof (conn_live w C i s E N) as Hs.
  destruct (conn_single w C i Hs) as (s0 & E0 & _ & W).
  rewrite E in E0. injection E0 as <-.
  unfold send. rewrite W. unfold stateOf. rewrite E. simpl. now rewrite R.
Qed.

(** X19. The snapshot is asked for on the socket the message came in on.  In
    every state of the lifecycle, a message [bootstrap_ok], [order_filled] or
    [order_pending] that arrives on an open socket is answered with one
    [get_snapshot] on that socket; every other message is answered with
    nothing; and no message changes the sockets, the singleton or the
    timers. *)
Theorem snapshot_is_asked_on_the_same_socket :
  forall (w : World) (i : nat) (m : ServerMsg),
    reachable w -> stateOf w i = Some OPEN ->
    let w' := step (Receives i m) w in
    sent w' = sent w ++ (if asks_snapshot m then [(i, get_snapshot)] else [])
    /\ sockets w' = sockets w
    /\ __WS_SINGLETON__ w' = __WS_SINGLETON__ w
    /\ timers w' = timers w.
Proof.
  intros w i m Hr O w'. destruct (reachable_inv w Hr) as [C _].
  unfold stateOf in O. destruct (sockets w !! i) as [s |] eqn:E; [| discriminate].
  simpl in O. injection O as O.
  unfold w'. simpl. rewrite E, O. unfold handleMessage.
  destruct m; simpl; rewrite ?app_nil_r; try (repeat split; fail);
    rewrite (send_on_listener w i s get_snapshot C E O); repeat split.
Qed.

Lemma snapshot_is_asked_on_the_same_socket_witness :
  sent (step (Receives 0 bootstrap_ok) (step (Opens 0) (mount false true true)))
  = [(0, bootstrapMsg); (0, get_snapshot)].
Proof.
  pose proof (snapshot_is_asked_on_the_same_socket
                (step (Opens 0) (mount false true true)) 0 bootstrap_ok) as H.
  apply H.
  - apply reach_step, reach_mount.
  - reflexivity.
Defined.

(** X20. After a close that is not normal the page connects again and
    introduces itself again.  From a state of the lifecycle in which a socket
    is not closed: its close with a code other than 1000 and 1001 leaves one
    pending timer; when that timer fires and the construction succeeds, the
    new socket is the one live socket, the singleton and the reference; and
    when the new socket opens it is sent the bootstrap command. *)
Theorem reconnection_bootstraps_again :
  forall (w : World) (i : nat) (s : Socket) (code : Z),
    reachable w -> sockets w !! i = Some s -> readyState s <> CLOSED ->
    code <> 1000%Z -> code <> 1001%Z ->
    let t := length (timers w) in
    let n := length (sockets w) in
    let w1 := step (Closes i code) w in
    let w2 := step (TimerFires t true) w1 in
    let w3 := step (Opens n) w2 in
    pending w1 = [t] /\ live w1 = []
    /\ live w2 = [n] /\ pending w2 = []
    /\ __WS_SINGLETON__ w2 = Some n /\ wsRef w2 = Some n
    /\ stateOf w3 n = Some OPEN
    /\ sent w3 = sent w ++ [(n, bootstrapMsg)].
Proof.
  intros w i s code Hr E N N1 N2 t n w1 w2 w3.
  destruct (reachable_inv w Hr) as [C _].
  assert (A : abnormal code = true) by (apply abnormal_spec; auto).
  pose proof (conn_live w C i s E N) as Hs.
  assert (X1 : w1 = handleClose (listener s) code (setState i CLOSED w)).
  { unfold w1. simpl. rewrite E. destruct (readyState s); congruence. }
  assert (R1 : reachable w1) by (apply reach_step; exact Hr).
  assert (R2 : reachable w2) by (apply reach_step; exact R1).
  destruct (reachable_inv w1 R1) as [C1 _].
  destruct (reachable_inv w2 R2) as [C2 _].
  assert (T1 : timers w1 = timers w ++ [{| t_closure := listener s; t_delay := 3000;
                                           t_state := Pending |}]).
  { rewrite X1. unfold handleClose. now rewrite A. }
  assert (S1 : sockets w1 = alter (fun s => {| readyState := CLOSED;
                                               listener := listener s |}) i
                              (sockets w)).
  { rewrite X1. now rewrite (proj1 (handleClose_fields _ _ _)). }
  assert (P1 : is_pending w1 t = true).
  { unfold is_pending. rewrite T1. unfold t.
    now rewrite lookup_app_r, Nat.sub_diag by lia. }
  assert (L1 : live w1 = []).
  { destruct (live w1) as [| j r] eqn:L; [reflexivity |].
    pose proof (live_singleton w1 C1 j) as H. rewrite L in H.
    rewrite X1, (proj1 (proj2 (handleClose_fields _ _ _))) in H.
    discriminate H. now left. }
  assert (X2 : w2 = connectWebSocket (listener s) true (setTimer t Fired w1)).
  { unfold w2. simpl. rewrite T1. unfold t.
    now rewrite lookup_app_r, Nat.sub_diag by lia. }
  assert (Ln : length (sockets w1) = n)
    by (rewrite S1; apply length_alter).
  assert (S2 : sockets w2 = sockets w1 ++ [{| readyState := CONNECTING;
                                              listener := listener s |}]).
  { rewrite X2. reflexivity. }
  assert (G2 : __WS_SINGLETON__ w2 = Some n).
  { rewrite X2. unfold connectWebSocket. simpl. now rewrite Ln. }
  assert (O2 : stateOf w2 n = Some CONNECTING).
  { unfold stateOf. rewrite S2, <- Ln.
    now rewrite lookup_app_r, Nat.sub_diag by lia. }
  split.
  { assert (In t (pending w1)) as Hin by now apply pending_In.
    pose proof (pending_at_most_one w1 C1) as B.
    destruct (pending w1) as [| a [| b r]]; simpl in *; [done | | lia].
    destruct Hin as [-> | []]. reflexivity. }
  split; [exact L1 |]. split.
  { assert (In n (live w2)) as Hin.
    { apply live_lookup. unfold stateOf in O2.
      destruct (sockets w2 !! n) as [s2 |]; [| discriminate].
      exists s2. split; [reflexivity |]. simpl in O2. injection O2 as O2.
      congruence. }
    pose proof (live_at_most_one w2 C2) as B.
    destruct (live w2) as [| a [| b r]]; simpl in *; [done | | lia].
    destruct Hin as [-> | []]. reflexivity. }
  split.
  { apply pending_none. intros t'. apply (conn_quiet w2 C2 n t' G2). }
  split; [exact G2 |].
  split; [now rewrite (reachable_ref w2 R2) |].
  assert (E2 : sockets w2 !! n = Some {| readyState := CONNECTING;
                                          listener := listener s |}).
  { rewrite S2, <- Ln. now rewrite lookup_app_r, Nat.sub_diag by lia. }
  assert (X3 : w3 = handleOpen (listener s) (setState n OPEN w2)).
  { unfold w3. simpl. now rewrite E2. }
  assert (C2' : Conn (setState n OPEN w2)).
  { apply (Conn_setState w2 n OPEN {| readyState := CONNECTING;
                                       listener := listener s |});
      [exact C2 | exact E2 | discriminate | discriminate]. }
  assert (E3 : sockets (setState n OPEN w2) !! n
               = Some {| readyState := OPEN; listener := listener s |}).
  { unfold setState. simpl. rewrite list_lookup_alter_eq, E2. reflexivity. }
  rewrite X3. unfold handleOpen.
  pose proof (send_on_listener (setState n OPEN w2) n
                {| readyState := OPEN; listener := listener s |} bootstrapMsg C2' E3
                eq_refl) as Z.
  cbn [listener] in Z. rewrite Z. clear Z.
  split.
  - unfold stateOf. simpl. rewrite list_lookup_alter_eq, E2. reflexivity.
  - simpl. f_equal. rewrite X2. unfold connectWebSocket. simpl.
    rewrite X1, sent_handleClose. reflexivity.
Qed.

Lemma reconnection_bootstraps_again_witness :
  sent (step (Opens 1)
          (step (TimerFires 0 true)
             (step (Closes 0 1006) (mount false true true))))
  = [(1, bootstrapMsg)].
Proof.
  pose proof (reconnection_bootstraps_again (mount false true true) 0
                {| readyState := CONNECTING; listener := 0 |} 1006%Z) as H.
  apply H.
  - apply reach_mount.
  - reflexivity.
  - discriminate.
  - discriminate.
  - discriminate.
Defined.

(* ===================================================================== *)
(** ** main.tsx: when the page is rendered *)
(* ===================================================================== *)

Lemma kind_get (msg : App.Value) (m : ServerMsg) (k : string) :
  App.kind msg = Val m -> App.get k msg = Val (App.prop k msg).
Proof. destruct msg; simpl; intros H; first [discriminate H | reflexivity]. Qed.

Lemma get_defined (k : string) (v x : App.Value) :
  App.get k v = Val x -> defined v.
Proof. destruct v; simpl; intros H; try discriminate H; split; discriminate. Qed.

Lemma handleData_user (m : option App.Value) (d : App.Data) :
  App.user (App.data (App.handleData m d)) = App.user d
  \/ exists msg, m = Some msg
       /\ (App.kind msg = Val bootstrap_ok \/ App.kind msg = Val user_switched)
       /\ App.get "user" msg = Val (App.user (App.data (App.handleData m d))).
Proof.
  destruct m as [msg |]; [| now left]. unfold App.handleData.
  destruct (App.kind msg) as [[] | e] eqn:K; try (now left).
  - destruct (App.truthy (App.prop "user" msg)) eqn:T.
    + right. exists msg. split; [reflexivity |]. split; [now left |].
      rewrite (kind_get msg _ "user" K).
      now destruct (App.truthy (App.prop "account" msg)).
    + left. now destruct (App.truthy (App.prop "account" msg)).
  - destruct (App.get "username" (App.prop "user" msg)) as [name |];
      [destruct (App.printable name) |]; try (now left).
    right. exists msg. split; [reflexivity |]. split; [now right |].
    now rewrite (kind_get msg _ "user" K).
  - destruct (App.get "name" (App.prop "account" msg)) as [name |];
      [destruct (App.printable name) |]; now left.
Qed.

Lemma handleData_account (m : option App.Value) (d : App.Data) :
  App.account (App.data (App.handleData m d)) = App.account d
  \/ exists msg, m = Some msg
       /\ (App.kind msg = Val bootstrap_ok \/ App.kind msg = Val account_switched)
       /\ App.get "account" msg
          = Val (App.account (App.data (App.handleData m d))).
Proof.
  destruct m as [msg |]; [| now left]. unfold App.handleData.
  destruct (App.kind msg) as [[] | e] eqn:K; try (now left).
  - destruct (App.truthy (App.prop "account" msg)) eqn:T.
    + right. exists msg. split; [reflexivity |]. split; [now left |].
      now rewrite (kind_get msg _ "account" K).
    + left. now destruct (App.truthy (App.prop "user" msg)).
  - destruct (App.get "username" (App.prop "user" msg)) as [name |];
      [destruct (App.printable name) |]; now left.
  - destruct (App.get "name" (App.prop "account" msg)) as [name |];
      [destruct (App.printable name) |]; try (now left).
    right. exists msg. split; [reflexivity |]. split; [now right |].
    now rewrite (kind_get msg _ "account" K).
Qed.

Lemma handleData_overview (m : option App.Value) (d : App.Data) :
  App.overview (App.data (App.handleData m d)) = App.overview d
  \/ exists msg, m = Some msg /\ App.kind msg = Val snapshot
       /\ App.get "overview" msg
          = Val (App.overview (App.data (App.handleData m d))).
Proof.
  destruct m as [msg |]; [| now left]. unfold App.handleData.
  destruct (App.kind msg) as [[] | e] eqn:K; try (now left).
  - left. now destruct (App.truthy (App.prop "user" msg)),
            (App.truthy (App.prop "account" msg)).
  - right. exists msg. split; [reflexivity |]. split; [exact K |].
    now rewrite (kind_get msg _ "overview" K).
  - destruct (App.get "username" (App.prop "user" msg)) as [name |];
      [destruct (App.printable name) |]; now left.
  - destruct (App.get "name" (App.prop "account" msg)) as [name |];
      [destruct (App.printable name) |]; now left.
Qed.

Lemma receive_user (ms : list (option App.Value)) : forall d,
  App.truthy (App.user (App.receive ms d)) = true ->
  App.user (App.receive ms d) = App.user d
  \/ exists msg, In (Some msg) ms
       /\ (App.kind msg = Val bootstrap_ok \/ App.kind msg = Val user_switched)
       /\ App.get "user" msg = Val (App.user (App.receive ms d)).
Proof.
  induction ms as [| m ms IH]; intros d H; [now left |].
  simpl in *. destruct (IH _ H) as [H1 | (msg & I & T & U)].
  - rewrite H1.
    destruct (handleData_user m d) as [E | (msg & -> & T & U)].
    + now left.
    + right. exists msg. split; [now left |]. now split.
  - right. exists msg. split; [now right | auto].
Qed.

Lemma receive_account (ms : list (option App.Value)) : forall d,
  App.truthy (App.account (App.receive ms d)) = true ->
  App.account (App.receive ms d) = App.account d
  \/ exists msg, In (Some msg) ms
       /\ (App.kind msg = Val bootstrap_ok \/ App.kind msg = Val account_switched)
       /\ App.get "account" msg = Val (App.account (App.receive ms d)).
Proof.
  induction ms as [| m ms IH]; intros d H; [now left |].
  simpl in *. destruct (IH _ H) as [H1 | (msg & I & T & U)].
  - rewrite H1.
    destruct (handleData_account m d) as [E | (msg & -> & T & U)].
    + now left.
    + right. exists msg. split; [now left |]. now split.
  - right. exists msg. split; [now right | auto].
Qed.

Lemma receive_overview (ms : list (option App.Value)) : forall d,
  App.truthy (App.overview (App.receive ms d)) = true ->
  App.overview (App.receive ms d) = App.overview d
  \/ exists msg, In (Some msg) ms /\ App.kind msg = Val snapshot
       /\ App.get "overview" msg = Val (App.overview (App.receive ms d)).
Proof.
  induction ms as [| m ms IH]; intros d H; [now left |].
  simpl in *. destruct (IH _ H) as [H1 | (msg & I & T & U)].
  - rewrite H1.
    destruct (handleData_overview m d) as [E | (msg & -> & T & U)].
    + now left.
    + right. exists msg. split; [now left |]. now split.
  - right. exists msg. split; [now right | auto].
Qed.

(** X21. The guard of the page, [!user || !account || !overview], lets the
    page through only after the server has introduced the user and the
    account and has sent a snapshot.  When it does so after the messages of a
    session, then among them are a [bootstrap_ok] or [user_switched] that
    carried the user held, a [bootstrap_ok] or [account_switched] that
    carried the account held, and a [snapshot] that carried the overview
    held.  Three messages take a page that was let through back to the text
    "Connecting to trading server...", and no other does: a [snapshot] whose
    overview is falsy or missing, and a [user_switched] or [account_switched]
    whose user or account is falsy without being [null] or missing ([false],
    [0], the empty string), on which the handler does not throw and stores
    the value. *)
Theorem page_is_rendered_after_bootstrap_and_snapshot :
  forall (ms : list (option App.Value)),
    App.rendered (App.receive ms App.initial) = true ->
    (exists msg,
        In (Some msg) ms
        /\ (App.kind msg = Val bootstrap_ok \/ App.kind msg = Val user_switched)
        /\ App.get "user" msg = Val (App.user (App.receive ms App.initial)))
    /\ (exists msg,
          In (Some msg) ms
          /\ (App.kind msg = Val bootstrap_ok
              \/ App.kind msg = Val account_switched)
          /\ App.get "account" msg
             = Val (App.account (App.receive ms App.initial)))
    /\ (exists msg,
          In (Some msg) ms /\ App.kind msg = Val snapshot
          /\ App.get "overview" msg
             = Val (App.overview (App.receive ms App.initial)))
    /\ (forall (d : App.Data) (m : option App.Value),
          App.rendered d = true ->
          (App.rendered (App.data (App.handleData m d)) = false
           <-> exists msg v,
                 m = Some msg /\ App.truthy v = false
                 /\ ((App.kind msg = Val snapshot
                      /\ App.get "overview" msg = Val v)
                     \/ (App.kind msg = Val user_switched
                         /\ App.get "user" msg = Val v /\ defined v)
                     \/ (App.kind msg = Val account_switched
                         /\ App.get "account" msg = Val v /\ defined v)))).
Proof.
  intros ms R. unfold App.rendered in R.
  apply andb_true_iff in R as [R O]. apply andb_true_iff in R as [U A].
  split; [| split; [| split]].
  - destruct (receive_user ms _ U) as [H | H]; [| exact H].
    rewrite H in U. discriminate U.
  - destruct (receive_account ms _ A) as [H | H]; [| exact H].
    rewrite H in A. discriminate A.
  - destruct (receive_overview ms _ O) as [H | H]; [| exact H].
    rewrite H in O. discriminate O.
  - clear. intros d m Rd. unfold App.rendered in *.
    apply andb_true_iff in Rd as [Rd O]. apply andb_true_iff in Rd as [U A].
    split.
    + destruct m as [msg |]; unfold App.handleData;
        [| simpl; rewrite U, A, O; discriminate].
      destruct (App.kind msg) as [[] | e] eqn:K; simpl;
        try (rewrite U, A, O; discriminate).
      * destruct (App.truthy (App.prop "user" msg)) eqn:Tu,
          (App.truthy (App.prop "account" msg)) eqn:Ta; simpl;
          rewrite ?Tu, ?Ta, ?U, ?A, ?O; discriminate.
      * rewrite U, A. simpl. intros T.
        exists msg, (App.prop "overview" msg). split; [reflexivity |].
        split; [exact T |]. left. split; [exact K |].
        apply (kind_get msg _ "overview" K).
      * destruct (App.get "username" (App.prop "user" msg)) as [name | e] eqn:G;
          [destruct (App.printable name) |]; simpl;
          try (rewrite U, A, O; discriminate).
        rewrite A, O, !andb_true_r. intros T.
        exists msg, (App.prop "user" msg). split; [reflexivity |].
        split; [exact T |]. right. left. split; [exact K |].
        split; [apply (kind_get msg _ "user" K) | apply (get_defined _ _ _ G)].
      * destruct (App.get "name" (App.prop "account" msg)) as [name | e] eqn:G;
          [destruct (App.printable name) |]; simpl;
          try (rewrite U, A, O; discriminate).
        rewrite U, O, andb_true_r. simpl. intros T.
        exists msg, (App.prop "account" msg). split; [reflexivity |].
        split; [exact T |]. right. right. split; [exact K |].
        split; [apply (kind_get msg _ "account" K) | apply (get_defined _ _ _ G)].
    + intros (msg & v & -> & T & [[K G] | [(K & G & D) | (K & G & D)]]);
        unfold App.handleData; rewrite K;
        pose proof (fun k => kind_get msg _ k K) as P.
      * rewrite (P "overview") in G. injection G as <-. simpl.
        rewrite T. apply andb_false_r.
      * rewrite (P "user") in G. injection G as <-.
        destruct (App.prop "user" msg); simpl in *;
          try (destruct D as [D1 D2]; congruence);
          rewrite ?T; reflexivity.
      * rewrite (P "account") in G. injection G as <-.
        destruct (App.prop "account" msg); simpl in *;
          try (destruct D as [D1 D2]; congruence);
          rewrite ?T, ?andb_false_r; reflexivity.
Qed.

Lemma page_is_rendered_after_bootstrap_and_snapshot_witness :
  exists msg,
    In (Some msg) hello /\ App.kind msg = Val snapshot
    /\ App.get "overview" msg = Val (App.overview (App.receive hello App.initial)).
Proof.
  pose proof (page_is_rendered_after_bootstrap_and_snapshot hello) as H.
  apply H. reflexivity.
Defined.

(* ===================================================================== *)
(** ** main.tsx: the clean-up of the effect *)
(* ===================================================================== *)

(** X22. The clean-up of the effect clears the pending timer of its run and
    does nothing else: it closes no socket, leaves the singleton and the
    reference, and removes no listener.  In a state of the lifecycle with a
    live socket no timer is pending, so the clean-up changes nothing at all,
    and a later close of the socket is handled as before. *)
Theorem cleanup_only_clears_its_timer :
  forall (w : World) (k : nat),
    sockets (cleanup k w) = sockets w
    /\ __WS_SINGLETON__ (cleanup k w) = __WS_SINGLETON__ w
    /\ wsRef (cleanup k w) = wsRef w
    /\ closures (cleanup k w) = closures w
    /\ sent (cleanup k w) = sent w
    /\ (forall t, is_pending (cleanup k w) t = true -> is_pending w t = true)
    /\ (forall c t, closures w !! k = Some c -> reconnectTimer c = Some t ->
                    is_pending (cleanup k w) t = false)
    /\ (reachable w -> live w <> [] ->
        cleanup k w = w
        /\ forall i code, step (Closes i code) (cleanup k w) = step (Closes i code) w).
Proof.
  intros w k.
  assert (F : forall t, sockets (clearTimeout t w) = sockets w
              /\ __WS_SINGLETON__ (clearTimeout t w) = __WS_SINGLETON__ w
              /\ wsRef (clearTimeout t w) = wsRef w
              /\ closures (clearTimeout t w) = closures w
              /\ sent (clearTimeout t w) = sent w).
  { intros t. unfold clearTimeout. destruct (is_pending w t); auto. }
  assert (P : forall t t', is_pending (clearTimeout t w) t'
                           = is_pending w t' && negb (t =? t')%nat).
  { intros t t'. unfold clearTimeout. destruct (is_pending w t) eqn:E.
    - rewrite is_pending_setTimer. destruct (decide (t = t')) as [<- | D].
      + rewrite Nat.eqb_refl, andb_false_r. now destruct (timers w !! t).
      + apply Nat.eqb_neq in D. now rewrite D, andb_true_r.
    - destruct (Nat.eqb_spec t t') as [<- | D]; [| now rewrite andb_true_r].
      now rewrite E. }
  unfold cleanup.
  destruct (closures w !! k) as [c |] eqn:K; simpl.
  2:{ repeat split; auto; intros; congruence. }
  destruct (reconnectTimer c) as [t |] eqn:T.
  2:{ repeat split; auto; intros; congruence. }
  destruct (F t) as (F1 & F2 & F3 & F4 & F5).
  split; [exact F1 |]. split; [exact F2 |]. split; [exact F3 |].
  split; [exact F4 |]. split; [exact F5 |]. split; [| split].
  - intros t'. rewrite P. now intros [H _]%andb_true_iff.
  - intros c0 t0 [= <-] E. rewrite T in E. injection E as <-.
    rewrite P, Nat.eqb_refl. apply andb_false_r.
  - intros Hr L. destruct (reachable_inv w Hr) as [C _].
    assert (Q : is_pending w t = false).
    { destruct (live w) as [| j r] eqn:E; [done |].
      assert (S : __WS_SINGLETON__ w = Some j)
        by (apply (live_singleton w C); rewrite E; now left).
      apply (conn_quiet w C j t S). }
    assert (X : clearTimeout t w = w) by (unfold clearTimeout; now rewrite Q).
    rewrite X. split; reflexivity.
Qed.

Lemma cleanup_only_clears_its_timer_witness :
  cleanup 0 (step (Opens 0) (mount false true true))
  = step (Opens 0) (mount false true true).
Proof.
  pose proof (cleanup_only_clears_its_timer
                (step (Opens 0) (mount false true true)) 0)
    as (_ & _ & _ & _ & _ & _ & _ & H).
  apply H.
  - apply reach_step, reach_mount.
  - discriminate.
Defined.

(* ===================================================================== *)
(** ** main.tsx: the address of the socket *)
(* ===================================================================== *)

(** X23. The address [resolveWsUrl] gives.  It is a [wss:] address exactly
    when the page was loaded over https from a host other than localhost and
    127.0.0.1, and a [ws:] address otherwise; on these two hosts, and without
    a window, it is port 5611 of localhost whatever the page's own port and
    protocol are; everywhere else it is the host of the page.  Its path is
    always [/ws]. *)
Theorem socket_address_is_secure_iff_page_is :
  forall window : option App.Location,
    let url := App.resolveWsUrl window in
    let local (l : App.Location) :=
      App.hostname l = "localhost" \/ App.hostname l = "127.0.0.1" in
    (JS.starts_with "wss://" url = true
     <-> exists l, window = Some l /\ App.protocol l = "https:" /\ ~ local l)
    /\ (JS.starts_with "wss://" url = false -> JS.starts_with "ws://" url = true)
    /\ (window = None \/ (exists l, window = Some l /\ local l) ->
        url = "ws://localhost:5611/ws")
    /\ (forall l, window = Some l -> ~ local l ->
        exists scheme, url = scheme +:+ "//" +:+ App.host l +:+ "/ws"
                       /\ (scheme = "wss:" \/ scheme = "ws:")).
Proof.
  intros window url local. unfold url, App.resolveWsUrl, local.
  destruct window as [l |].
  2:{ split; [| split; [| split]].
      - split; [discriminate | now intros (l & H & _)].
      - reflexivity.
      - reflexivity.
      - discriminate. }
  destruct (String.eqb_spec (App.hostname l) "localhost") as [H1 | H1]; simpl.
  { split; [| split; [| split]].
    - split; [discriminate |]. intros (l' & [= <-] & _ & N). elim N. now left.
    - reflexivity.
    - reflexivity.
    - intros l' [= <-] N. elim N. now left. }
  destruct (String.eqb_spec (App.hostname l) "127.0.0.1") as [H2 | H2]; simpl.
  { split; [| split; [| split]].
    - split; [discriminate |]. intros (l' & [= <-] & _ & N). elim N. now right.
    - reflexivity.
    - reflexivity.
    - intros l' [= <-] N. elim N. now right. }
  destruct (String.eqb_spec (App.protocol l) "https:") as [P | P]; simpl.
  - split; [| split; [| split]].
    + split; [| reflexivity]. intros _. exists l. intuition.
    + discriminate.
    + intros [H | (l' & [= <-] & [H | H])]; [discriminate | |]; contradiction.
    + intros l' [= <-] _. exists "wss:". auto.
  - split; [| split; [| split]].
    + split; [discriminate |]. intros (l' & [= <-] & P' & _). contradiction.
    + reflexivity.
    + intros [H | (l' & [= <-] & [H | H])]; [discriminate | |]; contradiction.
    + intros l' [= <-] _. exists "ws:". auto.
Qed.

Lemma socket_address_is_secure_iff_page_is_witness :
  JS.starts_with "wss://" (App.resolveWsUrl (Some production_page)) = true.
Proof.
  pose proof (socket_address_is_secure_iff_page_is (Some production_page))
    as (H & _).
  apply H. exists production_page. split; [reflexivity |].
  split; [reflexivity |]. intros [E | E]; discriminate E.
Defined.

(* ===================================================================== *)
(** ** The trading view with the history tabs: the three queries *)
(* ===================================================================== *)

(** X24. [fetchAllData] of the trading view with the history tabs asks for
    balance, positions and open orders, in this order and whatever is
    answered.  When the three calls return, each list is replaced if its
    answer has [success] and kept if not, and nothing is shown; when one of
    them throws, the three lists are all kept, also those whose own answer
    was good, and the error toast is shown.  Form, order history and trades
    are left as they were. *)
Theorem view2_fetch_is_all_or_nothing :
  forall (accountId : Z) (w : Remote) (s : ManualTradingView2.State),
    let r := run (ManualTradingView2.fetchAllData accountId) w s in
    let s' := ManualTradingView2.data (state_of r) in
    let d := ManualTradingView2.data s in
    network (log_of r)
    = [Call (getOKXBalance accountId); Call (getOKXPositions accountId);
       Call (getOKXOpenOrders accountId)]
    /\ ManualTradingView2.form (state_of r) = ManualTradingView2.form s
    /\ ManualTradingView2.orderHistory s' = ManualTradingView2.orderHistory d
    /\ ManualTradingView2.trades s' = ManualTradingView2.trades d
    /\ match api w (getOKXBalance accountId), api w (getOKXPositions accountId),
             api w (getOKXOpenOrders accountId) with
       | Val b, Val p, Val o =>
           ManualTradingView2.balance s'
           = (if Res.success b then Res.assets b else ManualTradingView2.balance d)
           /\ ManualTradingView2.positions s'
              = (if Res.success p then Res.positions p
                 else ManualTradingView2.positions d)
           /\ ManualTradingView2.openOrders s'
              = (if Res.success o then Res.orders o
                 else ManualTradingView2.openOrders d)
           /\ toasts (log_of r) = []
       | _, _, _ =>
           ManualTradingView2.balance s' = ManualTradingView2.balance d
           /\ ManualTradingView2.positions s' = ManualTradingView2.positions d
           /\ ManualTradingView2.openOrders s' = ManualTradingView2.openOrders d
           /\ toasts (log_of r) = [Toast toast_error "Failed to load account data"]
       end.
Proof.
  intros accountId w s r s' d.
  split; [apply view2_fetchAllData_network |].
  split; [apply view2_fetchAllData_form |].
  split; [apply (view2_fetchAllData_orderHistory accountId w s) |].
  split; [apply (view2_fetchAllData_trades accountId w s) |].
  unfold s', d, r, run, ManualTradingView2.fetchAllData.
  unfold try_finally, try_catch, bind, set, call, promise_all3, when, emit, ret,
    state_of, log_of, toasts.
  simpl.
  destruct (api w (getOKXBalance accountId)) as [b | e1]; simpl;
    destruct (api w (getOKXPositions accountId)) as [p | e2]; simpl;
    destruct (api w (getOKXOpenOrders accountId)) as [o | e3]; simpl;
    try (repeat split; fail).
  destruct (Res.success b), (Res.success p), (Res.success o); repeat split.
Qed.
